(** * CHIP-8 interpreter core (package chip8): shallow embedding and checked properties

    The Go package [chip8] keeps the whole machine in one struct, mutated in
    place through a pointer receiver.  Here the struct is a record, every
    method is a function that takes the machine and returns the outcome of
    running the method on it, and Go's fixed-width unsigned integers are
    integers of [Z] with the wrap-around written out.  The screens of
    package [main], which drive the machine from the window, follow the
    package in module [main]. *)

From Stdlib Require Import ZArith Lia List Bool Sorted.
From stdpp Require Import base tactics option list list_numbers strings.

Local Open Scope Z_scope.

Module chip8.

(** ** Constants *)

Definition FB_WIDTH : Z := 64.
Definition FB_HEIGHT : Z := 32.
Definition CHIP8_PROGRAM_START : Z := 0x200.
Definition DIGITS_LEN : Z := 5.

(** ** Machine integers and arrays *)

(** Conversion to [byte]/[uint8] and to [uint16], and the result of an
    arithmetic operation carried out at that width. *)
Definition u8 (z : Z) : Z := z mod 256.
Definition u16 (z : Z) : Z := z mod 65536.

(** [a[i]] for an index the code keeps inside the array (a nibble into the
    16 registers, a wrapped coordinate into the frame buffer). *)
Definition at_ {A} `{Inhabited A} (a : list A) (i : Z) : A := a !!! Z.to_nat i.

(** [a[i] = x], same proviso. *)
Definition upd {A} (a : list A) (i : Z) (x : A) : list A := <[Z.to_nat i := x]> a.

(** [a[lo:hi]]: Go checks [0 <= lo <= hi <= len(a)] (the capacity of an
    array is its length) and panics otherwise. *)
Definition slice {A} (a : list A) (lo hi : Z) : option (list A) :=
  if (lo <=? hi) && (hi <=? Z.of_nat (length a))
  then Some (take (Z.to_nat (hi - lo)) (drop (Z.to_nat lo) a))
  else None.

(** [copy(a[lo:..], src)] where [dst] is the destination slice [a[lo:hi]]:
    [min(len(dst), len(src))] elements are written into [a] from [lo] on. *)
Definition copy {A} (a : list A) (lo : Z) (dst src : list A) : list A :=
  list_inserts (Z.to_nat lo) (take (length dst) src) a.

(** ** The machine *)

Record Chip8 : Type := mkChip8 {
  V : list Z;              (* [16]byte *)
  I : Z;                   (* uint16 *)
  PC : Z;                  (* uint16 *)
  SP : Z;                  (* uint8 *)
  DT : Z;                  (* uint8 *)
  ST : Z;                  (* uint8 *)
  STACK : list Z;          (* [16]uint16 *)
  FRAMEBUFFER : list bool; (* [FB_WIDTH * FB_HEIGHT]bool *)
  RAM : list Z;            (* [4096]byte *)
  KEYBOARD : Z             (* uint16 *)
}.

Definition set_V (v : list Z) (cpu : Chip8) : Chip8 :=
  mkChip8 v (I cpu) (PC cpu) (SP cpu) (DT cpu) (ST cpu) (STACK cpu)
          (FRAMEBUFFER cpu) (RAM cpu) (KEYBOARD cpu).
Definition set_I (i : Z) (cpu : Chip8) : Chip8 :=
  mkChip8 (V cpu) i (PC cpu) (SP cpu) (DT cpu) (ST cpu) (STACK cpu)
          (FRAMEBUFFER cpu) (RAM cpu) (KEYBOARD cpu).
Definition set_PC (pc : Z) (cpu : Chip8) : Chip8 :=
  mkChip8 (V cpu) (I cpu) pc (SP cpu) (DT cpu) (ST cpu) (STACK cpu)
          (FRAMEBUFFER cpu) (RAM cpu) (KEYBOARD cpu).
Definition set_SP (sp : Z) (cpu : Chip8) : Chip8 :=
  mkChip8 (V cpu) (I cpu) (PC cpu) sp (DT cpu) (ST cpu) (STACK cpu)
          (FRAMEBUFFER cpu) (RAM cpu) (KEYBOARD cpu).
Definition set_DT (dt : Z) (cpu : Chip8) : Chip8 :=
  mkChip8 (V cpu) (I cpu) (PC cpu) (SP cpu) dt (ST cpu) (STACK cpu)
          (FRAMEBUFFER cpu) (RAM cpu) (KEYBOARD cpu).
Definition set_ST (st : Z) (cpu : Chip8) : Chip8 :=
  mkChip8 (V cpu) (I cpu) (PC cpu) (SP cpu) (DT cpu) st (STACK cpu)
          (FRAMEBUFFER cpu) (RAM cpu) (KEYBOARD cpu).
Definition set_STACK (s : list Z) (cpu : Chip8) : Chip8 :=
  mkChip8 (V cpu) (I cpu) (PC cpu) (SP cpu) (DT cpu) (ST cpu) s
          (FRAMEBUFFER cpu) (RAM cpu) (KEYBOARD cpu).
Definition set_FRAMEBUFFER (fb : list bool) (cpu : Chip8) : Chip8 :=
  mkChip8 (V cpu) (I cpu) (PC cpu) (SP cpu) (DT cpu) (ST cpu) (STACK cpu)
          fb (RAM cpu) (KEYBOARD cpu).
Definition set_RAM (m : list Z) (cpu : Chip8) : Chip8 :=
  mkChip8 (V cpu) (I cpu) (PC cpu) (SP cpu) (DT cpu) (ST cpu) (STACK cpu)
          (FRAMEBUFFER cpu) m (KEYBOARD cpu).
Definition set_KEYBOARD (k : Z) (cpu : Chip8) : Chip8 :=
  mkChip8 (V cpu) (I cpu) (PC cpu) (SP cpu) (DT cpu) (ST cpu) (STACK cpu)
          (FRAMEBUFFER cpu) (RAM cpu) k.

(** The zero value of the struct, [Chip8{}]. *)
Definition zero : Chip8 :=
  mkChip8 (replicate 16 0) 0 0 0 0 0 (replicate 16 0)
          (replicate 2048 false) (replicate 4096 0) 0.

(** What the Go types guarantee of a machine: array lengths and integer
    ranges. *)
Definition bytes (l : list Z) : Prop := Forall (fun b => 0 <= b < 256) l.
Definition words (l : list Z) : Prop := Forall (fun w => 0 <= w < 65536) l.

Record wf (cpu : Chip8) : Prop := mkwf {
  wf_V_len : length (V cpu) = 16%nat;
  wf_V : bytes (V cpu);
  wf_I : 0 <= I cpu < 65536;
  wf_PC : 0 <= PC cpu < 65536;
  wf_SP : 0 <= SP cpu < 256;
  wf_DT : 0 <= DT cpu < 256;
  wf_ST : 0 <= ST cpu < 256;
  wf_STACK_len : length (STACK cpu) = 16%nat;
  wf_STACK : words (STACK cpu);
  wf_FB_len : length (FRAMEBUFFER cpu) = 2048%nat;
  wf_RAM_len : length (RAM cpu) = 4096%nat;
  wf_RAM : bytes (RAM cpu);
  wf_KEYBOARD : 0 <= KEYBOARD cpu < 65536
}.

(** ** Outcomes

    A method returns normally, or panics (a failed bounds check of the Go
    runtime, or the explicit [panic] of [Fetch]), or never returns (the busy
    wait of [Fx0A] with no key held).  The machine is reached through a
    pointer, so what was written before a panic stays written: a panic
    carries the machine as it stood. *)

Inductive runtime_error : Type :=
  | IndexOutOfRange
  | SliceBoundsOutOfRange
  | CorruptedProgramCounter.

Inductive outcome (A : Type) : Type :=
  | Done (a : A) (cpu : Chip8)
  | Panic (e : runtime_error) (cpu : Chip8)
  | Spin (cpu : Chip8).
Arguments Done {A} a cpu.
Arguments Panic {A} e cpu.
Arguments Spin {A} cpu.

Definition M (A : Type) : Type := Chip8 -> outcome A.

Definition ret {A} (a : A) : M A := fun cpu => Done a cpu.

Definition bind {A B} (m : M A) (k : A -> M B) : M B := fun cpu =>
  match m cpu with
  | Done a cpu' => k a cpu'
  | Panic e cpu' => Panic e cpu'
  | Spin cpu' => Spin cpu'
  end.

Notation "'let*' x ':=' m 'in' k" := (bind m (fun x => k))
  (at level 10, x name, m at level 100, k at level 200, only parsing).

(** A statement that only assigns. *)
Definition assign (f : Chip8 -> Chip8) : M unit := fun cpu => Done tt (f cpu).

(** ** Keyboard *)

Definition IsKeyPressed (key : Z) (cpu : Chip8) : bool :=
  if 15 <? key then false
  else 0 <? Z.land (Z.shiftr (KEYBOARD cpu) (u16 (u8 (16 - 1 - key)))) 0x1.

Definition IsAnyKeyPressed (cpu : Chip8) : bool := 0 <? KEYBOARD cpu.

Definition PressedKeys (cpu : Chip8) : list Z :=
  List.filter (fun k => IsKeyPressed k cpu) (seqZ 0x0 0xF).

Definition UpdateKeyboard (pressedKeys : list Z) (cpu : Chip8) : Chip8 :=
  fold_left
    (fun c v => set_KEYBOARD (Z.lor (KEYBOARD c) (u16 (Z.shiftl 1 (u8 (16 - 1 - v))))) c)
    pressedKeys (set_KEYBOARD 0 cpu).

(** ** Stack *)

Definition StackPush (value : Z) : M unit := fun cpu =>
  if SP cpu <? Z.of_nat (length (STACK cpu))
  then Done tt (set_SP (u8 (SP cpu + 1)) (set_STACK (upd (STACK cpu) (SP cpu) value) cpu))
  else Panic IndexOutOfRange cpu.

Definition StackPop : M Z := fun cpu =>
  let cpu := set_SP (u8 (SP cpu - 1)) cpu in
  match STACK cpu !! Z.to_nat (SP cpu) with
  | Some v => Done v cpu
  | None => Panic IndexOutOfRange cpu
  end.

(** ** Memory *)

Definition ram_load (addr : Z) : M Z := fun cpu =>
  match RAM cpu !! Z.to_nat addr with
  | Some b => Done b cpu
  | None => Panic IndexOutOfRange cpu
  end.

Definition ram_store (addr b : Z) : M unit := fun cpu =>
  if addr <? Z.of_nat (length (RAM cpu))
  then Done tt (set_RAM (upd (RAM cpu) addr b) cpu)
  else Panic IndexOutOfRange cpu.

(** ** Fetch *)

Definition Fetch : M Z := fun cpu =>
  if PC cpu <? CHIP8_PROGRAM_START then Panic CorruptedProgramCounter cpu
  else
    (let* byte1 := ram_load (PC cpu) in
     let* byte2 := ram_load (u16 (PC cpu + 1)) in
     let* _ := assign (set_PC (u16 (PC cpu + 2))) in
     ret (Z.lor (u16 (Z.shiftl byte1 8)) byte2)) cpu.

(** ** Display compositor *)

(** The body of the inner loop of [DrawSprite], for row [dy] holding byte
    [v], at column offset [index]. *)
Definition draw_bit (vx vy dy v : Z) (cpu : Chip8) (index : Z) : Chip8 :=
  let dx := u8 (8 - 1 - index) in
  let pixel := 0 <? Z.land (Z.shiftr v dx) 1 in
  let x := u16 (u8 (vx + index)) mod FB_WIDTH in
  let y := u16 (u8 (vy + u8 dy)) mod FB_HEIGHT in
  let loc := y * FB_WIDTH + x in
  let old := at_ (FRAMEBUFFER cpu) loc in
  if pixel then
    let cpu := if old then set_V (upd (V cpu) 0xF 1) cpu else cpu in
    set_FRAMEBUFFER (upd (FRAMEBUFFER cpu) loc (negb old)) cpu
  else cpu.

(** [for index := byte(0); index < 8; index += 1]. *)
Definition draw_row (vx vy dy v : Z) (cpu : Chip8) : Chip8 :=
  fold_left (draw_bit vx vy dy v) (seqZ 0 8) cpu.

(** [for dy, v := range bytes { body }], the row number [dy] counting up
    from [from]. *)
Fixpoint range_loop (body : Z -> Z -> Chip8 -> Chip8)
    (from : Z) (bytes : list Z) (cpu : Chip8) : Chip8 :=
  match bytes with
  | [] => cpu
  | v :: rest => range_loop body (from + 1) rest (body from v cpu)
  end.

Definition DrawSprite (vx vy : Z) (bytes : list Z) (cpu : Chip8) : Chip8 :=
  range_loop (draw_row vx vy) 0 bytes (set_V (upd (V cpu) 0xF 0) cpu).

(** ** Decoder/executor: one definition per arm of the dispatch chain *)

(** 00E0: [clear(cpu.FRAMEBUFFER[:])]. *)
Definition op_00E0 : M unit := fun cpu =>
  Done tt (set_FRAMEBUFFER (replicate (length (FRAMEBUFFER cpu)) false) cpu).

(** 00EE: [cpu.PC = cpu.StackPop()]. *)
Definition op_00EE : M unit :=
  let* pc := StackPop in assign (set_PC pc).

(** 1nnn - JP addr. *)
Definition op_1nnn (instruction : Z) : M unit :=
  assign (set_PC (Z.land instruction 0x0FFF)).

(** 2nnn - CALL addr. *)
Definition op_2nnn (instruction : Z) : M unit := fun cpu =>
  (let* _ := StackPush (PC cpu) in
   assign (set_PC (Z.land instruction 0x0FFF))) cpu.

(** [cpu.PC += 2]. *)
Definition skip (cond : bool) (cpu : Chip8) : Chip8 :=
  if cond then set_PC (u16 (PC cpu + 2)) cpu else cpu.

(** 3xkk - SE Vx, byte. *)
Definition op_3xkk (instruction x : Z) : M unit := fun cpu =>
  Done tt (skip (at_ (V cpu) x =? u8 (Z.land instruction 0x00FF)) cpu).

(** 4xkk - SNE Vx, byte. *)
Definition op_4xkk (instruction x : Z) : M unit := fun cpu =>
  Done tt (skip (negb (at_ (V cpu) x =? u8 instruction)) cpu).

(** 5xy0 - SE Vx, Vy. *)
Definition op_5xy0 (x y : Z) : M unit := fun cpu =>
  Done tt (skip (at_ (V cpu) x =? at_ (V cpu) y) cpu).

(** 6xkk - LD Vx, byte. *)
Definition op_6xkk (instruction x : Z) : M unit := fun cpu =>
  Done tt (set_V (upd (V cpu) x (u8 (Z.land instruction 0x00FF))) cpu).

(** 7xkk - ADD Vx, byte. *)
Definition op_7xkk (instruction x : Z) : M unit := fun cpu =>
  Done tt (set_V (upd (V cpu) x (u8 (at_ (V cpu) x + u8 (Z.land instruction 0x00FF)))) cpu).

(** 8xy0 - LD Vx, Vy. *)
Definition op_8xy0 (x y : Z) : M unit := fun cpu =>
  Done tt (set_V (upd (V cpu) x (at_ (V cpu) y)) cpu).

(** 8xy1 - OR Vx, Vy. *)
Definition op_8xy1 (x y : Z) : M unit := fun cpu =>
  Done tt (set_V (upd (V cpu) x (Z.lor (at_ (V cpu) x) (at_ (V cpu) y))) cpu).

(** 8xy2 - AND Vx, Vy. *)
Definition op_8xy2 (x y : Z) : M unit := fun cpu =>
  Done tt (set_V (upd (V cpu) x (Z.land (at_ (V cpu) x) (at_ (V cpu) y))) cpu).

(** 8xy3 - XOR Vx, Vy. *)
Definition op_8xy3 (x y : Z) : M unit := fun cpu =>
  Done tt (set_V (upd (V cpu) x (Z.lxor (at_ (V cpu) x) (at_ (V cpu) y))) cpu).

(** 8xy4 - ADD Vx, Vy: the flag is written first, the sum second. *)
Definition op_8xy4 (x y : Z) : M unit := fun cpu =>
  let sum := u16 (u16 (at_ (V cpu) x) + u16 (at_ (V cpu) y)) in
  let cpu :=
    if 0xFF <? sum then set_V (upd (V cpu) 0xF 1) cpu
    else set_V (upd (V cpu) 0xF 0) cpu in
  Done tt (set_V (upd (V cpu) x (u8 sum)) cpu).

(** 8xy5 - SUB Vx, Vy: the difference is written first, the flag second. *)
Definition op_8xy5 (x y : Z) : M unit := fun cpu =>
  let vx := at_ (V cpu) x in
  let vy := at_ (V cpu) y in
  let cpu := set_V (upd (V cpu) x (u8 (vx - vy))) cpu in
  Done tt (if vy <=? vx then set_V (upd (V cpu) 0xF 1) cpu
           else set_V (upd (V cpu) 0xF 0) cpu).

(** 8xy6 - SHR Vx {, Vy}. *)
Definition op_8xy6 (x : Z) : M unit := fun cpu =>
  let vx := at_ (V cpu) x in
  let cpu := set_V (upd (V cpu) x (Z.shiftr vx 1)) cpu in
  Done tt (set_V (upd (V cpu) 0xF (Z.land vx 0x01)) cpu).

(** 8xy7 - SUBN Vx, Vy. *)
Definition op_8xy7 (x y : Z) : M unit := fun cpu =>
  let vx := at_ (V cpu) x in
  let vy := at_ (V cpu) y in
  let cpu := set_V (upd (V cpu) x (u8 (vy - vx))) cpu in
  Done tt (if vx <=? vy then set_V (upd (V cpu) 0xF 1) cpu
           else set_V (upd (V cpu) 0xF 0) cpu).

(** 8xyE - SHL Vx {, Vy}. *)
Definition op_8xyE (x : Z) : M unit := fun cpu =>
  let vx := at_ (V cpu) x in
  let cpu := set_V (upd (V cpu) x (u8 (Z.shiftl vx 1))) cpu in
  Done tt (set_V (upd (V cpu) 0xF (Z.land (Z.shiftr vx 7) 0x01)) cpu).

(** 9xy0 - SNE Vx, Vy. *)
Definition op_9xy0 (x y : Z) : M unit := fun cpu =>
  Done tt (skip (negb (at_ (V cpu) y =? at_ (V cpu) x)) cpu).

(** Annn - LD I, addr. *)
Definition op_Annn (instruction : Z) : M unit :=
  assign (set_I (Z.land instruction 0x0FFF)).

(** Bnnn - JP V0, addr. *)
Definition op_Bnnn (instruction : Z) : M unit := fun cpu =>
  Done tt (set_PC (u16 (Z.land instruction 0x0FFF + at_ (V cpu) 0)) cpu).

(** Cxkk - RND Vx, byte; [rnd] is what [rand.Intn(256)] returned. *)
Definition op_Cxkk (rnd instruction x : Z) : M unit := fun cpu =>
  Done tt (set_V (upd (V cpu) x (Z.land (u8 rnd) (u8 (Z.land instruction 0x00FF)))) cpu).

(** Dxyn - DRW Vx, Vy, nibble. *)
Definition op_Dxyn (instruction x y : Z) : M unit := fun cpu =>
  let n := Z.land instruction 0x000F in
  match slice (RAM cpu) (I cpu) (u16 (I cpu + n)) with
  | Some sprite => Done tt (DrawSprite (at_ (V cpu) x) (at_ (V cpu) y) sprite cpu)
  | None => Panic SliceBoundsOutOfRange cpu
  end.

(** Ex9E - SKP Vx. *)
Definition op_Ex9E (x : Z) : M unit := fun cpu =>
  Done tt (skip (IsKeyPressed (at_ (V cpu) x) cpu) cpu).

(** ExA1 - SKNP Vx. *)
Definition op_ExA1 (x : Z) : M unit := fun cpu =>
  Done tt (skip (negb (IsKeyPressed (at_ (V cpu) x) cpu)) cpu).

(** Fx07 - LD Vx, DT. *)
Definition op_Fx07 (x : Z) : M unit := fun cpu =>
  Done tt (set_V (upd (V cpu) x (DT cpu)) cpu).

(** Fx0A - LD Vx, K: busy wait until [KEYBOARD] is non-zero (nothing in
    the loop changes it), then [cpu.PressedKeys()[0]]. *)
Definition op_Fx0A (x : Z) : M unit := fun cpu =>
  if negb (IsAnyKeyPressed cpu) then Spin cpu
  else
    match PressedKeys cpu !! 0%nat with
    | Some k => Done tt (set_V (upd (V cpu) x k) cpu)
    | None => Panic IndexOutOfRange cpu
    end.

(** Fx15 - LD DT, Vx. *)
Definition op_Fx15 (x : Z) : M unit := fun cpu =>
  Done tt (set_DT (at_ (V cpu) x) cpu).

(** Fx18 - LD ST, Vx. *)
Definition op_Fx18 (x : Z) : M unit := fun cpu =>
  Done tt (set_ST (at_ (V cpu) x) cpu).

(** Fx1E - ADD I, Vx. *)
Definition op_Fx1E (x : Z) : M unit := fun cpu =>
  Done tt (set_I (u16 (I cpu + u16 (at_ (V cpu) x))) cpu).

(** Fx29 - LD F, Vx. *)
Definition op_Fx29 (x : Z) : M unit := fun cpu =>
  Done tt (set_I (u16 (u16 (at_ (V cpu) x) * DIGITS_LEN)) cpu).

(** Fx33 - LD B, Vx: three indexed stores, each bounds-checked in turn. *)
Definition op_Fx33 (x : Z) : M unit := fun cpu =>
  (let* _ := ram_store (I cpu) (at_ (V cpu) x / 100) in
   let* _ := ram_store (u16 (I cpu + 1)) ((at_ (V cpu) x / 10) mod 10) in
   ram_store (u16 (I cpu + 2)) (at_ (V cpu) x mod 10)) cpu.

(** Fx55 - LD [I], Vx. *)
Definition op_Fx55 (x : Z) : M unit := fun cpu =>
  match slice (RAM cpu) (I cpu) (u16 (I cpu + x + 1)), slice (V cpu) 0 (u16 (x + 1)) with
  | Some dst, Some src => Done tt (set_RAM (copy (RAM cpu) (I cpu) dst src) cpu)
  | _, _ => Panic SliceBoundsOutOfRange cpu
  end.

(** Fx65 - LD Vx, [I]. *)
Definition op_Fx65 (x : Z) : M unit := fun cpu =>
  match slice (V cpu) 0 (u16 (x + 1)), slice (RAM cpu) (I cpu) (u16 (I cpu + x + 1)) with
  | Some dst, Some src => Done tt (set_V (copy (V cpu) 0 dst src) cpu)
  | _, _ => Panic SliceBoundsOutOfRange cpu
  end.

(** The dispatch: a [switch] on the two exact words, then the chain of
    masked comparisons, in source order; falling off the end of the chain
    does nothing. *)
Definition DecodeExecute (rnd instruction : Z) : M unit :=
  if instruction =? 0x00E0 then op_00E0
  else if instruction =? 0x00EE then op_00EE
  else
    let x := Z.shiftr (Z.land instruction 0x0F00) 8 in
    let y := Z.shiftr (Z.land instruction 0x00F0) 4 in
    if Z.land instruction 0xF000 =? 0x1000 then op_1nnn instruction
    else if Z.land instruction 0xF000 =? 0x2000 then op_2nnn instruction
    else if Z.land instruction 0xF000 =? 0x3000 then op_3xkk instruction x
    else if Z.land instruction 0xF000 =? 0x4000 then op_4xkk instruction x
    else if Z.land instruction 0xF00F =? 0x5000 then op_5xy0 x y
    else if Z.land instruction 0xF000 =? 0x6000 then op_6xkk instruction x
    else if Z.land instruction 0xF000 =? 0x7000 then op_7xkk instruction x
    else if Z.land instruction 0xF00F =? 0x8000 then op_8xy0 x y
    else if Z.land instruction 0xF00F =? 0x8001 then op_8xy1 x y
    else if Z.land instruction 0xF00F =? 0x8002 then op_8xy2 x y
    else if Z.land instruction 0xF00F =? 0x8003 then op_8xy3 x y
    else if Z.land instruction 0xF00F =? 0x8004 then op_8xy4 x y
    else if Z.land instruction 0xF00F =? 0x8005 then op_8xy5 x y
    else if Z.land instruction 0xF00F =? 0x8006 then op_8xy6 x
    else if Z.land instruction 0xF00F =? 0x8007 then op_8xy7 x y
    else if Z.land instruction 0xF00F =? 0x800E then op_8xyE x
    else if Z.land instruction 0xF00F =? 0x9000 then op_9xy0 x y
    else if Z.land instruction 0xF000 =? 0xA000 then op_Annn instruction
    else if Z.land instruction 0xF000 =? 0xB000 then op_Bnnn instruction
    else if Z.land instruction 0xF000 =? 0xC000 then op_Cxkk rnd instruction x
    else if Z.land instruction 0xF000 =? 0xD000 then op_Dxyn instruction x y
    else if Z.land instruction 0xF0FF =? 0xE09E then op_Ex9E x
    else if Z.land instruction 0xF0FF =? 0xE0A1 then op_ExA1 x
    else if Z.land instruction 0xF0FF =? 0xF007 then op_Fx07 x
    else if Z.land instruction 0xF0FF =? 0xF00A then op_Fx0A x
    else if Z.land instruction 0xF0FF =? 0xF015 then op_Fx15 x
    else if Z.land instruction 0xF0FF =? 0xF018 then op_Fx18 x
    else if Z.land instruction 0xF0FF =? 0xF01E then op_Fx1E x
    else if Z.land instruction 0xF0FF =? 0xF029 then op_Fx29 x
    else if Z.land instruction 0xF0FF =? 0xF033 then op_Fx33 x
    else if Z.land instruction 0xF0FF =? 0xF055 then op_Fx55 x
    else if Z.land instruction 0xF0FF =? 0xF065 then op_Fx65 x
    else ret tt.

Definition UpdateTimers (cpu : Chip8) : Chip8 :=
  let cpu := if 0 <? ST cpu then set_ST (u8 (ST cpu - 1)) cpu else cpu in
  if 0 <? DT cpu then set_DT (u8 (DT cpu - 1)) cpu else cpu.

Definition Step (rnd : Z) : M unit :=
  let* instruction := Fetch in DecodeExecute rnd instruction.

(** [copy(cpu.RAM[location:], rom[:])]. *)
Definition LoadRom (rom : list Z) (location : Z) : M unit := fun cpu =>
  match slice (RAM cpu) location (Z.of_nat (length (RAM cpu))) with
  | Some dst => Done tt (set_RAM (copy (RAM cpu) location dst rom) cpu)
  | None => Panic SliceBoundsOutOfRange cpu
  end.

(** The driver's loop, for [n] instructions: [cpu.Step()] again and again. *)
Fixpoint run (n : nat) (rnd : Z) : M unit :=
  match n with
  | O => ret tt
  | S n => let* _ := Step rnd in run n rnd
  end.

(** [Initialize], with the two files read: [digits] is what
    [LoadRomFromFile("chip8/digits.rom")] returned and [rom] what
    [LoadRomFromFile] returned for the chosen program.  The reads and their
    failures are in [main.InitializeFromFiles] below. *)
Definition Initialize (digits rom : list Z) : M unit :=
  let* _ := LoadRom digits 0 in
  let* _ := LoadRom rom CHIP8_PROGRAM_START in
  assign (set_PC CHIP8_PROGRAM_START).

(** ** Console output *)

(** A call of [fmt.Printf], [fmt.Print] or [fmt.Println]: the format as the
    source writes it and the values of the arguments. *)
Inductive print_call : Type :=
  | Printf (format : string) (args : list Z)
  | Print (text : string)
  | Println.

(** [PrintDebugCompact], as the list of its print calls in order.  The
    sixteen registers are read with the loop index and the two memory bytes
    under the guard [cpu.PC < 4095]. *)
Definition PrintDebugCompact (cpu : Chip8) : list print_call :=
  [ Printf "PC:0x%04X I:0x%04X SP:%d DT:%d ST:%d | "
           [PC cpu; I cpu; SP cpu; DT cpu; ST cpu];
    Print "V:" ]
  ++ ((fun i => Printf "%02X " [at_ (V cpu) i]) <$> seqZ 0 16)
  ++ (if PC cpu <? 4095
      then [ Printf "| Instr:0x%04X"
               [Z.lor (u16 (Z.shiftl (u16 (at_ (RAM cpu) (PC cpu))) 8))
                      (u16 (at_ (RAM cpu) (u16 (PC cpu + 1))))] ]
      else [])
  ++ [ Println ].

(** * Package main: the window

    The program draws with raylib and reads the keyboard through it.  What
    it asks raylib to draw is kept as the list of the drawing calls, in
    order.  What raylib answers about the keys, the order in which the Go
    runtime ranges over a map, and the files that [os.ReadFile] finds are
    arguments. *)
Module main.

(** Conversion to [int32] and to [int] (64 bits), and arithmetic at that
    width. *)
Definition i32 (z : Z) : Z := (z + 2 ^ 31) mod 2 ^ 32 - 2 ^ 31.
Definition i64 (z : Z) : Z := (z + 2 ^ 63) mod 2 ^ 64 - 2 ^ 63.

Definition WINDOW_SCALING : Z := 13.
Definition windowWidth : Z := FB_WIDTH * WINDOW_SCALING.
Definition windowHeight : Z := FB_HEIGHT * WINDOW_SCALING.

(** The key constants and the colours of raylib that the program names. *)
Inductive Key : Type :=
  | KeyA | KeyB | KeyC | KeyD | KeyE | KeyF
  | KeyZero | KeyOne | KeyTwo | KeyThree | KeyFour
  | KeyFive | KeySix | KeySeven | KeyEight | KeyNine
  | KeyDown | KeyUp | KeyEnter.

Inductive Color : Type := White | RayWhite | DarkGray | Red.

(** A text made by [fmt.Sprintf] or [fmt.Fprintf]: the format as the source
    writes it and the arguments. *)
Inductive arg : Type := Int (z : Z) | Str (s : string).
Inductive text : Type := Sprintf (format : string) (args : list arg).

(** The drawing calls.  [DrawTextEx] takes the pieces written to the string
    builder, the position vector ([X], [Y]), the font size, the spacing and
    the tint; its font is the one loaded by [main]. *)
Inductive call : Type :=
  | ClearBackground (color : Color)
  | DrawRectangle (posX posY width height : Z) (color : Color)
  | DrawText (s : text) (posX posY fontSize : Z) (color : Color)
  | DrawCircle (centerX centerY radius : Z) (color : Color)
  | DrawTextEx (s : list text) (x y fontSize spacing : Z) (tint : Color)
  | BeginDrawing
  | EndDrawing.

Definition KEY_MAP : list (Key * Z) :=
  [ (KeyA, 0xA); (KeyB, 0xB); (KeyC, 0xC); (KeyD, 0xD); (KeyE, 0xE); (KeyF, 0xF);
    (KeyZero, 0x0); (KeyOne, 0x1); (KeyTwo, 0x2); (KeyThree, 0x3); (KeyFour, 0x4);
    (KeyFive, 0x5); (KeySix, 0x6); (KeySeven, 0x7); (KeyEight, 0x8); (KeyNine, 0x9) ].

(** What one turn of the drawing loop finds outside the program: the keys
    that are down, the keys released since the turn before, and the order in
    which [range KEY_MAP] yields the entries of the map this time. *)
Record Frame : Type := mkFrame {
  IsKeyDown : Key -> bool;
  IsKeyReleased : Key -> bool;
  range_KEY_MAP : list (Key * Z)
}.

Inductive Screen : Type := RomSelect | EmulatorScreen.

(** The package variables that change, and the machine that [main]
    allocates. *)
Record Program : Type := mkProgram {
  currentRomCursorIndex : Z;   (* int *)
  currentScreen : Screen;
  cpu : Chip8
}.

(** How a function of the package ends: it returns, or it panics with a
    value, or it never returns; the program is as it stood and the drawing
    calls are those made until then. *)
Inductive panic_value : Type :=
  | RuntimeError (e : runtime_error)
  | IntegerDivideByZero
  | ReadFileError (filePath : string).

Inductive result : Type :=
  | Returned (p : Program) (calls : list call)
  | Panicked (v : panic_value) (p : Program) (calls : list call)
  | Hung (p : Program) (calls : list call).

(** [renderCpuDebug]. *)
Definition renderCpuDebug (cpu : Chip8) : list call :=
  [ DrawTextEx
      (Sprintf "PC:0x%04X\tI:0x%04X\tSP:%2d\tDT:%2d\tST:%2d\t|\tV:"
               [Int (PC cpu); Int (I cpu); Int (SP cpu); Int (DT cpu); Int (ST cpu)]
       :: ((fun i => Sprintf "%02X\t" [Int (at_ (V cpu) i)])
             <$> seqZ 0 (Z.of_nat (length (V cpu)))))
      0 0 15 0 RayWhite ].

(** [RenderDisplay]: the rows top to bottom, each left to right. *)
Definition RenderDisplay (showDebug : bool) (cpu : Chip8) : list call :=
  (y ← seqZ 0 FB_HEIGHT;
   x ← seqZ 0 FB_WIDTH;
   if at_ (FRAMEBUFFER cpu) (y * FB_WIDTH + x)
   then [DrawRectangle (x * WINDOW_SCALING) (y * WINDOW_SCALING)
                       WINDOW_SCALING WINDOW_SCALING White]
   else [])
  ++ (if showDebug then renderCpuDebug cpu else []).

(** [PressedKeys] of package main. *)
Definition PressedKeys (f : Frame) : list Z :=
  snd <$> List.filter (fun kv => IsKeyDown f (fst kv)) (range_KEY_MAP f).

(** [RenderEmulatorScreen]. *)
Definition RenderEmulatorScreen (showDebug : bool) (f : Frame) (cpu : Chip8)
    : Chip8 * list call :=
  let cpu := UpdateKeyboard (PressedKeys f) cpu in
  (cpu, ClearBackground DarkGray :: RenderDisplay showDebug cpu).

(** [Initialize] with its two file reads: [ReadFile] gives the bytes of a
    file, or nothing when [os.ReadFile] returns an error, on which
    [LoadRomFromFile] panics.  The rom names come from a listing of the
    directory [roms], so that [path.Join] puts the name behind [roms/].
    The lines written to the console are left out. *)
Definition InitializeFromFiles (ReadFile : string -> option (list Z))
    (romPath : string) (cpu : Chip8) : outcome unit + panic_value * Chip8 :=
  match ReadFile "chip8/digits.rom" with
  | None => inr (ReadFileError "chip8/digits.rom", cpu)
  | Some digits =>
      match LoadRom digits 0 cpu with
      | Done _ cpu1 =>
          match ReadFile ("roms/" +:+ romPath) with
          | None => inr (ReadFileError ("roms/" +:+ romPath), cpu1)
          | Some rom => inl (Initialize digits rom cpu)
          end
      | o => inl o
      end
  end.

(** [for i, romPath := range availableRoms { ... }] of
    [RenderRomSelectScreen], from entry [i] on with the column at [baseX].
    [baseX] is a float32 that only ever holds whole numbers, 45 and 120 more
    for every entry below the window: they are kept exactly while below
    2^24, that is for fewer than 139 thousand entries, and that far the
    model goes. *)
Fixpoint draw_roms (cursor : Z) (i baseX : Z) (roms : list string) : list call :=
  match roms with
  | [] => []
  | romPath :: rest =>
      let s := Sprintf "%d - %s" [Int i; Str romPath] in
      let currentY := 30 * (i + 1) - 6 * i in
      let baseX := if windowHeight <=? currentY then baseX + 120 else baseX in
      DrawText s (i32 baseX) (i32 currentY) 14 DarkGray
      :: (if cursor =? i
          then [DrawCircle (i32 (i32 baseX - 10)) (i32 (i32 currentY + 6)) 5 Red]
          else [])
      ++ draw_roms cursor (i + 1) baseX rest
  end.

(** [RenderRomSelectScreen]: the released key is acted on first, [Down]
    before [Up] before [Enter], and the list is drawn after, with the cursor
    as it then is.  [%] is Go's remainder, [Z.rem], and panics on a zero
    divisor. *)
Definition RenderRomSelectScreen (ReadFile : string -> option (list Z))
    (availableRoms : list string) (f : Frame) (p : Program) : result :=
  let calls := [ClearBackground RayWhite] in
  let len := Z.of_nat (length availableRoms) in
  let handled : result :=
    if IsKeyReleased f KeyDown then
      if len =? 0 then
        Panicked IntegerDivideByZero
          (mkProgram (i64 (currentRomCursorIndex p + 1)) (currentScreen p) (cpu p)) calls
      else
        Returned (mkProgram (Z.rem (i64 (currentRomCursorIndex p + 1)) len)
                            (currentScreen p) (cpu p)) calls
    else if IsKeyReleased f KeyUp then
      if 0 <? currentRomCursorIndex p then
        Returned (mkProgram (currentRomCursorIndex p - 1) (currentScreen p) (cpu p)) calls
      else
        Returned (mkProgram (len - 1) (currentScreen p) (cpu p)) calls
    else if IsKeyReleased f KeyEnter then
      if (0 <=? currentRomCursorIndex p) && (currentRomCursorIndex p <? len) then
        match InitializeFromFiles ReadFile
                (at_ availableRoms (currentRomCursorIndex p)) (cpu p) with
        | inl (Done _ cpu') =>
            Returned (mkProgram (currentRomCursorIndex p) EmulatorScreen cpu') calls
        | inl (Panic e cpu') =>
            Panicked (RuntimeError e)
              (mkProgram (currentRomCursorIndex p) (currentScreen p) cpu') calls
        | inl (Spin cpu') =>
            Hung (mkProgram (currentRomCursorIndex p) (currentScreen p) cpu') calls
        | inr (v, cpu') =>
            Panicked v (mkProgram (currentRomCursorIndex p) (currentScreen p) cpu') calls
        end
      else Panicked (RuntimeError IndexOutOfRange) p calls
    else Returned p calls in
  match handled with
  | Returned p calls =>
      Returned p (calls ++ draw_roms (currentRomCursorIndex p) 0 45 availableRoms)
  | stopped => stopped
  end.

(** One turn of the loop of [main]. *)
Definition turn (ReadFile : string -> option (list Z)) (availableRoms : list string)
    (showDebug : bool) (f : Frame) (p : Program) : result :=
  match currentScreen p with
  | RomSelect =>
      match RenderRomSelectScreen ReadFile availableRoms f p with
      | Returned p calls => Returned p (BeginDrawing :: calls ++ [EndDrawing])
      | Panicked v p calls => Panicked v p (BeginDrawing :: calls)
      | Hung p calls => Hung p (BeginDrawing :: calls)
      end
  | EmulatorScreen =>
      let '(cpu', calls) := RenderEmulatorScreen showDebug f (cpu p) in
      Returned (mkProgram (currentRomCursorIndex p) (currentScreen p) cpu')
               (BeginDrawing :: calls ++ [EndDrawing])
  end.

End main.

(** * Vocabulary of the statements

    What follows is not code of the package: it names what the statements
    below talk about. *)

(** ** Decoding *)

(** The register operands of an instruction word, as [DecodeExecute]
    extracts them. *)
Definition X (instruction : Z) : Z := Z.shiftr (Z.land instruction 0x0F00) 8.
Definition Y (instruction : Z) : Z := Z.shiftr (Z.land instruction 0x00F0) 4.

(** ** Well-formed machines, decidably *)

Definition byteb (b : Z) : bool := (0 <=? b) && (b <? 256).
Definition wordb (w : Z) : bool := (0 <=? w) && (w <? 65536).

(** [wf] as a check that runs. *)
Definition wfb (cpu : Chip8) : bool :=
  (length (V cpu) =? 16)%nat && forallb byteb (V cpu)
  && wordb (I cpu) && wordb (PC cpu)
  && byteb (SP cpu) && byteb (DT cpu) && byteb (ST cpu)
  && (length (STACK cpu) =? 16)%nat && forallb wordb (STACK cpu)
  && (length (FRAMEBUFFER cpu) =? 2048)%nat
  && (length (RAM cpu) =? 4096)%nat && forallb byteb (RAM cpu)
  && wordb (KEYBOARD cpu).

(** ** Display *)

(** Sprite bit [dx] of a row byte: the bits of a row run left to right
    from the most significant one, so column offset [dx] is bit [7 - dx]. *)
Definition sprite_bit (v dx : Z) : bool := Z.testbit v (7 - dx).

(** Row-major index of the display pixel at column [col] of row [row]. *)
Definition pixel (col row : Z) : Z := row * FB_WIDTH + col.

(** Where sprite bit [dx] of sprite row [dy] lands for origin [(vx, vy)]. *)
Definition target (vx vy dy dx : Z) : Z :=
  pixel ((vx + dx) mod 64) ((vy + dy) mod 32).

(** One sprite bit put on the display: what the body of the inner loop
    does with the pixel index and the bit it has computed. *)
Definition plot (cpu : Chip8) (p : Z * bool) : Chip8 :=
  let old := at_ (FRAMEBUFFER cpu) (fst p) in
  if snd p then
    let cpu := if old then set_V (upd (V cpu) 0xF 1) cpu else cpu in
    set_FRAMEBUFFER (upd (FRAMEBUFFER cpu) (fst p) (negb old)) cpu
  else cpu.

(** The pixel index and bit of every step of the two loops, in the order
    of execution, from row number [dy] on. *)
Definition row_plots (vx vy dy v : Z) : list (Z * bool) :=
  (fun dx => (target vx vy dy dx, sprite_bit v dx)) <$> seqZ 0 8.

Fixpoint plots (vx vy dy : Z) (bytes : list Z) : list (Z * bool) :=
  match bytes with
  | [] => []
  | v :: rest => row_plots vx vy dy v ++ plots vx vy (dy + 1) rest
  end.

(** [touches_display_only cpu cpu']: going from [cpu] to [cpu'] changed
    nothing but display pixels and register 0xF. *)
Record touches_display_only (cpu cpu' : Chip8) : Prop := mk_touches {
  same_I : I cpu' = I cpu;
  same_PC : PC cpu' = PC cpu;
  same_SP : SP cpu' = SP cpu;
  same_DT : DT cpu' = DT cpu;
  same_ST : ST cpu' = ST cpu;
  same_STACK : STACK cpu' = STACK cpu;
  same_RAM : RAM cpu' = RAM cpu;
  same_KEYBOARD : KEYBOARD cpu' = KEYBOARD cpu;
  same_V_len : length (V cpu') = length (V cpu);
  same_FB_len : length (FRAMEBUFFER cpu') = length (FRAMEBUFFER cpu);
  same_V : forall i, 0 <= i -> i <> 0xF -> at_ (V cpu') i = at_ (V cpu) i
}.

(** XOR of the sprite bits that the steps [ps] put on pixel [p]. *)
Definition parity (ps : list (Z * bool)) (p : Z) : bool :=
  foldr (fun q acc => xorb (snd q && (fst q =? p)) acc) false ps.

(** Every step of [ps] aims at a pixel of a display of [n] pixels. *)
Definition on_display (n : nat) (ps : list (Z * bool)) : Prop :=
  Forall (fun q => 0 <= fst q < Z.of_nat n) ps.

(** Step [q] puts a set sprite bit on a pixel that is lit in [fb]. *)
Definition hits (fb : list bool) (q : Z * bool) : bool := snd q && at_ fb (fst q).

(** The compositor in the words of its contract, "XOR each of the 8 pixels
    per row onto the display at ((vx+dx) mod 64, (vy+dy) mod 32)": one XOR
    per sprite bit, for [dy] over the rows and [dx] from 0 to 7. *)
Definition xor_onto (fb : list bool) (q : Z * bool) : list bool :=
  upd fb (fst q) (xorb (at_ fb (fst q)) (snd q)).

Definition xor_sprite (vx vy : Z) (bytes : list Z) (fb : list bool) : list bool :=
  fold_left xor_onto (plots vx vy 0 bytes) fb.

(** The pixels that a one-row sprite of eight set bits at (60, 0) lights on
    a dark display, checked pixel by pixel. *)
Definition edge_row_lit (fb : list bool) : bool :=
  forallb (fun row =>
    forallb (fun col =>
      Bool.eqb (at_ fb (pixel col row))
               ((row =? 0) && ((60 <=? col) || (col <=? 3))))
      (seqZ 0 64))
    (seqZ 0 32).

(** ** Stack *)

(** The machine between a call and its matching return: it may execute
    any instruction words that return, and fetches, timer ticks and
    keyboard updates (whatever leaves the stack array and the stack pointer
    alone) may come in between, as long as the stack stays at depth [d] or
    deeper. *)
Inductive runs_above (d : Z) : Chip8 -> Chip8 -> Prop :=
  | runs_here cpu :
      d <= SP cpu -> runs_above d cpu cpu
  | runs_execute cpu rnd ins cpu1 cpu2 :
      d <= SP cpu -> DecodeExecute rnd ins cpu = Done tt cpu1 ->
      runs_above d cpu1 cpu2 -> runs_above d cpu cpu2
  | runs_aside cpu cpu1 cpu2 :
      SP cpu1 = SP cpu -> STACK cpu1 = STACK cpu ->
      runs_above d cpu1 cpu2 -> runs_above d cpu cpu2.

(** Sixteen nested calls and their returns, run from memory: the call at
    0x200 + 4k goes to 0x200 + 4(k+1), and a return sits behind every
    call and at 0x240. *)
Definition nest16 : list Z :=
  flat_map (fun k => [0x22; 0x04 + 4 * k; 0x00; 0xEE]) (seqZ 0 16) ++ [0x00; 0xEE].

(** The zero machine with [rom] loaded at 0x200 and the program counter
    set there, as [Initialize] leaves it (less the digit sprites). *)
Definition loaded (rom : list Z) : Chip8 :=
  match LoadRom rom CHIP8_PROGRAM_START zero with
  | Done _ cpu => set_PC CHIP8_PROGRAM_START cpu
  | _ => zero
  end.

(** ** Unknown instruction words *)

(** The comparisons of the dispatch chain: a mask and the value the masked
    word is compared with, in source order. *)
Definition opcode_masks : list (Z * Z) :=
  [ (0xF000, 0x1000); (0xF000, 0x2000); (0xF000, 0x3000); (0xF000, 0x4000);
    (0xF00F, 0x5000); (0xF000, 0x6000); (0xF000, 0x7000);
    (0xF00F, 0x8000); (0xF00F, 0x8001); (0xF00F, 0x8002); (0xF00F, 0x8003);
    (0xF00F, 0x8004); (0xF00F, 0x8005); (0xF00F, 0x8006); (0xF00F, 0x8007);
    (0xF00F, 0x800E); (0xF00F, 0x9000);
    (0xF000, 0xA000); (0xF000, 0xB000); (0xF000, 0xC000); (0xF000, 0xD000);
    (0xF0FF, 0xE09E); (0xF0FF, 0xE0A1);
    (0xF0FF, 0xF007); (0xF0FF, 0xF00A); (0xF0FF, 0xF015); (0xF0FF, 0xF018);
    (0xF0FF, 0xF01E); (0xF0FF, 0xF029); (0xF0FF, 0xF033); (0xF0FF, 0xF055);
    (0xF0FF, 0xF065) ].

(** A word that is neither of the two exact words of the [switch] and
    fails every comparison of the chain. *)
Definition matches_no_mask (instruction : Z) : Prop :=
  instruction <> 0x00E0 /\ instruction <> 0x00EE
  /\ Forall (fun mc => Z.land instruction (fst mc) <> snd mc) opcode_masks.

(** ** Keyboard *)

(** The key latch: key [k] is held when bit [15 - k] of the keyboard word
    is set, which is where [UpdateKeyboard] records it. *)
Definition key_latch (cpu : Chip8) (k : Z) : bool := Z.testbit (KEYBOARD cpu) (15 - k).

(** ** Repeated calls *)

(** The machine as an outcome leaves it. *)
Definition machine {A} (o : outcome A) : Chip8 :=
  match o with
  | Done _ cpu => cpu
  | Panic _ cpu => cpu
  | Spin cpu => cpu
  end.

(** [cpu.Step()] once for every element of [rnds], the element being what
    [rand.Intn(256)] returns in that step if it is asked. *)
Fixpoint steps (rnds : list Z) : M unit :=
  match rnds with
  | [] => ret tt
  | rnd :: rnds => let* _ := Step rnd in steps rnds
  end.

(** [n] calls of [cpu.UpdateTimers()]. *)
Fixpoint ticks (n : nat) (cpu : Chip8) : Chip8 :=
  match n with
  | O => cpu
  | S n => ticks n (UpdateTimers cpu)
  end.

(** [cpu.StackPush(v)] for every [v] of [vs], first to last. *)
Fixpoint push_all (vs : list Z) : M unit :=
  match vs with
  | [] => ret tt
  | v :: vs => let* _ := StackPush v in push_all vs
  end.

(** [n] calls of [cpu.StackPop()], the values in the order they come. *)
Fixpoint pop_n (n : nat) : M (list Z) :=
  match n with
  | O => ret []
  | S n => let* v := StackPop in let* vs := pop_n n in ret (v :: vs)
  end.

(** * Properties *)

(** ** Sanity checks of the embedding on concrete machines *)

Example fetch_big_endian :
  Fetch (set_PC 0x200 (set_RAM (upd (upd (RAM zero) 0x200 0x12) 0x201 0x34) zero))
  = Done 0x1234 (set_PC 0x202 (set_RAM (upd (upd (RAM zero) 0x200 0x12) 0x201 0x34) zero)).
Proof. vm_compute. reflexivity. Qed.

Example bcd_255 :
  match op_Fx33 0 (set_I 0x300 (set_V (upd (V zero) 0 255) zero)) with
  | Done _ c => (at_ (RAM c) 0x300, at_ (RAM c) 0x301, at_ (RAM c) 0x302) = (2, 5, 5)
  | _ => False
  end.
Proof. vm_compute. reflexivity. Qed.

Example timers_tick :
  let c := UpdateTimers (set_DT 5 zero) in (DT c, ST c) = (4, 0).
Proof. vm_compute. reflexivity. Qed.

(** ** Arrays *)

Section arrays.
Context {A : Type} `{Inhabited A}.
Implicit Types (a : list A) (i j : Z) (x : A).

Lemma length_upd a i x : length (upd a i x) = length a.
Proof. apply length_insert. Qed.

Lemma at_upd_eq a i x :
  0 <= i < Z.of_nat (length a) -> at_ (upd a i x) i = x.
Proof.
  intros Hi. unfold at_, upd.
  apply list_lookup_total_insert_eq. lia.
Qed.

Lemma at_upd_ne a i j x :
  0 <= i -> 0 <= j -> i <> j -> at_ (upd a i x) j = at_ a j.
Proof.
  intros Hi Hj Hij. unfold at_, upd.
  apply list_lookup_total_insert_ne. lia.
Qed.

Lemma at_upd a i j x :
  0 <= i < Z.of_nat (length a) -> 0 <= j ->
  at_ (upd a i x) j = if i =? j then x else at_ a j.
Proof.
  intros Hi Hj. destruct (Z.eqb_spec i j) as [->|Hne].
  - now apply at_upd_eq.
  - apply at_upd_ne; lia.
Qed.

End arrays.

Lemma at_bytes (l : list Z) (i : Z) :
  bytes l -> 0 <= i < Z.of_nat (length l) -> 0 <= at_ l i < 256.
Proof.
  intros Hl Hi. unfold at_.
  destruct (lookup_lt_is_Some_2 l (Z.to_nat i)) as [b Hb]; [lia|].
  rewrite (list_lookup_total_correct _ _ _ Hb).
  exact (proj1 (Forall_lookup _ l) Hl _ _ Hb).
Qed.

(** ** Decoding *)

Lemma X_nibble ins : 0 <= X ins < 16.
Proof.
  unfold X. rewrite Z.shiftr_land.
  change (Z.shiftr 0xF00 8) with (Z.ones 4).
  rewrite Z.land_ones by lia. apply Z.mod_pos_bound. lia.
Qed.

Lemma Y_nibble ins : 0 <= Y ins < 16.
Proof.
  unfold Y. rewrite Z.shiftr_land.
  change (Z.shiftr 0xF0 4) with (Z.ones 4).
  rewrite Z.land_ones by lia. apply Z.mod_pos_bound. lia.
Qed.

(** Two masked comparisons of one word that disagree on the bits their
    masks share cannot both hold. *)
Lemma mask_clash ins m c m' c' :
  Z.land ins m = c -> Z.land c m' <> Z.land c' m -> (Z.land ins m' =? c') = false.
Proof.
  intros Hm Hne. apply Z.eqb_neq. intros Hm'. apply Hne.
  rewrite <- Hm, <- Hm'.
  rewrite <- !Z.land_assoc. f_equal. apply Z.land_comm.
Qed.

Lemma exact_clash ins m c w :
  Z.land ins m = c -> Z.land w m <> c -> (ins =? w) = false.
Proof. intros Hm Hne. apply Z.eqb_neq. intros ->. now apply Hne. Qed.

Lemma mask_hit ins m c : Z.land ins m = c -> (Z.land ins m =? c) = true.
Proof. intros ->. apply Z.eqb_refl. Qed.

(** Walk the dispatch chain of [DecodeExecute] down to the arm selected by
    the masked comparison [H]. *)
Ltac dispatch H :=
  unfold DecodeExecute;
  repeat match goal with
  | |- context [Z.eqb ?i ?w] =>
      rewrite (exact_clash i _ _ w H) by (vm_compute; discriminate)
  | |- context [Z.eqb (Z.land ?i ?m') ?c'] =>
      rewrite (mask_clash i _ _ m' c' H) by (vm_compute; discriminate)
  end;
  rewrite (mask_hit _ _ _ H); cbv iota zeta.

Lemma dispatch_8xy4 rnd ins :
  Z.land ins 0xF00F = 0x8004 -> DecodeExecute rnd ins = op_8xy4 (X ins) (Y ins).
Proof. intros Hm. dispatch Hm. reflexivity. Qed.

(** ** Well-formed machines, decidably *)

Lemma byteb_spec b : byteb b = true <-> 0 <= b < 256.
Proof. unfold byteb. rewrite andb_true_iff. lia. Qed.

Lemma wordb_spec w : wordb w = true <-> 0 <= w < 65536.
Proof. unfold wordb. rewrite andb_true_iff. lia. Qed.

Lemma forallb_bytes l : forallb byteb l = true -> bytes l.
Proof.
  intros Hl. apply List.Forall_forall. intros b Hb.
  apply byteb_spec. exact (proj1 (forallb_forall _ _) Hl b Hb).
Qed.

Lemma forallb_words l : forallb wordb l = true -> words l.
Proof.
  intros Hl. apply List.Forall_forall. intros w Hw.
  apply wordb_spec. exact (proj1 (forallb_forall _ _) Hl w Hw).
Qed.

Lemma wfb_wf cpu : wfb cpu = true -> wf cpu.
Proof.
  unfold wfb. intros Hb.
  repeat match goal with
  | Hc : _ && _ = true |- _ => apply andb_true_iff in Hc; destruct Hc
  end.
  constructor;
    first [ now apply Nat.eqb_eq | now apply byteb_spec | now apply wordb_spec
          | now apply forallb_bytes | now apply forallb_words ].
Qed.

Lemma wf_zero : wf zero.
Proof. apply wfb_wf. vm_compute. reflexivity. Qed.

Lemma wf_Vx cpu ins : wf cpu -> 0 <= at_ (V cpu) (X ins) < 256.
Proof.
  intros Hwf. apply at_bytes; [apply Hwf|].
  rewrite (wf_V_len _ Hwf). pose proof (X_nibble ins). lia.
Qed.

Lemma wf_Vy cpu ins : wf cpu -> 0 <= at_ (V cpu) (Y ins) < 256.
Proof.
  intros Hwf. apply at_bytes; [apply Hwf|].
  rewrite (wf_V_len _ Hwf). pose proof (Y_nibble ins). lia.
Qed.

(** ** Add registers (8xy4) *)

(** C1. For every machine and every instruction word of the 8xy4 family
    whose destination x is not 0xF, with a = registers[x] and
    b = registers[y]: executing the word returns normally, leaves
    registers[0xF] = 1 if a + b > 255 and 0 otherwise, and leaves
    registers[x] = (a + b) mod 256. *)
Theorem add_registers_carry rnd ins cpu (a b : Z) :
  wf cpu ->
  Z.land ins 0xF00F = 0x8004 ->
  X ins <> 0xF ->
  at_ (V cpu) (X ins) = a ->
  at_ (V cpu) (Y ins) = b ->
  exists cpu',
    DecodeExecute rnd ins cpu = Done tt cpu'
    /\ at_ (V cpu') 0xF = (if 255 <? a + b then 1 else 0)
    /\ at_ (V cpu') (X ins) = (a + b) mod 256.
Proof.
  intros Hwf Hm Hx Ha Hb.
  pose proof (X_nibble ins) as HX.
  pose proof (wf_Vx cpu ins Hwf) as Hra.
  pose proof (wf_Vy cpu ins Hwf) as Hrb.
  pose proof (wf_V_len _ Hwf) as Hlen.
  rewrite dispatch_8xy4 by exact Hm. unfold op_8xy4.
  rewrite Ha, Hb in *.
  assert (Hsum : u16 (u16 a + u16 b) = a + b).
  { unfold u16. rewrite (Z.mod_small a), (Z.mod_small b), Z.mod_small; lia. }
  rewrite Hsum. eexists. split; [reflexivity|].
  destruct (255 <? a + b); cbn [V set_V]; split.
  - rewrite at_upd_ne, at_upd_eq; lia.
  - rewrite at_upd_eq; [reflexivity | rewrite length_upd; lia].
  - rewrite at_upd_ne, at_upd_eq; lia.
  - rewrite at_upd_eq; [reflexivity | rewrite length_upd; lia].
Qed.

Lemma add_registers_carry_witness :
  exists cpu',
    DecodeExecute 0 0x8124 (set_V (upd (upd (V zero) 1 200) 2 100) zero) = Done tt cpu'
    /\ at_ (V cpu') 0xF = 1
    /\ at_ (V cpu') 1 = 44.
Proof.
  apply (add_registers_carry 0 0x8124 (set_V (upd (upd (V zero) 1 200) 2 100) zero) 200 100).
  - apply wfb_wf. vm_compute. reflexivity.
  - reflexivity.
  - vm_compute. discriminate.
  - reflexivity.
  - reflexivity.
Defined.

(** ** Display compositor *)

Lemma pixel_range col row :
  0 <= col < 64 -> 0 <= row < 32 -> 0 <= pixel col row < 2048.
Proof. unfold pixel, FB_WIDTH. lia. Qed.

Lemma pixel_inj col row col' row' :
  0 <= col < 64 -> 0 <= col' < 64 ->
  pixel col row = pixel col' row' -> col = col' /\ row = row'.
Proof. unfold pixel, FB_WIDTH. lia. Qed.

Lemma target_range vx vy dy dx : 0 <= target vx vy dy dx < 2048.
Proof.
  unfold target. apply pixel_range; apply Z.mod_pos_bound; lia.
Qed.

Lemma shifted_bit v n : 0 <= n -> (0 <? Z.land (Z.shiftr v n) 1) = Z.testbit v n.
Proof.
  intros Hn. change 1 with (Z.ones 1). rewrite Z.land_ones by lia.
  rewrite <- (Z.add_0_l n) at 2. rewrite <- Z.shiftr_spec by lia.
  rewrite Z.bit0_odd, Zmod_odd. now destruct (Z.odd _).
Qed.

(** The 8-bit additions of [DrawSprite] lose nothing: 256 is a multiple of
    both display dimensions. *)
Lemma column_wraps vx index : u16 (u8 (vx + index)) mod FB_WIDTH = (vx + index) mod 64.
Proof. unfold u16, u8, FB_WIDTH. Z.div_mod_to_equations. lia. Qed.

Lemma row_wraps vy dy : u16 (u8 (vy + u8 dy)) mod FB_HEIGHT = (vy + dy) mod 32.
Proof. unfold u16, u8, FB_HEIGHT. Z.div_mod_to_equations. lia. Qed.

Lemma draw_bit_plot vx vy dy v cpu index :
  0 <= index < 8 ->
  draw_bit vx vy dy v cpu index = plot cpu (target vx vy dy index, sprite_bit v index).
Proof.
  intros Hi. unfold draw_bit, plot, target, pixel, sprite_bit.
  rewrite column_wraps, row_wraps. cbn [fst snd].
  replace (u8 (8 - 1 - index)) with (7 - index)
    by (unfold u8; rewrite Z.mod_small; lia).
  rewrite shifted_bit by lia. reflexivity.
Qed.

Lemma draw_bits_plots vx vy dy v (l : list Z) cpu :
  Forall (fun index => 0 <= index < 8) l ->
  fold_left (draw_bit vx vy dy v) l cpu
  = fold_left plot ((fun dx => (target vx vy dy dx, sprite_bit v dx)) <$> l) cpu.
Proof.
  intros Hl. revert cpu.
  induction Hl as [|index l Hi _ IH]; intros cpu; [reflexivity|].
  cbn [fold_left fmap list_fmap]. rewrite draw_bit_plot by exact Hi. apply IH.
Qed.

Lemma draw_row_unfold vx vy dy v cpu :
  draw_row vx vy dy v cpu = fold_left (draw_bit vx vy dy v) (seqZ 0 8) cpu.
Proof. reflexivity. Qed.

Lemma row_plots_unfold vx vy dy v :
  row_plots vx vy dy v = (fun dx => (target vx vy dy dx, sprite_bit v dx)) <$> seqZ 0 8.
Proof. reflexivity. Qed.

Lemma draw_row_plots vx vy dy v cpu :
  draw_row vx vy dy v cpu = fold_left plot (row_plots vx vy dy v) cpu.
Proof.
  rewrite draw_row_unfold, row_plots_unfold. apply draw_bits_plots.
  apply Forall_forall. intros index Hin. apply elem_of_seqZ in Hin. lia.
Qed.

Lemma range_loop_cons body from v rest cpu :
  range_loop body from (v :: rest) cpu = range_loop body (from + 1) rest (body from v cpu).
Proof. reflexivity. Qed.

Lemma plots_cons vx vy dy v rest :
  plots vx vy dy (v :: rest) = row_plots vx vy dy v ++ plots vx vy (dy + 1) rest.
Proof. reflexivity. Qed.

Lemma draw_rows_plots vx vy dy bytes cpu :
  range_loop (draw_row vx vy) dy bytes cpu = fold_left plot (plots vx vy dy bytes) cpu.
Proof.
  revert dy cpu. induction bytes as [|v rest IH]; intros dy cpu; [reflexivity|].
  rewrite range_loop_cons, plots_cons, fold_left_app, IH, draw_row_plots.
  reflexivity.
Qed.

Lemma DrawSprite_plots vx vy bytes cpu :
  DrawSprite vx vy bytes cpu
  = fold_left plot (plots vx vy 0 bytes) (set_V (upd (V cpu) 0xF 0) cpu).
Proof. unfold DrawSprite. apply draw_rows_plots. Qed.

(** Which steps the loops take: step [(loc, bit)] is taken exactly for a
    row [k] of the sprite and a column offset [dx] under 8. *)
Lemma elem_of_plots vx vy dy bytes (loc : Z) (bit : bool) :
  (loc, bit) ∈ plots vx vy dy bytes <->
  exists (k : nat) (v dx : Z),
    bytes !! k = Some v /\ 0 <= dx < 8
    /\ loc = target vx vy (dy + Z.of_nat k) dx /\ bit = sprite_bit v dx.
Proof.
  revert dy. induction bytes as [|v rest IH]; intros dy; cbn [plots].
  - split; [intros Hin; inversion Hin | intros (k & ? & ? & Hk & _); discriminate Hk].
  - rewrite elem_of_app, IH. unfold row_plots. rewrite list_elem_of_fmap. split.
    + intros [(dx & Heq & Hdx) | (k & w & dx & Hk & Hdx & -> & ->)].
      * injection Heq as -> ->. apply elem_of_seqZ in Hdx.
        exists 0%nat, v, dx. rewrite Z.add_0_r. repeat split; auto; lia.
      * exists (S k), w, dx. repeat split; auto; try lia.
        f_equal. lia.
    + intros (k & w & dx & Hk & Hdx & -> & ->). destruct k as [|k].
      * injection Hk as ->. left. exists dx. rewrite Z.add_0_r. split; [reflexivity|].
        apply elem_of_seqZ. lia.
      * right. exists k, w, dx. repeat split; auto; try lia.
        f_equal. lia.
Qed.

(** *** What one step touches *)

Lemma touches_refl cpu : touches_display_only cpu cpu.
Proof. constructor; reflexivity. Qed.

Lemma touches_trans cpu1 cpu2 cpu3 :
  touches_display_only cpu1 cpu2 -> touches_display_only cpu2 cpu3 ->
  touches_display_only cpu1 cpu3.
Proof.
  intros H12 H23. constructor.
  1-10: etransitivity; [apply H23 | apply H12].
  intros i Hi Hne. now rewrite (same_V _ _ H23), (same_V _ _ H12).
Qed.

Lemma touches_flag cpu (b : Z) : touches_display_only cpu (set_V (upd (V cpu) 0xF b) cpu).
Proof.
  constructor; try reflexivity; cbn [V set_V].
  - apply length_upd.
  - intros i Hi Hne. apply at_upd_ne; lia.
Qed.

Lemma touches_pixel cpu (loc : Z) (b : bool) :
  touches_display_only cpu (set_FRAMEBUFFER (upd (FRAMEBUFFER cpu) loc b) cpu).
Proof. constructor; try reflexivity. cbn [FRAMEBUFFER set_FRAMEBUFFER]. apply length_upd. Qed.

Lemma touches_plot cpu p : touches_display_only cpu (plot cpu p).
Proof.
  unfold plot. destruct (snd p); [|apply touches_refl].
  destruct (at_ (FRAMEBUFFER cpu) (fst p)).
  - eapply touches_trans; [apply touches_flag | apply touches_pixel].
  - apply touches_pixel.
Qed.

Lemma touches_plots ps cpu : touches_display_only cpu (fold_left plot ps cpu).
Proof.
  revert cpu. induction ps as [|p ps IH]; intros cpu; [apply touches_refl|].
  cbn [fold_left]. eapply touches_trans; [apply touches_plot | apply IH].
Qed.

Lemma touches_DrawSprite vx vy bytes cpu :
  touches_display_only cpu (DrawSprite vx vy bytes cpu).
Proof.
  rewrite DrawSprite_plots.
  eapply touches_trans; [apply touches_flag | apply touches_plots].
Qed.

(** *** The display after the steps *)

Lemma FRAMEBUFFER_plot cpu (loc : Z) (bit : bool) :
  FRAMEBUFFER (plot cpu (loc, bit))
  = if bit then upd (FRAMEBUFFER cpu) loc (negb (at_ (FRAMEBUFFER cpu) loc))
    else FRAMEBUFFER cpu.
Proof.
  unfold plot. cbn [fst snd]. destruct bit; [|reflexivity].
  now destruct (at_ (FRAMEBUFFER cpu) loc).
Qed.

Lemma flag_plot cpu (loc : Z) (bit : bool) :
  length (V cpu) = 16%nat ->
  at_ (V (plot cpu (loc, bit))) 0xF
  = if bit && at_ (FRAMEBUFFER cpu) loc then 1 else at_ (V cpu) 0xF.
Proof.
  intros Hlen. unfold plot. cbn [fst snd]. destruct bit; [|reflexivity].
  destruct (at_ (FRAMEBUFFER cpu) loc); cbn [andb V set_V set_FRAMEBUFFER]; [|reflexivity].
  apply at_upd_eq. lia.
Qed.

Lemma at_plot cpu (loc p : Z) (bit : bool) :
  0 <= loc < Z.of_nat (length (FRAMEBUFFER cpu)) -> 0 <= p ->
  at_ (FRAMEBUFFER (plot cpu (loc, bit))) p
  = xorb (at_ (FRAMEBUFFER cpu) p) (bit && (loc =? p)).
Proof.
  intros Hloc Hp. rewrite FRAMEBUFFER_plot. destruct bit; cbn [andb].
  - rewrite at_upd by lia. destruct (Z.eqb_spec loc p) as [->|_].
    + now destruct (at_ (FRAMEBUFFER cpu) p).
    + now rewrite xorb_false_r.
  - now rewrite xorb_false_r.
Qed.

Lemma at_plots ps cpu (p : Z) :
  on_display (length (FRAMEBUFFER cpu)) ps -> 0 <= p ->
  at_ (FRAMEBUFFER (fold_left plot ps cpu)) p
  = xorb (at_ (FRAMEBUFFER cpu) p) (parity ps p).
Proof.
  intros Hps Hp. revert cpu Hps.
  induction ps as [|[loc bit] ps IH]; intros cpu Hps; cbn [fold_left parity foldr].
  - now rewrite xorb_false_r.
  - inversion Hps as [|q qs Hq Hqs]; subst. cbn [fst snd] in *.
    rewrite IH by (now rewrite (same_FB_len _ _ (touches_plot cpu (loc, bit)))).
    rewrite at_plot by lia. fold (parity ps p). now rewrite xorb_assoc.
Qed.

Lemma parity_clear ps (p : Z) :
  (forall bit, (p, bit) ∈ ps -> bit = false) -> parity ps p = false.
Proof.
  induction ps as [|[loc bit] ps IH]; intros Hp; cbn [parity foldr fst snd]; [reflexivity|].
  fold (parity ps p). rewrite IH by (intros b Hb; apply Hp; now right).
  rewrite xorb_false_r. destruct (Z.eqb_spec loc p) as [->|_].
  - rewrite (Hp bit) by left. reflexivity.
  - apply andb_false_r.
Qed.

Lemma parity_once ps (loc : Z) (bit : bool) :
  NoDup ps.*1 -> (loc, bit) ∈ ps -> parity ps loc = bit.
Proof.
  induction ps as [|[loc' bit'] ps IH]; intros Hnd Hin; [inversion Hin|].
  cbn [parity foldr fst snd]. fold (parity ps loc).
  rewrite fmap_cons in Hnd. apply NoDup_cons in Hnd as [Hfresh Hnd]. cbn [fst] in Hfresh.
  apply elem_of_cons in Hin as [Heq | Hin].
  - injection Heq as <- <-. rewrite Z.eqb_refl, andb_true_r.
    rewrite parity_clear; [apply xorb_false_r|].
    intros b Hb. exfalso. apply Hfresh. apply list_elem_of_fmap. now exists (loc, b).
  - rewrite (IH Hnd Hin). destruct (Z.eqb_spec loc' loc) as [->|_].
    + exfalso. apply Hfresh. apply list_elem_of_fmap. now exists (loc, bit).
    + now rewrite andb_false_r.
Qed.

Lemma plots_on_display vx vy dy bytes : on_display 2048 (plots vx vy dy bytes).
Proof.
  apply Forall_forall. intros [loc bit] Hin.
  apply elem_of_plots in Hin as (k & v & dx & _ & _ & -> & _).
  cbn [fst]. pose proof (target_range vx vy (dy + Z.of_nat k) dx). lia.
Qed.

(** *** Sprites of at most 32 rows put every bit on a pixel of its own *)

Lemma target_inj vx vy dy dx dy' dx' :
  0 <= dx < 8 -> 0 <= dx' < 8 -> -32 < dy - dy' < 32 ->
  target vx vy dy dx = target vx vy dy' dx' -> dy = dy' /\ dx = dx'.
Proof.
  intros Hdx Hdx' Hdy Heq. unfold target in Heq.
  apply pixel_inj in Heq as [Hcol Hrow]; try (apply Z.mod_pos_bound; lia).
  revert Hcol Hrow. Z.div_mod_to_equations. lia.
Qed.

Lemma elem_of_plot_targets vx vy dy bytes (loc : Z) :
  loc ∈ (plots vx vy dy bytes).*1 ->
  exists (k : nat) (dx : Z),
    (k < length bytes)%nat /\ 0 <= dx < 8 /\ loc = target vx vy (dy + Z.of_nat k) dx.
Proof.
  intros Hin. apply list_elem_of_fmap in Hin as ([loc' bit] & -> & Hin).
  apply elem_of_plots in Hin as (k & v & dx & Hk & Hdx & -> & _).
  exists k, dx. split; [|now split]. now apply lookup_lt_Some in Hk.
Qed.

Lemma NoDup_row_plots vx vy dy v : NoDup (row_plots vx vy dy v).*1.
Proof.
  rewrite row_plots_unfold, <- list_fmap_compose.
  apply NoDup_fmap_2_strong; [|apply NoDup_seqZ].
  intros dx dx' Hdx Hdx' Heq. cbn [compose fst] in Heq.
  apply elem_of_seqZ in Hdx. apply elem_of_seqZ in Hdx'.
  apply target_inj in Heq; lia.
Qed.

Lemma NoDup_plots vx vy dy bytes :
  (length bytes <= 32)%nat -> NoDup (plots vx vy dy bytes).*1.
Proof.
  revert dy. induction bytes as [|v rest IH]; intros dy Hlen; [constructor|].
  cbn [length] in Hlen. rewrite plots_cons, fmap_app. apply NoDup_app. split; [|split].
  - apply NoDup_row_plots.
  - intros loc Hrow Hrest.
    rewrite row_plots_unfold, <- list_fmap_compose in Hrow.
    apply list_elem_of_fmap in Hrow as (dx & -> & Hdx). cbn [compose fst] in Hrest.
    apply elem_of_seqZ in Hdx.
    apply elem_of_plot_targets in Hrest as (k & dx' & Hk & Hdx' & Heq).
    apply target_inj in Heq; lia.
  - apply IH. lia.
Qed.

(** *** The flag after the steps *)

Lemma hits_elsewhere cpu (loc : Z) (bit : bool) ps :
  0 <= loc < Z.of_nat (length (FRAMEBUFFER cpu)) ->
  on_display (length (FRAMEBUFFER cpu)) ps ->
  loc ∉ ps.*1 ->
  existsb (hits (FRAMEBUFFER (plot cpu (loc, bit)))) ps
  = existsb (hits (FRAMEBUFFER cpu)) ps.
Proof.
  intros Hloc Hps Hfresh.
  induction ps as [|[loc' bit'] ps IH]; [reflexivity|].
  cbn [existsb]. inversion Hps as [|q qs Hq Hqs]; subst. cbn [fst] in Hq.
  rewrite fmap_cons in Hfresh. cbn [fst] in Hfresh.
  apply not_elem_of_cons in Hfresh as [Hne Hfresh].
  rewrite (IH Hqs Hfresh). f_equal.
  unfold hits. cbn [fst snd]. rewrite at_plot by lia.
  destruct (Z.eqb_spec loc loc'); [congruence|].
  now rewrite andb_false_r, xorb_false_r.
Qed.

Lemma flag_plots ps cpu :
  length (V cpu) = 16%nat ->
  on_display (length (FRAMEBUFFER cpu)) ps ->
  NoDup ps.*1 ->
  at_ (V (fold_left plot ps cpu)) 0xF
  = if existsb (hits (FRAMEBUFFER cpu)) ps then 1 else at_ (V cpu) 0xF.
Proof.
  revert cpu. induction ps as [|[loc bit] ps IH]; intros cpu HV Hps Hnd; [reflexivity|].
  cbn [fold_left existsb]. rewrite fmap_cons in Hnd.
  apply NoDup_cons in Hnd as [Hfresh Hnd]. cbn [fst] in Hfresh.
  inversion Hps as [|q qs Hq Hqs]; subst. cbn [fst] in Hq.
  pose proof (touches_plot cpu (loc, bit)) as Hsame.
  rewrite IH; [| now rewrite (same_V_len _ _ Hsame)
               | now rewrite (same_FB_len _ _ Hsame) | assumption ].
  rewrite hits_elsewhere, flag_plot by assumption.
  change (hits (FRAMEBUFFER cpu) (loc, bit)) with (bit && at_ (FRAMEBUFFER cpu) loc).
  destruct (bit && at_ (FRAMEBUFFER cpu) loc); cbn [orb]; [|reflexivity].
  now destruct (existsb _ ps).
Qed.

Lemma upd_same {A} `{Inhabited A} (a : list A) (i : Z) :
  0 <= i < Z.of_nat (length a) -> upd a i (at_ a i) = a.
Proof.
  intros Hi. unfold upd, at_. apply list_insert_id.
  apply list_lookup_lookup_total_lt. lia.
Qed.

Lemma FRAMEBUFFER_plot_xor cpu q :
  0 <= fst q < Z.of_nat (length (FRAMEBUFFER cpu)) ->
  FRAMEBUFFER (plot cpu q) = xor_onto (FRAMEBUFFER cpu) q.
Proof.
  destruct q as [loc bit]. cbn [fst]. intros Hloc.
  rewrite FRAMEBUFFER_plot. unfold xor_onto. cbn [fst snd]. destruct bit.
  - now rewrite xorb_true_r.
  - now rewrite xorb_false_r, upd_same.
Qed.

Lemma FRAMEBUFFER_plots ps cpu :
  on_display (length (FRAMEBUFFER cpu)) ps ->
  FRAMEBUFFER (fold_left plot ps cpu) = fold_left xor_onto ps (FRAMEBUFFER cpu).
Proof.
  revert cpu. induction ps as [|q ps IH]; intros cpu Hps; [reflexivity|].
  inversion Hps as [|q' qs Hq Hqs]; subst. cbn [fold_left].
  rewrite IH by (now rewrite (same_FB_len _ _ (touches_plot cpu q))).
  now rewrite FRAMEBUFFER_plot_xor.
Qed.

(** *** [DrawSprite] as a whole *)

Lemma at_DrawSprite cpu vx vy bytes (p : Z) :
  length (FRAMEBUFFER cpu) = 2048%nat -> 0 <= p ->
  at_ (FRAMEBUFFER (DrawSprite vx vy bytes cpu)) p
  = xorb (at_ (FRAMEBUFFER cpu) p) (parity (plots vx vy 0 bytes) p).
Proof.
  intros Hlen Hp. rewrite DrawSprite_plots, at_plots; [reflexivity| |exact Hp].
  cbn [FRAMEBUFFER set_V]. rewrite Hlen. apply plots_on_display.
Qed.

Lemma flag_DrawSprite cpu vx vy bytes :
  length (V cpu) = 16%nat -> length (FRAMEBUFFER cpu) = 2048%nat ->
  (length bytes <= 32)%nat ->
  at_ (V (DrawSprite vx vy bytes cpu)) 0xF
  = if existsb (hits (FRAMEBUFFER cpu)) (plots vx vy 0 bytes) then 1 else 0.
Proof.
  intros HV HFB Hlen. rewrite DrawSprite_plots, flag_plots.
  - cbn [FRAMEBUFFER V set_V]. rewrite at_upd_eq by lia. reflexivity.
  - cbn [V set_V]. now rewrite length_upd.
  - cbn [FRAMEBUFFER set_V]. rewrite HFB. apply plots_on_display.
  - now apply NoDup_plots.
Qed.

Lemma hits_plots fb vx vy bytes :
  existsb (hits fb) (plots vx vy 0 bytes) = true <->
  exists (dy : nat) (v dx : Z),
    bytes !! dy = Some v /\ 0 <= dx < 8 /\ sprite_bit v dx = true
    /\ at_ fb (pixel ((vx + dx) mod 64) ((vy + Z.of_nat dy) mod 32)) = true.
Proof.
  rewrite existsb_exists. split.
  - intros ([loc bit] & Hin & Hhit). apply list_elem_of_In in Hin.
    apply elem_of_plots in Hin as (k & v & dx & Hk & Hdx & -> & ->).
    unfold hits in Hhit. cbn [fst snd] in Hhit. apply andb_true_iff in Hhit as [Hbit Hold].
    exists k, v, dx. rewrite Z.add_0_l in Hold. now repeat split.
  - intros (k & v & dx & Hk & Hdx & Hbit & Hold).
    exists (target vx vy (0 + Z.of_nat k) dx, sprite_bit v dx). split.
    + apply list_elem_of_In, elem_of_plots. exists k, v, dx. now repeat split.
    + unfold hits. cbn [fst snd]. rewrite Hbit, Z.add_0_l. exact Hold.
Qed.

Lemma list_eq_at (l1 l2 : list bool) :
  length l1 = length l2 ->
  (forall p, 0 <= p < Z.of_nat (length l1) -> at_ l1 p = at_ l2 p) ->
  l1 = l2.
Proof.
  intros Hlen Hat. apply (list_eq_same_length _ _ (length l1)); [congruence|reflexivity|].
  intros i x y Hi Hx Hy.
  specialize (Hat (Z.of_nat i) ltac:(lia)). unfold at_ in Hat.
  rewrite Nat2Z.id in Hat.
  rewrite (list_lookup_total_correct _ _ _ Hx), (list_lookup_total_correct _ _ _ Hy) in Hat.
  exact Hat.
Qed.

Lemma edge_row_lit_spec fb col row :
  edge_row_lit fb = true -> 0 <= col < 64 -> 0 <= row < 32 ->
  (at_ fb (pixel col row) = true <-> row = 0 /\ (60 <= col \/ col <= 3)).
Proof.
  unfold edge_row_lit. intros Hall Hcol Hrow.
  rewrite forallb_forall in Hall.
  specialize (Hall row). rewrite <- list_elem_of_In, elem_of_seqZ in Hall.
  specialize (Hall ltac:(lia)). rewrite forallb_forall in Hall.
  specialize (Hall col). rewrite <- list_elem_of_In, elem_of_seqZ in Hall.
  specialize (Hall ltac:(lia)). apply Bool.eqb_prop in Hall. rewrite Hall.
  rewrite andb_true_iff, orb_true_iff. lia.
Qed.

(** C4. Whatever the origin bytes and the sprite rows, the display after
    the draw is the display before it with sprite bit dx of row dy XORed
    onto the pixel at column (vx+dx) mod 64 of row (vy+dy) mod 32, for every
    row dy of the sprite and every dx in 0..7 (sprite bits count from the
    leftmost, most significant one).  With at most 32 rows no two bits share
    a pixel, so each such pixel ends as its old value XOR that one bit.  In
    particular an 8x1 sprite of set bits drawn at (60, 0) on a dark display
    lights columns 60, 61, 62, 63, 0, 1, 2, 3 of row 0 and nothing else. *)
Theorem sprite_draw_wraps cpu vx vy bytes :
  wf cpu ->
  FRAMEBUFFER (DrawSprite vx vy bytes cpu) = xor_sprite vx vy bytes (FRAMEBUFFER cpu)
  /\ ((length bytes <= 32)%nat ->
      forall (dy : nat) (v dx : Z),
        bytes !! dy = Some v -> 0 <= dx < 8 ->
        at_ (FRAMEBUFFER (DrawSprite vx vy bytes cpu))
            (pixel ((vx + dx) mod 64) ((vy + Z.of_nat dy) mod 32))
        = xorb (at_ (FRAMEBUFFER cpu)
                    (pixel ((vx + dx) mod 64) ((vy + Z.of_nat dy) mod 32)))
               (sprite_bit v dx))
  /\ (FRAMEBUFFER cpu = replicate 2048 false ->
      forall col row, 0 <= col < 64 -> 0 <= row < 32 ->
        (at_ (FRAMEBUFFER (DrawSprite 60 0 [0xFF] cpu)) (pixel col row) = true
         <-> row = 0 /\ (60 <= col \/ col <= 3))).
Proof.
  intros Hwf. pose proof (wf_FB_len _ Hwf) as HFB.
  assert (Hxor : forall vx vy bytes,
           FRAMEBUFFER (DrawSprite vx vy bytes cpu)
           = xor_sprite vx vy bytes (FRAMEBUFFER cpu)).
  { intros. rewrite DrawSprite_plots, FRAMEBUFFER_plots; [reflexivity|].
    cbn [FRAMEBUFFER set_V]. rewrite HFB. apply plots_on_display. }
  split; [apply Hxor|]. split.
  - intros Hlen dy v dx Hdy Hdx.
    pose proof (target_range vx vy (0 + Z.of_nat dy) dx) as Hrange.
    change (pixel ((vx + dx) mod 64) ((vy + Z.of_nat dy) mod 32))
      with (target vx vy (Z.of_nat dy) dx).
    rewrite Z.add_0_l in Hrange.
    rewrite at_DrawSprite by (assumption || lia). f_equal.
    apply parity_once; [now apply NoDup_plots|].
    apply elem_of_plots. exists dy, v, dx. now rewrite Z.add_0_l.
  - intros Hdark col row Hcol Hrow. rewrite Hxor, Hdark.
    apply edge_row_lit_spec; [|assumption..].
    vm_compute. reflexivity.
Qed.

Lemma sprite_draw_wraps_witness :
  FRAMEBUFFER (DrawSprite 60 0 [0xFF] zero) = xor_sprite 60 0 [0xFF] (FRAMEBUFFER zero)
  /\ at_ (FRAMEBUFFER (DrawSprite 60 0 [0xFF] zero))
         (pixel ((60 + 5) mod 64) ((0 + Z.of_nat 0) mod 32))
     = xorb (at_ (FRAMEBUFFER zero) (pixel ((60 + 5) mod 64) ((0 + Z.of_nat 0) mod 32)))
            (sprite_bit 0xFF 5)
  /\ (at_ (FRAMEBUFFER (DrawSprite 60 0 [0xFF] zero)) (pixel 1 0) = true
      <-> 0 = 0 /\ (60 <= 1 \/ 1 <= 3)).
Proof.
  destruct (sprite_draw_wraps zero 60 0 [0xFF] wf_zero) as (Hxor & Hbit & Hedge).
  split; [exact Hxor|]. split.
  - apply Hbit; [cbn; lia | reflexivity | lia].
  - apply Hedge; [reflexivity | lia | lia].
Defined.

Example edge_row_display :
  FRAMEBUFFER (DrawSprite 60 0 [0xFF] zero)
  = replicate 4 true ++ replicate 56 false ++ replicate 4 true ++ replicate 1984 false.
Proof. vm_compute. reflexivity. Qed.

(** C10. The draw leaves registers 0 to 14, the index register, the
    program counter, the stack, the stack pointer, both timers, the memory
    and the keyboard word as they were, keeps the size of the display, and
    leaves a display pixel as it was unless some set sprite bit lands on it:
    a pixel that only zero bits land on, inside the footprint or not, keeps
    its value. *)
Theorem sprite_draw_frame cpu vx vy bytes :
  wf cpu ->
  (forall i, 0 <= i < 15 ->
     at_ (V (DrawSprite vx vy bytes cpu)) i = at_ (V cpu) i)
  /\ I (DrawSprite vx vy bytes cpu) = I cpu
  /\ PC (DrawSprite vx vy bytes cpu) = PC cpu
  /\ STACK (DrawSprite vx vy bytes cpu) = STACK cpu
  /\ SP (DrawSprite vx vy bytes cpu) = SP cpu
  /\ DT (DrawSprite vx vy bytes cpu) = DT cpu
  /\ ST (DrawSprite vx vy bytes cpu) = ST cpu
  /\ RAM (DrawSprite vx vy bytes cpu) = RAM cpu
  /\ KEYBOARD (DrawSprite vx vy bytes cpu) = KEYBOARD cpu
  /\ length (V (DrawSprite vx vy bytes cpu)) = length (V cpu)
  /\ length (FRAMEBUFFER (DrawSprite vx vy bytes cpu)) = length (FRAMEBUFFER cpu)
  /\ (forall col row, 0 <= col < 64 -> 0 <= row < 32 ->
       (forall (dy : nat) (v dx : Z),
          bytes !! dy = Some v -> 0 <= dx < 8 ->
          (vx + dx) mod 64 = col -> (vy + Z.of_nat dy) mod 32 = row ->
          sprite_bit v dx = false) ->
       at_ (FRAMEBUFFER (DrawSprite vx vy bytes cpu)) (pixel col row)
       = at_ (FRAMEBUFFER cpu) (pixel col row)).
Proof.
  intros Hwf. pose proof (touches_DrawSprite vx vy bytes cpu) as Hsame.
  split; [intros i Hi; apply (same_V _ _ Hsame); lia|].
  repeat (split; [apply Hsame|]).
  intros col row Hcol Hrow Hzero.
  pose proof (pixel_range col row Hcol Hrow) as Hp.
  rewrite at_DrawSprite by (apply Hwf || lia).
  rewrite parity_clear; [apply xorb_false_r|].
  intros bit Hin.
  apply elem_of_plots in Hin as (k & v & dx & Hk & Hdx & Heq & ->).
  rewrite Z.add_0_l in Heq. unfold target in Heq.
  apply pixel_inj in Heq as [Hc Hr]; try (assumption || apply Z.mod_pos_bound; lia).
  now apply (Hzero k v dx).
Qed.

Lemma sprite_draw_frame_witness :
  at_ (V (DrawSprite 62 31 [0x90; 0xFF] zero)) 3 = at_ (V zero) 3
  /\ RAM (DrawSprite 62 31 [0x90; 0xFF] zero) = RAM zero
  /\ at_ (FRAMEBUFFER (DrawSprite 62 31 [0x90; 0xFF] zero)) (pixel 63 31)
     = at_ (FRAMEBUFFER zero) (pixel 63 31).
Proof.
  destruct (sprite_draw_frame zero 62 31 [0x90; 0xFF] wf_zero)
    as (HV & _ & _ & _ & _ & _ & _ & HRAM & _ & _ & _ & Hpixel).
  split; [apply HV; lia|]. split; [exact HRAM|].
  apply Hpixel; [lia | lia |].
  intros dy v dx Hdy Hdx Hcol Hrow.
  destruct dy as [|[|dy]]; [| |discriminate Hdy]; injection Hdy as <-.
  - assert (dx = 1) as -> by (revert Hcol; Z.div_mod_to_equations; lia).
    reflexivity.
  - exfalso. vm_compute in Hrow. discriminate Hrow.
Defined.

(** C5 (amended). Drawing the same sprite twice at the same origin gives
    back the display as it was before the first draw, whatever the machine,
    the origin and the sprite rows.  For a sprite of at most 32 rows (the
    draw opcode passes at most 15) register 0xF after the second draw is 1
    exactly when some set sprite bit lands on a pixel that was lit after
    the first draw, and 0 otherwise. *)
Theorem sprite_draw_twice cpu vx vy bytes :
  wf cpu ->
  FRAMEBUFFER (DrawSprite vx vy bytes (DrawSprite vx vy bytes cpu)) = FRAMEBUFFER cpu
  /\ ((length bytes <= 32)%nat ->
      (at_ (V (DrawSprite vx vy bytes (DrawSprite vx vy bytes cpu))) 0xF = 1
       \/ at_ (V (DrawSprite vx vy bytes (DrawSprite vx vy bytes cpu))) 0xF = 0)
      /\ (at_ (V (DrawSprite vx vy bytes (DrawSprite vx vy bytes cpu))) 0xF = 1
          <-> exists (dy : nat) (v dx : Z),
                bytes !! dy = Some v /\ 0 <= dx < 8 /\ sprite_bit v dx = true
                /\ at_ (FRAMEBUFFER (DrawSprite vx vy bytes cpu))
                       (pixel ((vx + dx) mod 64) ((vy + Z.of_nat dy) mod 32)) = true)).
Proof.
  intros Hwf.
  pose proof (touches_DrawSprite vx vy bytes cpu) as Hsame1.
  pose proof (touches_DrawSprite vx vy bytes (DrawSprite vx vy bytes cpu)) as Hsame2.
  assert (HFB1 : length (FRAMEBUFFER (DrawSprite vx vy bytes cpu)) = 2048%nat)
    by (rewrite (same_FB_len _ _ Hsame1); apply Hwf).
  assert (HV1 : length (V (DrawSprite vx vy bytes cpu)) = 16%nat)
    by (rewrite (same_V_len _ _ Hsame1); apply Hwf).
  split.
  - apply list_eq_at.
    + now rewrite (same_FB_len _ _ Hsame2), (same_FB_len _ _ Hsame1).
    + intros p Hp. rewrite !at_DrawSprite by (assumption || apply Hwf || lia).
      rewrite xorb_assoc, xorb_nilpotent. apply xorb_false_r.
  - intros Hlen. rewrite flag_DrawSprite by assumption.
    rewrite <- hits_plots.
    destruct (existsb _ _).
    + split; [now left | now split].
    + split; [now right | split; discriminate].
Qed.

Lemma sprite_draw_twice_witness :
  FRAMEBUFFER (DrawSprite 60 30 [0xF0; 0x90; 0xF0] (DrawSprite 60 30 [0xF0; 0x90; 0xF0] zero))
  = FRAMEBUFFER zero
  /\ at_ (V (DrawSprite 60 30 [0xF0; 0x90; 0xF0] (DrawSprite 60 30 [0xF0; 0x90; 0xF0] zero))) 0xF = 1.
Proof.
  destruct (sprite_draw_twice zero 60 30 [0xF0; 0x90; 0xF0] wf_zero) as (Hback & Hflag).
  split; [exact Hback|].
  apply Hflag; [cbn; lia|].
  exists 0%nat, 0xF0, 0.
  split; [reflexivity|]. split; [lia|]. split; [reflexivity|].
  vm_compute. reflexivity.
Defined.

(** C5 as stated fails for a sprite of more than 32 rows, whose rows wrap
    onto one another: with rows 0 and 32 both 0x80, and nothing else set,
    each draw lights pixel (0, 0) and puts it out again.  No pixel is lit
    after the first draw, and yet the second draw leaves the flag at 1. *)
Lemma sprite_draw_twice_counterexample :
  at_ (V (DrawSprite 0 0 (0x80 :: replicate 31 0 ++ [0x80])
            (DrawSprite 0 0 (0x80 :: replicate 31 0 ++ [0x80]) zero))) 0xF = 1
  /\ ~ exists (dy : nat) (v dx : Z),
        (0x80 :: replicate 31 0 ++ [0x80]) !! dy = Some v /\ 0 <= dx < 8
        /\ sprite_bit v dx = true
        /\ at_ (FRAMEBUFFER (DrawSprite 0 0 (0x80 :: replicate 31 0 ++ [0x80]) zero))
               (pixel ((0 + dx) mod 64) ((0 + Z.of_nat dy) mod 32)) = true.
Proof.
  split; [vm_compute; reflexivity|].
  intros (dy & v & dx & _ & _ & _ & Hlit).
  assert (Hdark : FRAMEBUFFER (DrawSprite 0 0 (0x80 :: replicate 31 0 ++ [0x80]) zero)
                  = replicate 2048 false) by (vm_compute; reflexivity).
  rewrite Hdark in Hlit.
  pose proof (pixel_range ((0 + dx) mod 64) ((0 + Z.of_nat dy) mod 32)
                ltac:(apply Z.mod_pos_bound; lia) ltac:(apply Z.mod_pos_bound; lia)) as Hp.
  unfold at_ in Hlit. rewrite lookup_total_replicate_2 in Hlit by lia.
  discriminate Hlit.
Qed.

(** ** Call and return *)

Lemma dispatch_2nnn rnd ins :
  Z.land ins 0xF000 = 0x2000 -> DecodeExecute rnd ins = op_2nnn ins.
Proof. intros Hm. dispatch Hm. reflexivity. Qed.

Lemma dispatch_00EE rnd : DecodeExecute rnd 0x00EE = op_00EE.
Proof. reflexivity. Qed.

(** The arms of the dispatch chain, for proofs by cases on the chain. *)
Create HintDb ops.
#[local] Hint Unfold op_00E0 op_00EE op_1nnn op_2nnn op_3xkk op_4xkk op_5xy0
  op_6xkk op_7xkk op_8xy0 op_8xy1 op_8xy2 op_8xy3 op_8xy4 op_8xy5 op_8xy6
  op_8xy7 op_8xyE op_9xy0 op_Annn op_Bnnn op_Cxkk op_Dxyn op_Ex9E op_ExA1
  op_Fx07 op_Fx0A op_Fx15 op_Fx18 op_Fx1E op_Fx29 op_Fx33 op_Fx55 op_Fx65
  skip assign ret bind StackPush StackPop ram_store : ops.

(** Split a run [H : DecodeExecute rnd ins cpu = Done tt cpu'] into the
    arms of the chain and, inside an arm, into the paths that return. *)
Ltac by_arm H :=
  unfold DecodeExecute in H;
  repeat match type of H with
  | context [if Z.eqb ?a ?b then _ else _] => destruct (Z.eqb a b)
  end;
  autounfold with ops in H; cbn beta zeta in H;
  repeat case_match; simplify_eq.

(** An instruction that returns leaves the stack array as it was or has
    stored one value at the stack pointer. *)
Lemma DecodeExecute_STACK rnd ins cpu cpu' :
  DecodeExecute rnd ins cpu = Done tt cpu' ->
  STACK cpu' = STACK cpu \/ exists v, STACK cpu' = upd (STACK cpu) (SP cpu) v.
Proof.
  intros Hrun. by_arm Hrun;
    first [ now left
          | left; apply touches_DrawSprite
          | right; now exists (PC cpu) ].
Qed.

(** What a call and a return do to a machine, when they return. *)
Lemma call_pushes rnd ins cpu :
  Z.land ins 0xF000 = 0x2000 -> 0 <= SP cpu < 16 -> length (STACK cpu) = 16%nat ->
  DecodeExecute rnd ins cpu
  = Done tt (set_PC (Z.land ins 0x0FFF)
               (set_SP (SP cpu + 1) (set_STACK (upd (STACK cpu) (SP cpu) (PC cpu)) cpu))).
Proof.
  intros Hm HSP Hlen. rewrite dispatch_2nnn by exact Hm.
  unfold op_2nnn, bind, StackPush, assign. rewrite Hlen.
  destruct (Z.ltb_spec (SP cpu) (Z.of_nat 16)); [|lia].
  unfold u8. rewrite Z.mod_small by lia. reflexivity.
Qed.

Lemma return_pops rnd cpu :
  1 <= SP cpu <= 16 -> length (STACK cpu) = 16%nat ->
  DecodeExecute rnd 0x00EE cpu
  = Done tt (set_PC (at_ (STACK cpu) (SP cpu - 1)) (set_SP (SP cpu - 1) cpu)).
Proof.
  intros HSP Hlen. rewrite dispatch_00EE.
  unfold op_00EE, bind, StackPop, assign. cbn [STACK SP set_SP].
  unfold u8. rewrite Z.mod_small by lia.
  destruct (lookup_lt_is_Some_2 (STACK cpu) (Z.to_nat (SP cpu - 1))) as [pc Hpc]; [lia|].
  rewrite Hpc. unfold at_. now rewrite (list_lookup_total_correct _ _ _ Hpc).
Qed.

Lemma call_overflows rnd ins cpu :
  Z.land ins 0xF000 = 0x2000 -> 16 <= SP cpu -> length (STACK cpu) = 16%nat ->
  DecodeExecute rnd ins cpu = Panic IndexOutOfRange cpu.
Proof.
  intros Hm HSP Hlen. rewrite dispatch_2nnn by exact Hm.
  unfold op_2nnn, bind, StackPush. rewrite Hlen.
  destruct (Z.ltb_spec (SP cpu) (Z.of_nat 16)); [lia|reflexivity].
Qed.

Lemma return_underflows rnd cpu :
  SP cpu = 0 -> length (STACK cpu) = 16%nat ->
  DecodeExecute rnd 0x00EE cpu = Panic IndexOutOfRange (set_SP 255 cpu).
Proof.
  intros HSP Hlen. rewrite dispatch_00EE.
  unfold op_00EE, bind, StackPop. cbn [STACK SP set_SP]. rewrite HSP.
  change (u8 (0 - 1)) with 255.
  rewrite (lookup_ge_None_2 (STACK cpu) (Z.to_nat 255)) by lia. reflexivity.
Qed.

Lemma Fetch_aside cpu ins cpu' :
  Fetch cpu = Done ins cpu' -> SP cpu' = SP cpu /\ STACK cpu' = STACK cpu.
Proof.
  unfold Fetch, bind, ram_load, assign, ret. intros Hrun.
  repeat case_match; simplify_eq. now split.
Qed.

Lemma UpdateTimers_aside cpu :
  SP (UpdateTimers cpu) = SP cpu /\ STACK (UpdateTimers cpu) = STACK cpu.
Proof. unfold UpdateTimers. repeat case_match; now split. Qed.

Lemma UpdateKeyboard_aside keys cpu :
  SP (UpdateKeyboard keys cpu) = SP cpu /\ STACK (UpdateKeyboard keys cpu) = STACK cpu.
Proof.
  unfold UpdateKeyboard.
  change (SP cpu) with (SP (set_KEYBOARD 0 cpu)).
  change (STACK cpu) with (STACK (set_KEYBOARD 0 cpu)).
  generalize (set_KEYBOARD 0 cpu). clear cpu.
  induction keys as [|k keys IH]; intros cpu; [now split|].
  cbn [fold_left]. destruct (IH (set_KEYBOARD
    (Z.lor (KEYBOARD cpu) (u16 (Z.shiftl 1 (u8 (16 - 1 - k))))) cpu)) as [-> ->].
  now split.
Qed.

(** The frames below depth [d] outlive such a run. *)
Lemma runs_above_keeps d cpu cpu' :
  runs_above d cpu cpu' ->
  d <= SP cpu'
  /\ length (STACK cpu') = length (STACK cpu)
  /\ forall i, 0 <= i < d -> at_ (STACK cpu') i = at_ (STACK cpu) i.
Proof.
  induction 1 as [cpu Hd | cpu rnd ins cpu1 cpu2 Hd Hrun _ IH
                 | cpu cpu1 cpu2 HSP HSTACK _ IH].
  - now repeat split.
  - destruct IH as (Hd' & Hlen & Hkeep).
    destruct (DecodeExecute_STACK _ _ _ _ Hrun) as [Heq | [v Heq]];
      rewrite Heq in Hlen, Hkeep.
    + now repeat split.
    + rewrite length_upd in Hlen. repeat split; try assumption.
      intros i Hi. rewrite Hkeep by exact Hi. apply at_upd_ne; lia.
  - rewrite HSTACK in IH. exact IH.
Qed.

(** C7. A call executed at stack depth below 16 (nesting depth
    d = SP + 1 between 1 and 16 once made) returns, and the matching return
    (the one executed when the stack is back at depth d, after a run that
    never went below d) sets the program counter to the value it had when
    the call was executed, that is after the fetch of the call had advanced
    it, and the stack pointer to its value before the call.  A call at depth
    16 or more panics on the stack index and writes nothing; a return at
    depth 0 panics on the stack index, the stack pointer having wrapped to
    255. *)
Theorem call_return_balance rnd ins cpu :
  wf cpu ->
  Z.land ins 0xF000 = 0x2000 ->
  (SP cpu < 16 ->
   exists cpu1,
     DecodeExecute rnd ins cpu = Done tt cpu1
     /\ PC cpu1 = Z.land ins 0x0FFF
     /\ SP cpu1 = SP cpu + 1
     /\ forall rnd' cpu2,
          runs_above (SP cpu + 1) cpu1 cpu2 -> SP cpu2 = SP cpu + 1 ->
          exists cpu3,
            DecodeExecute rnd' 0x00EE cpu2 = Done tt cpu3
            /\ PC cpu3 = PC cpu /\ SP cpu3 = SP cpu)
  /\ (16 <= SP cpu -> DecodeExecute rnd ins cpu = Panic IndexOutOfRange cpu)
  /\ (SP cpu = 0 ->
      DecodeExecute rnd 0x00EE cpu = Panic IndexOutOfRange (set_SP 255 cpu)).
Proof.
  intros Hwf Hm.
  pose proof (wf_SP _ Hwf) as HSP. pose proof (wf_STACK_len _ Hwf) as Hlen.
  split; [|split].
  - intros Hroom. eexists. split; [apply call_pushes; (assumption || lia)|].
    cbn [PC SP set_PC set_SP]. split; [reflexivity|]. split; [reflexivity|].
    intros rnd' cpu2 Hruns Hback.
    apply runs_above_keeps in Hruns as (_ & Hlen2 & Hkeep).
    cbn [STACK set_PC set_SP set_STACK] in Hlen2, Hkeep.
    rewrite length_upd in Hlen2.
    eexists. split; [apply return_pops; lia|].
    cbn [PC SP set_PC set_SP]. split; [|lia].
    rewrite Hback. replace (SP cpu + 1 - 1) with (SP cpu) by lia.
    rewrite Hkeep by lia. apply at_upd_eq. lia.
  - intros Hfull. apply call_overflows; assumption.
  - intros Hempty. apply return_underflows; assumption.
Qed.

Lemma call_return_balance_witness :
  (exists cpu1 cpu3,
     DecodeExecute 0 0x2300 (set_PC 0x202 zero) = Done tt cpu1
     /\ DecodeExecute 0 0x00EE cpu1 = Done tt cpu3
     /\ PC cpu3 = PC (set_PC 0x202 zero) /\ SP cpu3 = SP (set_PC 0x202 zero))
  /\ DecodeExecute 0 0x2300 (set_SP 16 zero) = Panic IndexOutOfRange (set_SP 16 zero)
  /\ DecodeExecute 0 0x00EE zero = Panic IndexOutOfRange (set_SP 255 zero).
Proof.
  split; [|split].
  - destruct (call_return_balance 0 0x2300 (set_PC 0x202 zero)) as (Hcall & _ & _);
      [apply wfb_wf; vm_compute; reflexivity | reflexivity |].
    destruct Hcall as (cpu1 & Hrun & _ & HSP & Hmatch); [cbn; lia|].
    destruct (Hmatch 0 cpu1) as (cpu3 & Hret & HPC3 & HSP3);
      [apply runs_here; lia | exact HSP |].
    exists cpu1, cpu3. repeat split; assumption.
  - destruct (call_return_balance 0 0x2300 (set_SP 16 zero)) as (_ & Hfull & _);
      [apply wfb_wf; vm_compute; reflexivity | reflexivity |].
    apply Hfull. cbn. lia.
  - destruct (call_return_balance 0 0x2300 zero) as (_ & _ & Hempty);
      [exact wf_zero | reflexivity |].
    apply Hempty. reflexivity.
Defined.

Example nest16_down :
  match run 16 0 (loaded nest16) with
  | Done _ cpu => (SP cpu, PC cpu) = (16, 0x240)
  | _ => False
  end.
Proof. vm_compute. reflexivity. Qed.

Example nest16_up :
  match run 32 0 (loaded nest16) with
  | Done _ cpu => (SP cpu, PC cpu) = (0, 0x202)
  | _ => False
  end.
Proof. vm_compute. reflexivity. Qed.

Example nest16_underflow :
  match run 33 0 (loaded nest16) with
  | Panic IndexOutOfRange cpu => SP cpu = 255
  | _ => False
  end.
Proof. vm_compute. reflexivity. Qed.

Example nest17_overflow :
  match run 17 0 (loaded (take 64 nest16 ++ [0x22; 0x44])) with
  | Panic IndexOutOfRange cpu => (SP cpu, PC cpu) = (16, 0x242)
  | _ => False
  end.
Proof. vm_compute. reflexivity. Qed.

(** ** Unknown instruction words *)

(** C6. An instruction word that is neither of the two exact words and
    matches none of the masked comparisons is executed by returning the
    machine as it was, every field of it; a step over such a word, when its
    fetch returns, changes the program counter by the fetch's +2 and
    nothing else. *)
Theorem unknown_opcode_noop rnd ins cpu :
  matches_no_mask ins ->
  DecodeExecute rnd ins cpu = Done tt cpu
  /\ forall cpu',
       Fetch cpu = Done ins cpu' ->
       Step rnd cpu = Done tt cpu' /\ cpu' = set_PC (u16 (PC cpu + 2)) cpu.
Proof.
  intros (HE0 & HEE & Hmasks).
  assert (Hnoop : forall c, DecodeExecute rnd ins c = Done tt c).
  { intros c. unfold DecodeExecute.
    rewrite (proj2 (Z.eqb_neq _ _) HE0), (proj2 (Z.eqb_neq _ _) HEE).
    unfold opcode_masks in Hmasks.
    repeat match goal with
    | Hm : Forall _ (_ :: _) |- _ =>
        let Hne := fresh "Hne" in
        apply Forall_cons in Hm as [Hne Hm]; cbn [fst snd] in Hne;
        rewrite (proj2 (Z.eqb_neq _ _) Hne)
    end.
    reflexivity. }
  split; [apply Hnoop|].
  intros cpu' Hfetch. unfold Step, bind. rewrite Hfetch. split; [apply Hnoop|].
  unfold Fetch, bind, ram_load, assign, ret in Hfetch.
  repeat case_match; simplify_eq. reflexivity.
Qed.

Lemma unknown_opcode_noop_witness :
  DecodeExecute 0 0x5001 (set_PC 0x200 (set_RAM (upd (upd (RAM zero) 0x200 0x50) 0x201 0x01) zero))
  = Done tt (set_PC 0x200 (set_RAM (upd (upd (RAM zero) 0x200 0x50) 0x201 0x01) zero))
  /\ Step 0 (set_PC 0x200 (set_RAM (upd (upd (RAM zero) 0x200 0x50) 0x201 0x01) zero))
     = Done tt (set_PC 0x202 (set_RAM (upd (upd (RAM zero) 0x200 0x50) 0x201 0x01) zero)).
Proof.
  destruct (unknown_opcode_noop 0 0x5001
              (set_PC 0x200 (set_RAM (upd (upd (RAM zero) 0x200 0x50) 0x201 0x01) zero)))
    as (Hnoop & Hstep).
  - split; [discriminate|]. split; [discriminate|].
    unfold opcode_masks. repeat (apply Forall_cons; split; [vm_compute; discriminate|]).
    apply Forall_nil. exact Logic.I.
  - split; [exact Hnoop|].
    apply (Hstep (set_PC 0x202 (set_RAM (upd (upd (RAM zero) 0x200 0x50) 0x201 0x01) zero))).
    vm_compute. reflexivity.
Defined.

(** ** Keyboard *)

Lemma key_bit (v k : Z) :
  0 <= v < 256 -> 0 <= k <= 15 ->
  Z.testbit (u16 (Z.shiftl 1 (u8 (16 - 1 - v)))) (15 - k) = (v =? k).
Proof.
  intros Hv Hk. unfold u16. change 65536 with (2 ^ 16).
  rewrite Z.mod_pow2_bits_low by lia.
  assert (Hn : 0 <= u8 (16 - 1 - v)) by (unfold u8; apply Z.mod_pos_bound; lia).
  rewrite Z.shiftl_1_l, Z.pow2_bits_eqb by exact Hn.
  unfold u8. destruct (Z.eqb_spec v k) as [->|Hne].
  - rewrite Z.mod_small by lia. apply Z.eqb_eq. lia.
  - apply Z.eqb_neq. revert Hne. Z.div_mod_to_equations. lia.
Qed.

Lemma UpdateKeyboard_latch keys cpu (k : Z) :
  bytes keys -> 0 <= k <= 15 ->
  (key_latch (UpdateKeyboard keys cpu) k = true <-> k ∈ keys).
Proof.
  intros Hkeys Hk. unfold UpdateKeyboard.
  assert (Hgen : forall c,
    key_latch (fold_left
      (fun c v => set_KEYBOARD (Z.lor (KEYBOARD c) (u16 (Z.shiftl 1 (u8 (16 - 1 - v))))) c)
      keys c) k = true <-> key_latch c k = true \/ k ∈ keys).
  { induction Hkeys as [|v keys Hv _ IH]; intros c; cbn [fold_left].
    - rewrite elem_of_nil. tauto.
    - rewrite IH, elem_of_cons. unfold key_latch at 1. cbn [KEYBOARD set_KEYBOARD].
      rewrite Z.lor_spec, key_bit, orb_true_iff, Z.eqb_eq by lia.
      unfold key_latch. intuition congruence. }
  rewrite Hgen. unfold key_latch. cbn [KEYBOARD set_KEYBOARD].
  rewrite Z.bits_0. intuition discriminate.
Qed.

Lemma IsKeyPressed_latch cpu (key : Z) :
  0 <= key < 256 ->
  IsKeyPressed key cpu = (key <=? 15) && key_latch cpu key.
Proof.
  intros Hkey. unfold IsKeyPressed, key_latch.
  destruct (Z.ltb_spec 15 key); destruct (Z.leb_spec key 15);
    try lia; try reflexivity.
  replace (u16 (u8 (16 - 1 - key))) with (15 - key)
    by (unfold u16, u8; Z.div_mod_to_equations; lia).
  rewrite shifted_bit by lia. reflexivity.
Qed.

Lemma dispatch_Ex9E rnd ins :
  Z.land ins 0xF0FF = 0xE09E -> DecodeExecute rnd ins = op_Ex9E (X ins).
Proof. intros Hm. dispatch Hm. reflexivity. Qed.

Lemma dispatch_ExA1 rnd ins :
  Z.land ins 0xF0FF = 0xE0A1 -> DecodeExecute rnd ins = op_ExA1 (X ins).
Proof. intros Hm. dispatch Hm. reflexivity. Qed.

(** C8 (amended). Skip-if-key-pressed (Ex9E) advances the program counter
    by the extra 2 exactly when registers[x] is at most 15 and
    key_latch[registers[x]] is set; skip-if-key-not-pressed (ExA1) advances
    it by the extra 2 exactly when registers[x] is above 15 or
    key_latch[registers[x]] is not set.  The register value is not masked
    with 0xF: above 15 no key is read and the key counts as not pressed. *)
Theorem skip_on_key rnd ins cpu :
  wf cpu ->
  (Z.land ins 0xF0FF = 0xE09E ->
   DecodeExecute rnd ins cpu
   = Done tt (if (at_ (V cpu) (X ins) <=? 15) && key_latch cpu (at_ (V cpu) (X ins))
              then set_PC (u16 (PC cpu + 2)) cpu else cpu))
  /\ (Z.land ins 0xF0FF = 0xE0A1 ->
      DecodeExecute rnd ins cpu
      = Done tt (if (at_ (V cpu) (X ins) <=? 15) && key_latch cpu (at_ (V cpu) (X ins))
                 then cpu else set_PC (u16 (PC cpu + 2)) cpu)).
Proof.
  intros Hwf. pose proof (wf_Vx cpu ins Hwf) as HVx. split; intros Hm.
  - rewrite dispatch_Ex9E by exact Hm. unfold op_Ex9E, skip.
    now rewrite IsKeyPressed_latch.
  - rewrite dispatch_ExA1 by exact Hm. unfold op_ExA1, skip.
    rewrite IsKeyPressed_latch by exact HVx.
    now destruct ((at_ (V cpu) (X ins) <=? 15) && key_latch cpu (at_ (V cpu) (X ins))).
Qed.

Lemma skip_on_key_witness :
  DecodeExecute 0 0xE29E (UpdateKeyboard [7] (set_V (upd (V zero) 2 7) zero))
  = Done tt
      (if (at_ (V (UpdateKeyboard [7] (set_V (upd (V zero) 2 7) zero))) (X 0xE29E) <=? 15)
          && key_latch (UpdateKeyboard [7] (set_V (upd (V zero) 2 7) zero))
               (at_ (V (UpdateKeyboard [7] (set_V (upd (V zero) 2 7) zero))) (X 0xE29E))
       then set_PC (u16 (PC (UpdateKeyboard [7] (set_V (upd (V zero) 2 7) zero)) + 2))
              (UpdateKeyboard [7] (set_V (upd (V zero) 2 7) zero))
       else UpdateKeyboard [7] (set_V (upd (V zero) 2 7) zero)).
Proof.
  apply (skip_on_key 0 0xE29E (UpdateKeyboard [7] (set_V (upd (V zero) 2 7) zero))).
  - apply wfb_wf. vm_compute. reflexivity.
  - reflexivity.
Defined.

Example held_key_skips :
  DecodeExecute 0 0xE29E (UpdateKeyboard [7] (set_V (upd (V zero) 2 7) zero))
  = Done tt (set_PC 2 (UpdateKeyboard [7] (set_V (upd (V zero) 2 7) zero))).
Proof. vm_compute. reflexivity. Qed.

(** C8 as stated fails for a register value above 15: with key 1 held and
    registers[0] = 0x11, key_latch[0x11 & 0xF] is set, and yet Ex9E does
    not skip and ExA1 does. *)
Lemma skip_on_key_counterexample :
  key_latch (UpdateKeyboard [1] (set_V (upd (V zero) 0 0x11) zero))
            (Z.land (at_ (V (UpdateKeyboard [1] (set_V (upd (V zero) 0 0x11) zero))) 0) 0xF)
  = true
  /\ DecodeExecute 0 0xE09E (UpdateKeyboard [1] (set_V (upd (V zero) 0 0x11) zero))
     = Done tt (UpdateKeyboard [1] (set_V (upd (V zero) 0 0x11) zero))
  /\ DecodeExecute 0 0xE0A1 (UpdateKeyboard [1] (set_V (upd (V zero) 0 0x11) zero))
     = Done tt (set_PC 2 (UpdateKeyboard [1] (set_V (upd (V zero) 0 0x11) zero))).
Proof. repeat split; vm_compute; reflexivity. Qed.

(** ** Wait for a key (Fx0A) *)

Lemma dispatch_Fx0A rnd ins :
  Z.land ins 0xF0FF = 0xF00A -> DecodeExecute rnd ins = op_Fx0A (X ins).
Proof. intros Hm. dispatch Hm. reflexivity. Qed.

(** The first element that a filter keeps of a run of consecutive
    integers is the least one that passes. *)
Lemma filter_seqZ_first (f : Z -> bool) (n : nat) (m k : Z) :
  List.filter f (seqZ m (Z.of_nat n)) !! 0%nat = Some k ->
  m <= k < m + Z.of_nat n /\ f k = true /\ forall j, m <= j < k -> f j = false.
Proof.
  revert m. induction n as [|n IH]; intros m Hk.
  - rewrite seqZ_nil in Hk by lia. discriminate Hk.
  - rewrite seqZ_cons in Hk by lia. cbn [List.filter] in Hk.
    replace (Z.pred (Z.of_nat (S n))) with (Z.of_nat n) in Hk by lia.
    destruct (f m) eqn:Hm.
    + injection Hk as <-. repeat split; try lia. exact Hm.
    + apply IH in Hk as (Hrange & Hfk & Hbelow). repeat split; try lia; [exact Hfk|].
      intros j Hj. destruct (Z.eq_dec j m) as [->|Hne]; [exact Hm|].
      apply Hbelow. lia.
Qed.

Lemma filter_seqZ_some (f : Z -> bool) (m len k : Z) :
  m <= k < m + len -> f k = true ->
  exists k', List.filter f (seqZ m len) !! 0%nat = Some k'.
Proof.
  intros Hk Hfk.
  assert (Hin : In k (List.filter f (seqZ m len))).
  { apply filter_In. split; [|exact Hfk]. apply list_elem_of_In, elem_of_seqZ. lia. }
  destruct (List.filter f (seqZ m len)) as [|k' l]; [destruct Hin|].
  now exists k'.
Qed.

(** With one of the keys 0 to 0xE held, Fx0A stores the lowest held key. *)
Lemma wait_key_lowest rnd ins cpu :
  wf cpu ->
  Z.land ins 0xF0FF = 0xF00A ->
  (exists k, 0 <= k < 15 /\ key_latch cpu k = true) ->
  exists k,
    0 <= k < 15 /\ key_latch cpu k = true
    /\ (forall j, 0 <= j < k -> key_latch cpu j = false)
    /\ DecodeExecute rnd ins cpu = Done tt (set_V (upd (V cpu) (X ins) k) cpu).
Proof.
  intros Hwf Hm (k0 & Hk0 & Hheld).
  rewrite dispatch_Fx0A by exact Hm. unfold op_Fx0A, IsAnyKeyPressed, PressedKeys.
  assert (Hany : 0 < KEYBOARD cpu).
  { pose proof (wf_KEYBOARD _ Hwf).
    destruct (Z.eq_dec (KEYBOARD cpu) 0) as [Hz|]; [|lia].
    unfold key_latch in Hheld. rewrite Hz, Z.bits_0 in Hheld. discriminate Hheld. }
  destruct (Z.ltb_spec 0 (KEYBOARD cpu)); [|lia]. cbn [negb].
  destruct (filter_seqZ_some (fun k => IsKeyPressed k cpu) 0 0xF k0) as [k Hk];
    [lia | rewrite IsKeyPressed_latch by lia; rewrite Hheld;
           now destruct (Z.leb_spec k0 15); [|lia] |].
  rewrite Hk. change 0xF with (Z.of_nat 15) in Hk.
  apply filter_seqZ_first in Hk as (Hrange & Hpressed & Hbelow).
  rewrite IsKeyPressed_latch in Hpressed by lia.
  apply andb_true_iff in Hpressed as [_ Hpressed].
  exists k. repeat split; try lia; [exact Hpressed|].
  intros j Hj. specialize (Hbelow j ltac:(lia)).
  rewrite IsKeyPressed_latch in Hbelow by lia.
  destruct (Z.leb_spec j 15); [exact Hbelow | lia].
Qed.

(** With no key held the busy wait never ends. *)
Lemma wait_key_spins rnd ins cpu :
  Z.land ins 0xF0FF = 0xF00A -> KEYBOARD cpu = 0 -> DecodeExecute rnd ins cpu = Spin cpu.
Proof.
  intros Hm Hnone. rewrite dispatch_Fx0A by exact Hm.
  unfold op_Fx0A, IsAnyKeyPressed. now rewrite Hnone.
Qed.

(** C9 fails on the code. With key 0xF the only key held, the keyboard
    word is not zero, so the wait ends, but [PressedKeys] scans keys 0 to
    0xE only ([k < 0xF]) and returns no key: [cpu.PressedKeys()[0]] panics
    where the claim has 0xF stored in registers[x]. *)
Theorem wait_key_misses_F :
  key_latch (UpdateKeyboard [0xF] zero) 0xF = true
  /\ PressedKeys (UpdateKeyboard [0xF] zero) = []
  /\ DecodeExecute 0 0xF00A (UpdateKeyboard [0xF] zero)
     = Panic IndexOutOfRange (UpdateKeyboard [0xF] zero).
Proof. repeat split; vm_compute; reflexivity. Qed.

(** ** The flag register as a destination *)

Lemma dispatch_8xy5 rnd ins :
  Z.land ins 0xF00F = 0x8005 -> DecodeExecute rnd ins = op_8xy5 (X ins) (Y ins).
Proof. intros Hm. dispatch Hm. reflexivity. Qed.

Lemma dispatch_8xy6 rnd ins :
  Z.land ins 0xF00F = 0x8006 -> DecodeExecute rnd ins = op_8xy6 (X ins).
Proof. intros Hm. dispatch Hm. reflexivity. Qed.

Lemma dispatch_8xy7 rnd ins :
  Z.land ins 0xF00F = 0x8007 -> DecodeExecute rnd ins = op_8xy7 (X ins) (Y ins).
Proof. intros Hm. dispatch Hm. reflexivity. Qed.

Lemma dispatch_8xyE rnd ins :
  Z.land ins 0xF00F = 0x800E -> DecodeExecute rnd ins = op_8xyE (X ins).
Proof. intros Hm. dispatch Hm. reflexivity. Qed.

(** Subtract, shift right, subtract-reverse and shift left write the
    result first and the flag last: register 0xF ends as the flag, also
    when it is the destination. *)
Lemma flag_written_last rnd ins cpu :
  wf cpu ->
  (Z.land ins 0xF00F = 0x8005 ->
   exists cpu', DecodeExecute rnd ins cpu = Done tt cpu'
     /\ at_ (V cpu') 0xF = if at_ (V cpu) (Y ins) <=? at_ (V cpu) (X ins) then 1 else 0)
  /\ (Z.land ins 0xF00F = 0x8006 ->
      exists cpu', DecodeExecute rnd ins cpu = Done tt cpu'
        /\ at_ (V cpu') 0xF = Z.land (at_ (V cpu) (X ins)) 1)
  /\ (Z.land ins 0xF00F = 0x8007 ->
      exists cpu', DecodeExecute rnd ins cpu = Done tt cpu'
        /\ at_ (V cpu') 0xF = if at_ (V cpu) (X ins) <=? at_ (V cpu) (Y ins) then 1 else 0)
  /\ (Z.land ins 0xF00F = 0x800E ->
      exists cpu', DecodeExecute rnd ins cpu = Done tt cpu'
        /\ at_ (V cpu') 0xF = Z.land (Z.shiftr (at_ (V cpu) (X ins)) 7) 1).
Proof.
  intros Hwf. pose proof (wf_V_len _ Hwf) as Hlen.
  repeat split; intros Hm.
  - rewrite dispatch_8xy5 by exact Hm. unfold op_8xy5. eexists. split; [reflexivity|].
    destruct (_ <=? _); cbn [V set_V]; rewrite at_upd_eq; rewrite ?length_upd; (reflexivity || lia).
  - rewrite dispatch_8xy6 by exact Hm. unfold op_8xy6. eexists. split; [reflexivity|].
    cbn [V set_V]. rewrite at_upd_eq; rewrite ?length_upd; (reflexivity || lia).
  - rewrite dispatch_8xy7 by exact Hm. unfold op_8xy7. eexists. split; [reflexivity|].
    destruct (_ <=? _); cbn [V set_V]; rewrite at_upd_eq; rewrite ?length_upd; (reflexivity || lia).
  - rewrite dispatch_8xyE by exact Hm. unfold op_8xyE. eexists. split; [reflexivity|].
    cbn [V set_V]. rewrite at_upd_eq; rewrite ?length_upd; (reflexivity || lia).
Qed.

(** Add registers writes the flag first and the sum last: with 0xF as the
    destination, register 0xF ends as the low byte of the sum. *)
Lemma add_flag_lost rnd ins cpu :
  wf cpu ->
  Z.land ins 0xF00F = 0x8004 -> X ins = 0xF ->
  exists cpu', DecodeExecute rnd ins cpu = Done tt cpu'
    /\ at_ (V cpu') 0xF = (at_ (V cpu) 0xF + at_ (V cpu) (Y ins)) mod 256.
Proof.
  intros Hwf Hm Hx. pose proof (wf_V_len _ Hwf) as Hlen.
  pose proof (wf_Vx cpu ins Hwf) as Ha. pose proof (wf_Vy cpu ins Hwf) as Hb.
  rewrite dispatch_8xy4 by exact Hm. unfold op_8xy4. rewrite Hx in *.
  eexists. split; [reflexivity|].
  assert (Hsum : u16 (u16 (at_ (V cpu) 15) + u16 (at_ (V cpu) (Y ins)))
                 = at_ (V cpu) 15 + at_ (V cpu) (Y ins)).
  { unfold u16. rewrite (Z.mod_small (at_ (V cpu) 15)),
      (Z.mod_small (at_ (V cpu) (Y ins))), Z.mod_small; lia. }
  rewrite Hsum.
  destruct (_ <? _); cbn [V set_V]; rewrite at_upd_eq; rewrite ?length_upd; (reflexivity || lia).
Qed.

(** C3 fails on the code for add registers. With registers[0xF] = 200 and
    registers[0] = 100, 8F04 computes the sum 300 and the flag 1, writes the
    flag and then overwrites it with the low byte of the sum: register 0xF
    ends as 44.  On the same machine subtract (8F05) leaves its flag, 1. *)
Theorem add_flag_overwritten :
  (exists cpu',
     DecodeExecute 0 0x8F04 (set_V (upd (upd (V zero) 0xF 200) 0 100) zero) = Done tt cpu'
     /\ at_ (V cpu') 0xF = 44)
  /\ (exists cpu',
        DecodeExecute 0 0x8F05 (set_V (upd (upd (V zero) 0xF 200) 0 100) zero) = Done tt cpu'
        /\ at_ (V cpu') 0xF = 1).
Proof. split; eexists; (split; [vm_compute; reflexivity|]); vm_compute; reflexivity. Qed.

(** ** Memory addressed through the index register *)

Section slices.
Context {A : Type} `{Inhabited A}.
Implicit Types (a dst src : list A) (lo hi i j : Z).

Lemma slice_inside a lo hi :
  lo <= hi <= Z.of_nat (length a) ->
  slice a lo hi = Some (take (Z.to_nat (hi - lo)) (drop (Z.to_nat lo) a)).
Proof.
  intros Hb. unfold slice.
  destruct (Z.leb_spec lo hi); [|lia].
  destruct (Z.leb_spec hi (Z.of_nat (length a))); [reflexivity|lia].
Qed.

Lemma slice_outside a lo hi :
  hi < lo \/ Z.of_nat (length a) < hi -> slice a lo hi = None.
Proof.
  intros Hb. unfold slice.
  destruct (Z.leb_spec lo hi); [|reflexivity].
  destruct (Z.leb_spec hi (Z.of_nat (length a))); [lia|reflexivity].
Qed.

Lemma length_window a lo n :
  0 <= lo -> 0 <= n -> lo + n <= Z.of_nat (length a) ->
  length (take (Z.to_nat n) (drop (Z.to_nat lo) a)) = Z.to_nat n.
Proof. intros Hlo Hn Hb. rewrite length_take, length_drop. lia. Qed.

Lemma at_window a lo n i :
  0 <= lo -> 0 <= i < n ->
  at_ (take (Z.to_nat n) (drop (Z.to_nat lo) a)) i = at_ a (lo + i).
Proof.
  intros Hlo Hi. unfold at_.
  rewrite lookup_total_take_lt by lia. rewrite lookup_total_drop.
  f_equal. lia.
Qed.

Lemma length_copy a lo dst src : length (copy a lo dst src) = length a.
Proof. apply length_inserts. Qed.

Lemma at_copy_in a lo dst src j :
  0 <= lo -> lo <= j < lo + Z.of_nat (length dst) ->
  (length dst <= length src)%nat -> j < Z.of_nat (length a) ->
  at_ (copy a lo dst src) j = at_ src (j - lo).
Proof.
  intros Hlo Hj Hlen Ha. unfold at_, copy.
  rewrite list_lookup_total_inserts by (rewrite ?length_take; lia).
  rewrite lookup_total_take_lt by lia. f_equal. lia.
Qed.

Lemma at_copy_out a lo dst src j :
  0 <= lo -> 0 <= j -> j < lo \/ lo + Z.of_nat (length dst) <= j ->
  (length dst <= length src)%nat ->
  at_ (copy a lo dst src) j = at_ a j.
Proof.
  intros Hlo Hj Hout Hlen. unfold at_, copy. destruct Hout.
  - apply list_lookup_total_inserts_lt. lia.
  - apply list_lookup_total_inserts_ge. rewrite length_take. lia.
Qed.

End slices.

Lemma dispatch_Dxyn rnd ins :
  Z.land ins 0xF000 = 0xD000 -> DecodeExecute rnd ins = op_Dxyn ins (X ins) (Y ins).
Proof. intros Hm. dispatch Hm. reflexivity. Qed.

Lemma dispatch_Fx33 rnd ins :
  Z.land ins 0xF0FF = 0xF033 -> DecodeExecute rnd ins = op_Fx33 (X ins).
Proof. intros Hm. dispatch Hm. reflexivity. Qed.

Lemma dispatch_Fx55 rnd ins :
  Z.land ins 0xF0FF = 0xF055 -> DecodeExecute rnd ins = op_Fx55 (X ins).
Proof. intros Hm. dispatch Hm. reflexivity. Qed.

Lemma dispatch_Fx65 rnd ins :
  Z.land ins 0xF0FF = 0xF065 -> DecodeExecute rnd ins = op_Fx65 (X ins).
Proof. intros Hm. dispatch Hm. reflexivity. Qed.

Lemma low_nibble ins : 0 <= Z.land ins 0x000F < 16.
Proof.
  change 0x000F with (Z.ones 4). rewrite Z.land_ones by lia.
  apply Z.mod_pos_bound. lia.
Qed.

Lemma ram_store_inside addr b cpu :
  addr < Z.of_nat (length (RAM cpu)) ->
  ram_store addr b cpu = Done tt (set_RAM (upd (RAM cpu) addr b) cpu).
Proof. intros Ha. unfold ram_store. now destruct (Z.ltb_spec addr (Z.of_nat (length (RAM cpu)))); [|lia]. Qed.

Lemma ram_store_outside addr b cpu :
  Z.of_nat (length (RAM cpu)) <= addr ->
  ram_store addr b cpu = Panic IndexOutOfRange cpu.
Proof. intros Ha. unfold ram_store. now destruct (Z.ltb_spec addr (Z.of_nat (length (RAM cpu)))); [lia|]. Qed.

(** Fx33: the three stores go to I, I+1, I+2 as they are. *)
Lemma bcd_store rnd ins cpu :
  wf cpu -> Z.land ins 0xF0FF = 0xF033 ->
  (I cpu + 2 < 4096 ->
   exists cpu',
     DecodeExecute rnd ins cpu = Done tt cpu'
     /\ at_ (RAM cpu') (I cpu) = at_ (V cpu) (X ins) / 100
     /\ at_ (RAM cpu') (I cpu + 1) = (at_ (V cpu) (X ins) / 10) mod 10
     /\ at_ (RAM cpu') (I cpu + 2) = at_ (V cpu) (X ins) mod 10)
  /\ (4096 <= I cpu + 2 ->
      exists cpu', DecodeExecute rnd ins cpu = Panic IndexOutOfRange cpu').
Proof.
  intros Hwf Hm. pose proof (wf_I _ Hwf) as HI. pose proof (wf_RAM_len _ Hwf) as Hlen.
  rewrite dispatch_Fx33 by exact Hm. unfold op_Fx33, bind. split.
  - intros Hin.
    replace (u16 (I cpu + 1)) with (I cpu + 1) by (unfold u16; rewrite Z.mod_small; lia).
    replace (u16 (I cpu + 2)) with (I cpu + 2) by (unfold u16; rewrite Z.mod_small; lia).
    rewrite ram_store_inside by lia.
    rewrite ram_store_inside by (cbn [RAM set_RAM]; rewrite length_upd; lia).
    rewrite ram_store_inside by (cbn [RAM set_RAM]; rewrite !length_upd; lia).
    eexists. split; [reflexivity|]. cbn [RAM set_RAM]. repeat split.
    + rewrite !at_upd_ne by lia. apply at_upd_eq. lia.
    + rewrite at_upd_ne by lia. apply at_upd_eq. rewrite length_upd. lia.
    + apply at_upd_eq. rewrite !length_upd. lia.
  - intros Hout.
    destruct (Z.lt_ge_cases (I cpu) 4096) as [H0|H0];
      [rewrite ram_store_inside by lia | rewrite ram_store_outside by lia; now eexists].
    destruct (Z.lt_ge_cases (I cpu + 1) 4096) as [H1|H1].
    + replace (u16 (I cpu + 1)) with (I cpu + 1) by (unfold u16; rewrite Z.mod_small; lia).
      rewrite ram_store_inside by (cbn [RAM set_RAM]; rewrite length_upd; lia).
      replace (u16 (I cpu + 2)) with (I cpu + 2) by (unfold u16; rewrite Z.mod_small; lia).
      rewrite ram_store_outside by (cbn [RAM set_RAM]; rewrite !length_upd; lia).
      now eexists.
    + replace (u16 (I cpu + 1)) with (I cpu + 1) by (unfold u16; rewrite Z.mod_small; lia).
      rewrite ram_store_outside by (cbn [RAM set_RAM]; rewrite length_upd; lia).
      now eexists.
Qed.

(** Dxyn: the sprite is the [n] bytes from I on. *)
Lemma sprite_read rnd ins cpu :
  wf cpu -> Z.land ins 0xF000 = 0xD000 ->
  (I cpu + Z.land ins 0x000F <= 4096 ->
   DecodeExecute rnd ins cpu
   = Done tt (DrawSprite (at_ (V cpu) (X ins)) (at_ (V cpu) (Y ins))
                (take (Z.to_nat (Z.land ins 0x000F)) (drop (Z.to_nat (I cpu)) (RAM cpu)))
                cpu))
  /\ (4096 < I cpu + Z.land ins 0x000F ->
      DecodeExecute rnd ins cpu = Panic SliceBoundsOutOfRange cpu).
Proof.
  intros Hwf Hm. pose proof (wf_I _ Hwf) as HI. pose proof (wf_RAM_len _ Hwf) as Hlen.
  pose proof (low_nibble ins) as Hn.
  rewrite dispatch_Dxyn by exact Hm. unfold op_Dxyn. split.
  - intros Hin.
    replace (u16 (I cpu + Z.land ins 0x000F)) with (I cpu + Z.land ins 0x000F)
      by (unfold u16; rewrite Z.mod_small; lia).
    rewrite slice_inside by lia.
    replace (I cpu + Z.land ins 0x000F - I cpu) with (Z.land ins 0x000F) by lia.
    reflexivity.
  - intros Hout. rewrite slice_outside; [reflexivity|].
    rewrite Hlen. unfold u16. revert Hout. Z.div_mod_to_equations. lia.
Qed.

(** Fx55: registers 0 to x go to I, ..., I+x as they are. *)
Lemma registers_store rnd ins cpu :
  wf cpu -> Z.land ins 0xF0FF = 0xF055 ->
  (I cpu + X ins + 1 <= 4096 ->
   exists cpu',
     DecodeExecute rnd ins cpu = Done tt cpu'
     /\ (forall i, 0 <= i <= X ins -> at_ (RAM cpu') (I cpu + i) = at_ (V cpu) i)
     /\ (forall a, 0 <= a -> a < I cpu \/ I cpu + X ins < a ->
           at_ (RAM cpu') a = at_ (RAM cpu) a))
  /\ (4096 < I cpu + X ins + 1 ->
      DecodeExecute rnd ins cpu = Panic SliceBoundsOutOfRange cpu).
Proof.
  intros Hwf Hm. pose proof (wf_I _ Hwf) as HI. pose proof (wf_RAM_len _ Hwf) as Hlen.
  pose proof (wf_V_len _ Hwf) as HVlen. pose proof (X_nibble ins) as Hx.
  rewrite dispatch_Fx55 by exact Hm. unfold op_Fx55. split.
  - intros Hin.
    replace (u16 (I cpu + X ins + 1)) with (I cpu + X ins + 1)
      by (unfold u16; rewrite Z.mod_small; lia).
    replace (u16 (X ins + 1)) with (X ins + 1) by (unfold u16; rewrite Z.mod_small; lia).
    rewrite !slice_inside by lia.
    replace (I cpu + X ins + 1 - I cpu) with (X ins + 1) by lia.
    replace (X ins + 1 - 0) with (X ins + 1) by lia.
    eexists. split; [reflexivity|]. cbn [RAM set_RAM].
    assert (Hdst : length (take (Z.to_nat (X ins + 1)) (drop (Z.to_nat (I cpu)) (RAM cpu)))
                   = Z.to_nat (X ins + 1)) by (apply length_window; lia).
    assert (Hsrc : length (take (Z.to_nat (X ins + 1)) (drop (Z.to_nat 0) (V cpu)))
                   = Z.to_nat (X ins + 1)) by (apply length_window; lia).
    split.
    + intros i Hi. rewrite at_copy_in by (rewrite ?Hdst, ?Hsrc; lia).
      replace (I cpu + i - I cpu) with i by lia.
      rewrite at_window by lia. f_equal.
    + intros a Ha Hout. apply at_copy_out; rewrite ?Hdst, ?Hsrc; lia.
  - intros Hout. rewrite slice_outside; [reflexivity|].
    rewrite Hlen. unfold u16. revert Hout. Z.div_mod_to_equations. lia.
Qed.

(** Fx65: registers 0 to x come from I, ..., I+x as they are. *)
Lemma registers_load rnd ins cpu :
  wf cpu -> Z.land ins 0xF0FF = 0xF065 ->
  (I cpu + X ins + 1 <= 4096 ->
   exists cpu',
     DecodeExecute rnd ins cpu = Done tt cpu'
     /\ (forall i, 0 <= i <= X ins -> at_ (V cpu') i = at_ (RAM cpu) (I cpu + i))
     /\ (forall i, X ins < i -> at_ (V cpu') i = at_ (V cpu) i))
  /\ (4096 < I cpu + X ins + 1 ->
      DecodeExecute rnd ins cpu = Panic SliceBoundsOutOfRange cpu).
Proof.
  intros Hwf Hm. pose proof (wf_I _ Hwf) as HI. pose proof (wf_RAM_len _ Hwf) as Hlen.
  pose proof (wf_V_len _ Hwf) as HVlen. pose proof (X_nibble ins) as Hx.
  rewrite dispatch_Fx65 by exact Hm. unfold op_Fx65.
  replace (u16 (X ins + 1)) with (X ins + 1) by (unfold u16; rewrite Z.mod_small; lia).
  rewrite (slice_inside (V cpu)) by lia.
  replace (X ins + 1 - 0) with (X ins + 1) by lia. split.
  - intros Hin.
    replace (u16 (I cpu + X ins + 1)) with (I cpu + X ins + 1)
      by (unfold u16; rewrite Z.mod_small; lia).
    rewrite slice_inside by lia.
    replace (I cpu + X ins + 1 - I cpu) with (X ins + 1) by lia.
    eexists. split; [reflexivity|]. cbn [V set_V].
    assert (Hsrc : length (take (Z.to_nat (X ins + 1)) (drop (Z.to_nat (I cpu)) (RAM cpu)))
                   = Z.to_nat (X ins + 1)) by (apply length_window; lia).
    assert (Hdst : length (take (Z.to_nat (X ins + 1)) (drop (Z.to_nat 0) (V cpu)))
                   = Z.to_nat (X ins + 1)) by (apply length_window; lia).
    split.
    + intros i Hi. rewrite at_copy_in by (rewrite ?Hdst, ?Hsrc; lia).
      rewrite at_window by lia. f_equal. lia.
    + intros i Hi. apply at_copy_out; rewrite ?Hdst, ?Hsrc; lia.
  - intros Hout. rewrite slice_outside; [reflexivity|].
    rewrite Hlen. unfold u16. revert Hout. Z.div_mod_to_equations. lia.
Qed.

(** C2 (amended). The opcodes that address memory through the index
    register wrap no address modulo 4096.  Each completes, using the
    addresses I, I+1, ... as they are, when the last address it needs lies
    inside the 4096-byte memory: I + 2 <= 4095 for the BCD store (Fx33),
    I + n <= 4096 for the sprite read (Dxyn), I + x + 1 <= 4096 for the
    register store (Fx55) and load (Fx65).  Otherwise it panics on the
    bounds check of the Go runtime: index out of range for Fx33 (the stores
    before the failing one stay done), slice bounds out of range for the
    other three (nothing is written). *)
Theorem memory_ops_unwrapped rnd ins cpu :
  wf cpu ->
  (Z.land ins 0xF0FF = 0xF033 ->
   (I cpu + 2 < 4096 ->
    exists cpu',
      DecodeExecute rnd ins cpu = Done tt cpu'
      /\ at_ (RAM cpu') (I cpu) = at_ (V cpu) (X ins) / 100
      /\ at_ (RAM cpu') (I cpu + 1) = (at_ (V cpu) (X ins) / 10) mod 10
      /\ at_ (RAM cpu') (I cpu + 2) = at_ (V cpu) (X ins) mod 10)
   /\ (4096 <= I cpu + 2 ->
       exists cpu', DecodeExecute rnd ins cpu = Panic IndexOutOfRange cpu'))
  /\ (Z.land ins 0xF000 = 0xD000 ->
      (I cpu + Z.land ins 0x000F <= 4096 ->
       DecodeExecute rnd ins cpu
       = Done tt (DrawSprite (at_ (V cpu) (X ins)) (at_ (V cpu) (Y ins))
                    (take (Z.to_nat (Z.land ins 0x000F))
                          (drop (Z.to_nat (I cpu)) (RAM cpu)))
                    cpu))
      /\ (4096 < I cpu + Z.land ins 0x000F ->
          DecodeExecute rnd ins cpu = Panic SliceBoundsOutOfRange cpu))
  /\ (Z.land ins 0xF0FF = 0xF055 ->
      (I cpu + X ins + 1 <= 4096 ->
       exists cpu',
         DecodeExecute rnd ins cpu = Done tt cpu'
         /\ (forall i, 0 <= i <= X ins -> at_ (RAM cpu') (I cpu + i) = at_ (V cpu) i)
         /\ (forall a, 0 <= a -> a < I cpu \/ I cpu + X ins < a ->
               at_ (RAM cpu') a = at_ (RAM cpu) a))
      /\ (4096 < I cpu + X ins + 1 ->
          DecodeExecute rnd ins cpu = Panic SliceBoundsOutOfRange cpu))
  /\ (Z.land ins 0xF0FF = 0xF065 ->
      (I cpu + X ins + 1 <= 4096 ->
       exists cpu',
         DecodeExecute rnd ins cpu = Done tt cpu'
         /\ (forall i, 0 <= i <= X ins -> at_ (V cpu') i = at_ (RAM cpu) (I cpu + i))
         /\ (forall i, X ins < i -> at_ (V cpu') i = at_ (V cpu) i))
      /\ (4096 < I cpu + X ins + 1 ->
          DecodeExecute rnd ins cpu = Panic SliceBoundsOutOfRange cpu)).
Proof.
  intros Hwf. repeat apply conj; intros Hm.
  - now apply bcd_store.
  - now apply sprite_read.
  - now apply registers_store.
  - now apply registers_load.
Qed.

Lemma memory_ops_unwrapped_witness :
  (exists cpu',
     DecodeExecute 0 0xF033 (set_I 0x300 (set_V (upd (V zero) 0 255) zero)) = Done tt cpu'
     /\ at_ (RAM cpu') (I (set_I 0x300 (set_V (upd (V zero) 0 255) zero)))
        = at_ (V (set_I 0x300 (set_V (upd (V zero) 0 255) zero))) (X 0xF033) / 100
     /\ at_ (RAM cpu') (I (set_I 0x300 (set_V (upd (V zero) 0 255) zero)) + 1)
        = (at_ (V (set_I 0x300 (set_V (upd (V zero) 0 255) zero))) (X 0xF033) / 10) mod 10
     /\ at_ (RAM cpu') (I (set_I 0x300 (set_V (upd (V zero) 0 255) zero)) + 2)
        = at_ (V (set_I 0x300 (set_V (upd (V zero) 0 255) zero))) (X 0xF033) mod 10)
  /\ DecodeExecute 0 0xF155 (set_I 0xFFF zero) = Panic SliceBoundsOutOfRange (set_I 0xFFF zero).
Proof.
  split.
  - destruct (memory_ops_unwrapped 0 0xF033 (set_I 0x300 (set_V (upd (V zero) 0 255) zero)))
      as (Hbcd & _); [apply wfb_wf; vm_compute; reflexivity|].
    destruct Hbcd as (Hin & _); [reflexivity|].
    apply Hin. cbn. lia.
  - destruct (memory_ops_unwrapped 0 0xF155 (set_I 0xFFF zero))
      as (_ & _ & Hstore & _); [apply wfb_wf; vm_compute; reflexivity|].
    destruct Hstore as (_ & Hout); [reflexivity|].
    apply Hout. vm_compute. reflexivity.
Defined.

(** C2 as stated fails at the end of memory: nothing wraps.  With I = 0xFFF
    the BCD store of 255 writes the hundreds digit at 0xFFF and panics on
    the address 0x1000 of the tens digit; a one-row sprite read at
    I = 0x1000, and the store and the load of registers 0 and 1 at
    I = 0xFFF, panic on the bounds of the slice. *)
Lemma memory_ops_wrap_counterexample :
  wf (set_I 0xFFF (set_V (upd (V zero) 0 255) zero))
  /\ DecodeExecute 0 0xF033 (set_I 0xFFF (set_V (upd (V zero) 0 255) zero))
     = Panic IndexOutOfRange
         (set_RAM (upd (RAM zero) 0xFFF 2) (set_I 0xFFF (set_V (upd (V zero) 0 255) zero)))
  /\ DecodeExecute 0 0xD001 (set_I 0x1000 zero)
     = Panic SliceBoundsOutOfRange (set_I 0x1000 zero)
  /\ DecodeExecute 0 0xF155 (set_I 0xFFF zero)
     = Panic SliceBoundsOutOfRange (set_I 0xFFF zero)
  /\ DecodeExecute 0 0xF165 (set_I 0xFFF zero)
     = Panic SliceBoundsOutOfRange (set_I 0xFFF zero).
Proof.
  split; [apply wfb_wf; vm_compute; reflexivity|].
  repeat split; vm_compute; reflexivity.
Qed.

(** ** The decoder keeps machines well-formed *)

Lemma u8_range z : 0 <= u8 z < 256.
Proof. unfold u8. apply Z.mod_pos_bound. lia. Qed.

Lemma u16_range z : 0 <= u16 z < 65536.
Proof. unfold u16. apply Z.mod_pos_bound. lia. Qed.

Lemma log2_byte v : 0 <= v -> (v < 256 <-> Z.log2 v < 8).
Proof.
  intros Hv. destruct (Z.eq_dec v 0) as [->|Hne]; [cbn; lia|].
  change 256 with (2 ^ 8). apply Z.log2_lt_pow2. lia.
Qed.

Lemma lor_byte a b : 0 <= a < 256 -> 0 <= b < 256 -> 0 <= Z.lor a b < 256.
Proof.
  intros Ha Hb. assert (0 <= Z.lor a b) by (apply Z.lor_nonneg; lia).
  split; [assumption|]. apply log2_byte; [assumption|].
  rewrite Z.log2_lor by lia.
  pose proof (proj1 (log2_byte a ltac:(lia)) ltac:(lia)).
  pose proof (proj1 (log2_byte b ltac:(lia)) ltac:(lia)). lia.
Qed.

Lemma lxor_byte a b : 0 <= a < 256 -> 0 <= b < 256 -> 0 <= Z.lxor a b < 256.
Proof.
  intros Ha Hb. assert (0 <= Z.lxor a b) by (apply Z.lxor_nonneg; lia).
  split; [assumption|]. apply log2_byte; [assumption|].
  pose proof (Z.log2_lxor a b ltac:(lia) ltac:(lia)).
  pose proof (proj1 (log2_byte a ltac:(lia)) ltac:(lia)).
  pose proof (proj1 (log2_byte b ltac:(lia)) ltac:(lia)). lia.
Qed.

Lemma land_byte a b : 0 <= a < 256 -> 0 <= b -> 0 <= Z.land a b < 256.
Proof.
  intros Ha Hb. assert (0 <= Z.land a b) by (apply Z.land_nonneg; lia).
  split; [assumption|]. apply log2_byte; [assumption|].
  pose proof (Z.log2_land a b ltac:(lia) ltac:(lia)).
  pose proof (proj1 (log2_byte a ltac:(lia)) ltac:(lia)). lia.
Qed.

Lemma land_low12 ins : 0 <= Z.land ins 0x0FFF < 65536.
Proof.
  change 0x0FFF with (Z.ones 12). rewrite Z.land_ones by lia.
  pose proof (Z.mod_pos_bound ins (2 ^ 12) ltac:(lia)). lia.
Qed.

Lemma bytes_upd l i b : bytes l -> 0 <= b < 256 -> bytes (upd l i b).
Proof. intros Hl Hb. now apply Forall_insert. Qed.

Lemma words_upd l i w : words l -> 0 <= w < 65536 -> words (upd l i w).
Proof. intros Hl Hw. now apply Forall_insert. Qed.

Lemma at_byte_V cpu i : wf cpu -> 0 <= at_ (V cpu) i < 256.
Proof.
  intros Hwf. unfold at_.
  destruct (V cpu !! Z.to_nat i) as [b|] eqn:Hb.
  - rewrite (list_lookup_total_correct _ _ _ Hb).
    exact (proj1 (Forall_lookup _ _) (wf_V _ Hwf) _ _ Hb).
  - rewrite list_lookup_total_alt, Hb. cbn. lia.
Qed.

Lemma slice_bytes l lo hi s : bytes l -> slice l lo hi = Some s -> bytes s.
Proof.
  intros Hl. unfold slice. destruct (_ && _); [|discriminate].
  intros [= <-]. now apply Forall_take, Forall_drop.
Qed.

Lemma bytes_copy a lo dst src : bytes a -> bytes src -> bytes (copy a lo dst src).
Proof. intros Ha Hsrc. apply Forall_inserts; [assumption|]. now apply Forall_take. Qed.

Lemma bytes_V_plots ps cpu : bytes (V cpu) -> bytes (V (fold_left plot ps cpu)).
Proof.
  revert cpu. induction ps as [|q ps IH]; intros cpu HV; [exact HV|].
  cbn [fold_left]. apply IH. unfold plot.
  destruct (snd q); [|exact HV].
  destruct (at_ (FRAMEBUFFER cpu) (fst q)); cbn [V set_V set_FRAMEBUFFER]; [|exact HV].
  apply bytes_upd; [exact HV | lia].
Qed.

Lemma wf_DrawSprite vx vy sprite cpu : wf cpu -> wf (DrawSprite vx vy sprite cpu).
Proof.
  intros Hwf. pose proof (touches_DrawSprite vx vy sprite cpu) as Hsame.
  destruct Hsame. constructor; try (congruence || (rewrite ?same_I0, ?same_PC0, ?same_SP0,
    ?same_DT0, ?same_ST0, ?same_STACK0, ?same_RAM0, ?same_KEYBOARD0, ?same_V_len0,
    ?same_FB_len0; apply Hwf)).
  rewrite DrawSprite_plots. apply bytes_V_plots. cbn [V set_V].
  apply bytes_upd; [apply Hwf | lia].
Qed.

Lemma PressedKeys_byte cpu k : k ∈ PressedKeys cpu -> 0 <= k < 256.
Proof.
  unfold PressedKeys. rewrite list_elem_of_In, filter_In, <- list_elem_of_In, elem_of_seqZ.
  lia.
Qed.

Lemma wf_set_V cpu v : wf cpu -> length v = 16%nat -> bytes v -> wf (set_V v cpu).
Proof. intros [] ? ?. now constructor. Qed.
Lemma wf_set_I cpu i : wf cpu -> 0 <= i < 65536 -> wf (set_I i cpu).
Proof. intros [] ?. now constructor. Qed.
Lemma wf_set_PC cpu pc : wf cpu -> 0 <= pc < 65536 -> wf (set_PC pc cpu).
Proof. intros [] ?. now constructor. Qed.
Lemma wf_set_SP cpu sp : wf cpu -> 0 <= sp < 256 -> wf (set_SP sp cpu).
Proof. intros [] ?. now constructor. Qed.
Lemma wf_set_DT cpu dt : wf cpu -> 0 <= dt < 256 -> wf (set_DT dt cpu).
Proof. intros [] ?. now constructor. Qed.
Lemma wf_set_ST cpu st : wf cpu -> 0 <= st < 256 -> wf (set_ST st cpu).
Proof. intros [] ?. now constructor. Qed.
Lemma wf_set_STACK cpu s : wf cpu -> length s = 16%nat -> words s -> wf (set_STACK s cpu).
Proof. intros [] ? ?. now constructor. Qed.
Lemma wf_set_FRAMEBUFFER cpu fb :
  wf cpu -> length fb = 2048%nat -> wf (set_FRAMEBUFFER fb cpu).
Proof. intros [] ?. now constructor. Qed.
Lemma wf_set_RAM cpu m : wf cpu -> length m = 4096%nat -> bytes m -> wf (set_RAM m cpu).
Proof. intros [] ? ?. now constructor. Qed.

Lemma shiftr_byte a n : 0 <= a < 256 -> 0 <= n -> 0 <= Z.shiftr a n < 256.
Proof.
  intros Ha Hn. rewrite Z.shiftr_div_pow2 by exact Hn.
  assert (0 < 2 ^ n) by (apply Z.pow_pos_nonneg; lia).
  split; [apply Z.div_pos; lia|].
  apply Z.div_lt_upper_bound; nia.
Qed.

Lemma div_byte a d : 0 <= a < 256 -> 0 < d -> 0 <= a / d < 256.
Proof.
  intros Ha Hd. split; [apply Z.div_pos; lia|].
  apply Z.div_lt_upper_bound; nia.
Qed.

Lemma mod10_byte a : 0 <= a mod 10 < 256.
Proof. pose proof (Z.mod_pos_bound a 10 ltac:(lia)). lia. Qed.

Lemma lookup_words l (i : nat) w : words l -> l !! i = Some w -> 0 <= w < 65536.
Proof. intros Hl Hw. exact (proj1 (Forall_lookup _ _) Hl _ _ Hw). Qed.

(** Executing an instruction word keeps the array lengths and the integer
    ranges that the Go types give the machine. *)
Lemma DecodeExecute_wf rnd ins cpu cpu' :
  wf cpu -> DecodeExecute rnd ins cpu = Done tt cpu' -> wf cpu'.
Proof.
  intros Hwf Hrun. by_arm Hrun.
  all: repeat first
    [ exact Hwf
    | apply wf_DrawSprite
    | apply wf_set_V | apply wf_set_I | apply wf_set_PC | apply wf_set_SP
    | apply wf_set_DT | apply wf_set_ST | apply wf_set_STACK
    | apply wf_set_FRAMEBUFFER | apply wf_set_RAM ].
  all: cbn [V I PC SP DT ST STACK FRAMEBUFFER RAM KEYBOARD set_V set_I set_PC set_SP
            set_DT set_ST set_STACK set_FRAMEBUFFER set_RAM] in *.
  all: rewrite ?length_upd, ?length_copy, ?length_replicate.
  all: repeat first
    [ apply Hwf | apply u8_range | apply u16_range | apply land_low12
    | apply at_byte_V; exact Hwf
    | apply lor_byte | apply lxor_byte | apply land_byte
    | apply shiftr_byte | apply div_byte | apply mod10_byte
    | apply bytes_upd | apply words_upd
    | eapply lookup_words; [apply Hwf | eassumption]
    | eapply PressedKeys_byte, list_elem_of_lookup_2; eassumption
    | eapply bytes_copy; [apply Hwf | eapply slice_bytes; [|eassumption]; apply Hwf]
    | lia ].
Qed.

(** * Further properties of the package *)

(** ** Keyboard *)

(** Bit [n] of the word that [UpdateKeyboard] ORs in for key byte [v]. *)
Lemma key_word_bit (v n : Z) :
  0 <= v < 256 -> 0 <= n ->
  Z.testbit (u16 (Z.shiftl 1 (u8 (16 - 1 - v)))) n = (n <? 16) && (v =? 15 - n).
Proof.
  intros Hv Hn. unfold u16. change 65536 with (2 ^ 16).
  assert (Hs : 0 <= u8 (16 - 1 - v)) by apply u8_range.
  destruct (Z.ltb_spec n 16); cbn [andb].
  - rewrite Z.mod_pow2_bits_low by lia.
    rewrite Z.shiftl_1_l, Z.pow2_bits_eqb by exact Hs.
    unfold u8. destruct (Z.eqb_spec v (15 - n)) as [->|Hne].
    + apply Z.eqb_eq. rewrite Z.mod_small; lia.
    + apply Z.eqb_neq. revert Hne. Z.div_mod_to_equations. lia.
  - apply Z.mod_pow2_bits_high. lia.
Qed.

Lemma UpdateKeyboard_bits keys cpu (n : Z) :
  bytes keys -> 0 <= n ->
  Z.testbit (KEYBOARD (UpdateKeyboard keys cpu)) n
  = (n <? 16) && bool_decide (15 - n ∈ keys).
Proof.
  intros Hkeys Hn. unfold UpdateKeyboard.
  assert (Hgen : forall c,
    Z.testbit (KEYBOARD (fold_left
      (fun c v => set_KEYBOARD (Z.lor (KEYBOARD c) (u16 (Z.shiftl 1 (u8 (16 - 1 - v))))) c)
      keys c)) n
    = Z.testbit (KEYBOARD c) n || ((n <? 16) && bool_decide (15 - n ∈ keys))).
  { induction Hkeys as [|v keys Hv _ IH]; intros c; cbn [fold_left].
    - rewrite bool_decide_eq_false_2 by apply not_elem_of_nil.
      now rewrite andb_false_r, orb_false_r.
    - rewrite IH. cbn [KEYBOARD set_KEYBOARD].
      rewrite Z.lor_spec, key_word_bit by lia. rewrite <- orb_assoc. f_equal.
      destruct (Z.ltb_spec n 16); cbn [andb orb]; [|reflexivity].
      destruct (Z.eqb_spec v (15 - n)) as [->|Hne]; cbn [orb].
      + symmetry. apply bool_decide_eq_true_2. left.
      + apply bool_decide_ext. rewrite elem_of_cons. intuition congruence. }
  rewrite Hgen. cbn [KEYBOARD set_KEYBOARD]. now rewrite Z.bits_0.
Qed.

Lemma UpdateKeyboard_fields keys cpu :
  UpdateKeyboard keys cpu = set_KEYBOARD (KEYBOARD (UpdateKeyboard keys cpu)) cpu.
Proof.
  unfold UpdateKeyboard.
  assert (Hgen : forall k,
    fold_left
      (fun c v => set_KEYBOARD (Z.lor (KEYBOARD c) (u16 (Z.shiftl 1 (u8 (16 - 1 - v))))) c)
      keys (set_KEYBOARD k cpu)
    = set_KEYBOARD (KEYBOARD (fold_left
      (fun c v => set_KEYBOARD (Z.lor (KEYBOARD c) (u16 (Z.shiftl 1 (u8 (16 - 1 - v))))) c)
      keys (set_KEYBOARD k cpu))) cpu).
  { induction keys as [|v keys IH]; intros k; cbn [fold_left]; [reflexivity|].
    apply (IH (Z.lor k (u16 (Z.shiftl 1 (u8 (16 - 1 - v)))))). }
  apply Hgen.
Qed.

Lemma UpdateKeyboard_range keys cpu :
  bytes keys -> 0 <= KEYBOARD (UpdateKeyboard keys cpu) < 65536.
Proof.
  intros Hkeys.
  assert (Hnn : 0 <= KEYBOARD (UpdateKeyboard keys cpu)).
  { apply Z.bits_iff_nonneg_ex. exists 16. intros m Hm.
    rewrite UpdateKeyboard_bits by (assumption || lia).
    destruct (Z.ltb_spec m 16); [lia|reflexivity]. }
  split; [exact Hnn|].
  destruct (Z.eq_dec (KEYBOARD (UpdateKeyboard keys cpu)) 0) as [->|Hne]; [lia|].
  change 65536 with (2 ^ 16). apply Z.log2_lt_pow2; [lia|].
  destruct (Z.lt_ge_cases (Z.log2 (KEYBOARD (UpdateKeyboard keys cpu))) 16) as [|Hhigh];
    [assumption|].
  pose proof (Z.bit_log2 (KEYBOARD (UpdateKeyboard keys cpu)) ltac:(lia)) as Hbit.
  rewrite UpdateKeyboard_bits in Hbit by (assumption || lia).
  destruct (Z.ltb_spec (Z.log2 (KEYBOARD (UpdateKeyboard keys cpu))) 16); [lia|].
  discriminate Hbit.
Qed.

(** X1. What [UpdateKeyboard] is given is what [IsKeyPressed] answers: for
    a key from 0 to 15 and any list of key bytes, the key reads as pressed
    after the update exactly when it is in the list. *)
Theorem keyboard_round_trip keys cpu (k : Z) :
  bytes keys -> 0 <= k <= 15 ->
  (IsKeyPressed k (UpdateKeyboard keys cpu) = true <-> k ∈ keys).
Proof.
  intros Hkeys Hk. rewrite IsKeyPressed_latch by lia.
  unfold key_latch. rewrite UpdateKeyboard_bits by (assumption || lia).
  replace (15 - (15 - k)) with k by lia.
  destruct (Z.leb_spec k 15); [|lia]. destruct (Z.ltb_spec (15 - k) 16); [|lia].
  cbn [andb]. apply bool_decide_eq_true.
Qed.

Lemma keyboard_round_trip_witness :
  IsKeyPressed 0xF (UpdateKeyboard [3; 0xF; 3] zero) = true <-> 0xF ∈ [3; 0xF; 3].
Proof.
  apply (keyboard_round_trip [3; 0xF; 3] zero 0xF).
  - apply forallb_bytes. reflexivity.
  - lia.
Defined.

(** X2. [UpdateKeyboard] replaces the keyboard word wholesale and touches
    nothing else: the word it leaves fits 16 bits and depends neither on the
    word before, nor on the order or repetition of the keys, nor on key
    bytes above 15, only on which keys from 0 to 15 are in the list. *)
Theorem update_keyboard_wholesale keys keys' cpu cpu' :
  bytes keys -> bytes keys' ->
  (forall k, 0 <= k <= 15 -> (k ∈ keys <-> k ∈ keys')) ->
  KEYBOARD (UpdateKeyboard keys cpu) = KEYBOARD (UpdateKeyboard keys' cpu')
  /\ 0 <= KEYBOARD (UpdateKeyboard keys cpu) < 65536
  /\ UpdateKeyboard keys cpu = set_KEYBOARD (KEYBOARD (UpdateKeyboard keys cpu)) cpu.
Proof.
  intros Hkeys Hkeys' Hsame. split; [|split].
  - apply Z.bits_inj'. intros n Hn.
    rewrite !UpdateKeyboard_bits by assumption.
    destruct (Z.ltb_spec n 16); cbn [andb]; [|reflexivity].
    apply bool_decide_ext. apply Hsame. lia.
  - now apply UpdateKeyboard_range.
  - apply UpdateKeyboard_fields.
Qed.

Lemma update_keyboard_wholesale_witness :
  KEYBOARD (UpdateKeyboard [1; 200; 4; 1] (set_KEYBOARD 0xFFFF zero))
  = KEYBOARD (UpdateKeyboard [4; 1] zero)
  /\ 0 <= KEYBOARD (UpdateKeyboard [1; 200; 4; 1] (set_KEYBOARD 0xFFFF zero)) < 65536
  /\ UpdateKeyboard [1; 200; 4; 1] (set_KEYBOARD 0xFFFF zero)
     = set_KEYBOARD (KEYBOARD (UpdateKeyboard [1; 200; 4; 1] (set_KEYBOARD 0xFFFF zero)))
         (set_KEYBOARD 0xFFFF zero).
Proof.
  apply (update_keyboard_wholesale [1; 200; 4; 1] [4; 1] (set_KEYBOARD 0xFFFF zero) zero).
  - apply forallb_bytes. reflexivity.
  - apply forallb_bytes. reflexivity.
  - intros k Hk. rewrite !elem_of_cons, !elem_of_nil. lia.
Defined.

(** X3. On a well-formed machine [IsAnyKeyPressed] answers yes exactly
    when [IsKeyPressed] answers yes for one of the keys 0 to 15. *)
Theorem any_key_pressed cpu :
  wf cpu ->
  (IsAnyKeyPressed cpu = true <-> exists k, 0 <= k <= 15 /\ IsKeyPressed k cpu = true).
Proof.
  intros Hwf. pose proof (wf_KEYBOARD _ Hwf) as HK. unfold IsAnyKeyPressed.
  rewrite Z.ltb_lt. split.
  - intros Hany.
    assert (Hlog : Z.log2 (KEYBOARD cpu) < 16)
      by (apply Z.log2_lt_pow2; [lia | change (2 ^ 16) with 65536; lia]).
    pose proof (Z.log2_nonneg (KEYBOARD cpu)) as Hlog0.
    exists (15 - Z.log2 (KEYBOARD cpu)). split; [lia|].
    rewrite IsKeyPressed_latch by lia. unfold key_latch.
    replace (15 - (15 - Z.log2 (KEYBOARD cpu))) with (Z.log2 (KEYBOARD cpu)) by lia.
    rewrite Z.bit_log2 by lia.
    now destruct (Z.leb_spec (15 - Z.log2 (KEYBOARD cpu)) 15); [|lia].
  - intros (k & Hk & Hpressed).
    rewrite IsKeyPressed_latch in Hpressed by lia.
    apply andb_true_iff in Hpressed as [_ Hbit]. unfold key_latch in Hbit.
    destruct (Z.eq_dec (KEYBOARD cpu) 0) as [Hz|]; [|lia].
    rewrite Hz, Z.bits_0 in Hbit. discriminate Hbit.
Qed.

Lemma any_key_pressed_witness :
  IsAnyKeyPressed (UpdateKeyboard [0xF] zero) = true
  <-> exists k, 0 <= k <= 15 /\ IsKeyPressed k (UpdateKeyboard [0xF] zero) = true.
Proof. apply (any_key_pressed (UpdateKeyboard [0xF] zero)). apply wfb_wf. vm_compute. reflexivity. Defined.

Lemma filter_seqZ_sorted (f : Z -> bool) (n : nat) (m : Z) :
  StronglySorted Z.lt (List.filter f (seqZ m (Z.of_nat n))).
Proof.
  revert m. induction n as [|n IH]; intros m.
  - rewrite seqZ_nil by lia. constructor.
  - rewrite seqZ_cons by lia. cbn [List.filter].
    replace (Z.pred (Z.of_nat (S n))) with (Z.of_nat n) by lia.
    destruct (f m); [|apply IH]. constructor; [apply IH|].
    apply List.Forall_forall. intros k Hk. apply filter_In in Hk as [Hk _].
    apply list_elem_of_In, elem_of_seqZ in Hk. lia.
Qed.

Lemma pressed_after_update keys cpu (k : Z) :
  bytes keys -> 0 <= k <= 15 ->
  IsKeyPressed k (UpdateKeyboard keys cpu) = bool_decide (k ∈ keys).
Proof.
  intros Hkeys Hk. rewrite IsKeyPressed_latch by lia.
  unfold key_latch. rewrite UpdateKeyboard_bits by (assumption || lia).
  replace (15 - (15 - k)) with k by lia.
  destruct (Z.leb_spec k 15); [|lia]. now destruct (Z.ltb_spec (15 - k) 16); [|lia].
Qed.

(** X4. After [UpdateKeyboard], [PressedKeys] lists the keys of the update
    that are below 0xF, each once, in increasing order, whatever their order
    and repetition in the update; key 0xF is never listed. *)
Theorem pressed_keys_listing keys cpu :
  bytes keys ->
  (forall k, k ∈ PressedKeys (UpdateKeyboard keys cpu) <-> k ∈ keys /\ k < 15)
  /\ StronglySorted Z.lt (PressedKeys (UpdateKeyboard keys cpu)).
Proof.
  intros Hkeys. split.
  - intros k. unfold PressedKeys.
    rewrite list_elem_of_In, filter_In, <- list_elem_of_In, elem_of_seqZ. split.
    + intros [Hk Hpressed]. rewrite pressed_after_update in Hpressed by (assumption || lia).
      apply bool_decide_eq_true in Hpressed. split; [assumption|lia].
    + intros [Hin Hk].
      assert (0 <= k < 256) by exact (proj1 (Forall_forall _ _) Hkeys k Hin).
      split; [lia|]. rewrite pressed_after_update by (assumption || lia).
      now apply bool_decide_eq_true.
  - unfold PressedKeys. change 0xF with (Z.of_nat 15). apply filter_seqZ_sorted.
Qed.

Lemma pressed_keys_listing_witness :
  (forall k, k ∈ PressedKeys (UpdateKeyboard [0xF; 9; 2; 9] zero) <-> k ∈ [0xF; 9; 2; 9] /\ k < 15)
  /\ StronglySorted Z.lt (PressedKeys (UpdateKeyboard [0xF; 9; 2; 9] zero)).
Proof. apply (pressed_keys_listing [0xF; 9; 2; 9] zero). apply forallb_bytes. reflexivity. Defined.

Example pressed_keys_sorted : PressedKeys (UpdateKeyboard [0xF; 9; 2; 9] zero) = [2; 9].
Proof. vm_compute. reflexivity. Qed.

(** ** Timers *)

Lemma UpdateTimers_fields cpu :
  wf cpu ->
  UpdateTimers cpu = set_DT (Z.max 0 (DT cpu - 1)) (set_ST (Z.max 0 (ST cpu - 1)) cpu).
Proof.
  intros Hwf. pose proof (wf_DT _ Hwf) as HDT. pose proof (wf_ST _ Hwf) as HST.
  destruct cpu as [v i pc sp dt st stack fb ram kb]. cbn [DT ST] in HDT, HST.
  unfold UpdateTimers, set_DT, set_ST, u8. cbn [V I PC SP DT ST STACK FRAMEBUFFER RAM KEYBOARD].
  destruct (Z.ltb_spec 0 st);
    cbn [V I PC SP DT ST STACK FRAMEBUFFER RAM KEYBOARD];
    destruct (Z.ltb_spec 0 dt);
    cbn [V I PC SP DT ST STACK FRAMEBUFFER RAM KEYBOARD];
    rewrite ?Z.mod_small by lia; f_equal; lia.
Qed.

(** X5. [n] calls of [UpdateTimers] take each timer down by [n], stopping
    at zero, each timer on its own, and leave every other field of the
    machine as it was. *)
Theorem timers_after_ticks (n : nat) cpu :
  wf cpu ->
  ticks n cpu
  = set_DT (Z.max 0 (DT cpu - Z.of_nat n)) (set_ST (Z.max 0 (ST cpu - Z.of_nat n)) cpu).
Proof.
  revert cpu. induction n as [|n IH]; intros cpu Hwf.
  - pose proof (wf_DT _ Hwf). pose proof (wf_ST _ Hwf).
    cbn [ticks]. destruct cpu; cbn in *. unfold set_DT, set_ST; cbn. f_equal; lia.
  - pose proof (wf_DT _ Hwf). pose proof (wf_ST _ Hwf).
    cbn [ticks]. rewrite IH.
    + rewrite UpdateTimers_fields by exact Hwf. destruct cpu; cbn in *.
      unfold set_DT, set_ST; cbn. f_equal; lia.
    + rewrite UpdateTimers_fields by exact Hwf.
      apply wf_set_DT; [apply wf_set_ST; [exact Hwf|]|]; lia.
Qed.

Lemma timers_after_ticks_witness :
  ticks 7 (set_DT 5 (set_ST 9 zero))
  = set_DT (Z.max 0 (DT (set_DT 5 (set_ST 9 zero)) - Z.of_nat 7))
      (set_ST (Z.max 0 (ST (set_DT 5 (set_ST 9 zero)) - Z.of_nat 7)) (set_DT 5 (set_ST 9 zero))).
Proof.
  apply (timers_after_ticks 7 (set_DT 5 (set_ST 9 zero))).
  apply wfb_wf. vm_compute. reflexivity.
Defined.

(** ** Stack *)

Lemma StackPush_inside v cpu :
  0 <= SP cpu < 16 -> length (STACK cpu) = 16%nat ->
  StackPush v cpu = Done tt (set_SP (SP cpu + 1) (set_STACK (upd (STACK cpu) (SP cpu) v) cpu)).
Proof.
  intros HSP Hlen. unfold StackPush. rewrite Hlen.
  destruct (Z.ltb_spec (SP cpu) (Z.of_nat 16)); [|lia].
  unfold u8. now rewrite Z.mod_small by lia.
Qed.

Lemma StackPush_outside v cpu :
  16 <= SP cpu -> length (STACK cpu) = 16%nat ->
  StackPush v cpu = Panic IndexOutOfRange cpu.
Proof.
  intros HSP Hlen. unfold StackPush. rewrite Hlen.
  now destruct (Z.ltb_spec (SP cpu) (Z.of_nat 16)); [lia|].
Qed.

Lemma StackPop_inside cpu :
  1 <= SP cpu <= 16 -> length (STACK cpu) = 16%nat ->
  StackPop cpu = Done (at_ (STACK cpu) (SP cpu - 1)) (set_SP (SP cpu - 1) cpu).
Proof.
  intros HSP Hlen. unfold StackPop. cbn [STACK SP set_SP].
  unfold u8. rewrite Z.mod_small by lia.
  destruct (lookup_lt_is_Some_2 (STACK cpu) (Z.to_nat (SP cpu - 1))) as [pc Hpc]; [lia|].
  rewrite Hpc. unfold at_. now rewrite (list_lookup_total_correct _ _ _ Hpc).
Qed.

Lemma push_all_writes vs cpu :
  length (STACK cpu) = 16%nat -> 0 <= SP cpu ->
  SP cpu + Z.of_nat (length vs) <= 16 ->
  exists st,
    push_all vs cpu = Done tt (set_SP (SP cpu + Z.of_nat (length vs)) (set_STACK st cpu))
    /\ length st = 16%nat
    /\ (forall i, 0 <= i < SP cpu -> at_ st i = at_ (STACK cpu) i)
    /\ (forall j, (j < length vs)%nat -> at_ st (SP cpu + Z.of_nat j) = vs !!! j).
Proof.
  revert cpu. induction vs as [|v vs IH]; intros cpu Hlen HSP Hroom.
  - exists (STACK cpu). cbn [push_all length]. repeat split; try (assumption || reflexivity).
    + unfold ret. f_equal. destruct cpu; cbn. unfold set_SP, set_STACK; cbn. f_equal. lia.
    + intros j Hj. cbn in Hj. lia.
  - cbn [length] in Hroom. cbn [push_all]. unfold bind at 1.
    rewrite StackPush_inside by (assumption || lia).
    destruct (IH (set_SP (SP cpu + 1) (set_STACK (upd (STACK cpu) (SP cpu) v) cpu)))
      as (st & Hrun & Hst & Hbelow & Hnew);
      cbn [SP STACK set_SP set_STACK]; rewrite ?length_upd; try (assumption || lia).
    cbn [SP STACK set_SP set_STACK] in Hrun, Hbelow, Hnew.
    exists st. rewrite Hrun. repeat split.
    + f_equal. destruct cpu; unfold set_SP, set_STACK; cbn. f_equal. cbn [length]. lia.
    + exact Hst.
    + intros i Hi. rewrite Hbelow by lia. apply at_upd_ne; lia.
    + intros [|j] Hj.
      * rewrite Z.add_0_r, Hbelow by lia. cbn. apply at_upd_eq. lia.
      * cbn [length] in Hj. replace (SP cpu + Z.of_nat (S j)) with (SP cpu + 1 + Z.of_nat j) by lia.
        rewrite Hnew by lia. reflexivity.
Qed.

Lemma pop_n_rev vs c (base : Z) :
  length (STACK c) = 16%nat -> 0 <= base ->
  SP c = base + Z.of_nat (length vs) -> SP c <= 16 ->
  (forall j, (j < length vs)%nat -> at_ (STACK c) (base + Z.of_nat j) = vs !!! j) ->
  pop_n (length vs) c = Done (rev vs) (set_SP base c).
Proof.
  revert c. induction vs as [|v vs IH] using rev_ind; intros c Hlen Hbase HSP Hmax Hslots.
  - cbn [length pop_n rev]. unfold ret. f_equal. cbn in HSP.
    destruct c; unfold set_SP; cbn in *. f_equal. lia.
  - rewrite length_app in *. cbn [length] in *. rewrite Nat.add_1_r in *.
    cbn [pop_n]. unfold bind at 1. rewrite StackPop_inside by (assumption || lia).
    unfold bind at 1.
    rewrite (IH (set_SP (SP c - 1) c)); cbn [SP STACK set_SP]; try (assumption || lia).
    + unfold ret. rewrite rev_app_distr. cbn [rev app].
      do 2 f_equal. replace (SP c - 1) with (base + Z.of_nat (length vs)) by lia.
      rewrite Hslots by lia. rewrite lookup_total_app_r by lia.
      now rewrite Nat.sub_diag.
    + intros j Hj. rewrite Hslots by lia. apply lookup_total_app_l. lia.
Qed.

(** X6. The stack is last in, first out: pushing the values of a list that
    fits under the 16 slots returns, raises the stack pointer by their
    number, leaves the slots below and every other field alone, and as many
    pops then return the values in reverse order and put the stack pointer
    back. *)
Theorem stack_lifo vs cpu :
  wf cpu ->
  SP cpu + Z.of_nat (length vs) <= 16 ->
  exists cpu1,
    push_all vs cpu = Done tt cpu1
    /\ SP cpu1 = SP cpu + Z.of_nat (length vs)
    /\ (forall i, 0 <= i < SP cpu -> at_ (STACK cpu1) i = at_ (STACK cpu) i)
    /\ cpu1 = set_SP (SP cpu1) (set_STACK (STACK cpu1) cpu)
    /\ pop_n (length vs) cpu1 = Done (rev vs) (set_SP (SP cpu) cpu1).
Proof.
  intros Hwf Hroom. pose proof (wf_SP _ Hwf) as HSP. pose proof (wf_STACK_len _ Hwf) as Hlen.
  destruct (push_all_writes vs cpu) as (st & Hrun & Hst & Hbelow & Hnew); try (assumption || lia).
  eexists. split; [exact Hrun|]. cbn [SP STACK set_SP set_STACK].
  split; [reflexivity|]. split; [exact Hbelow|]. split; [reflexivity|].
  apply pop_n_rev; cbn [SP STACK set_SP set_STACK]; try (assumption || lia).
Qed.

Lemma stack_lifo_witness :
  exists cpu1,
    push_all [0x202; 0x300; 0x404] zero = Done tt cpu1
    /\ SP cpu1 = SP zero + Z.of_nat (length [0x202; 0x300; 0x404])
    /\ (forall i, 0 <= i < SP zero -> at_ (STACK cpu1) i = at_ (STACK zero) i)
    /\ cpu1 = set_SP (SP cpu1) (set_STACK (STACK cpu1) zero)
    /\ pop_n (length [0x202; 0x300; 0x404]) cpu1
       = Done (rev [0x202; 0x300; 0x404]) (set_SP (SP zero) cpu1).
Proof. apply (stack_lifo [0x202; 0x300; 0x404] zero wf_zero). cbn. lia. Defined.

(** Pushing more values than fit panics when the sixteenth slot is taken,
    the values that fitted having been pushed. *)
Lemma push_all_overflows vs cpu :
  length (STACK cpu) = 16%nat -> 0 <= SP cpu <= 16 ->
  16 < SP cpu + Z.of_nat (length vs) ->
  exists cpu', push_all vs cpu = Panic IndexOutOfRange cpu' /\ SP cpu' = 16.
Proof.
  revert cpu. induction vs as [|v vs IH]; intros cpu Hlen HSP Hover.
  - cbn in Hover. lia.
  - cbn [length] in Hover. cbn [push_all]. unfold bind at 1.
    destruct (Z.eq_dec (SP cpu) 16) as [Hfull|Hroom].
    + rewrite StackPush_outside by (assumption || lia). now exists cpu.
    + rewrite StackPush_inside by (assumption || lia).
      apply IH; cbn [SP STACK set_SP set_STACK]; rewrite ?length_upd; (assumption || lia).
Qed.

(** ** Fetch and program loading *)

Lemma word_of_bytes b1 b2 :
  0 <= b1 < 256 -> 0 <= b2 < 256 ->
  Z.lor (u16 (Z.shiftl b1 8)) b2 = 256 * b1 + b2.
Proof.
  intros H1 H2. rewrite Z.shiftl_mul_pow2 by lia. change (2 ^ 8) with 256.
  unfold u16. rewrite Z.mod_small by lia.
  rewrite <- Z.add_nocarry_lor; [lia|].
  apply Z.bits_inj'. intros n Hn. rewrite Z.land_spec, Z.bits_0.
  destruct (Z.lt_ge_cases n 8).
  - change 256 with (2 ^ 8). rewrite Z.mul_pow2_bits_low by lia. reflexivity.
  - pose proof (proj1 (log2_byte b2 ltac:(lia)) ltac:(lia)) as Hlog.
    rewrite (Z.bits_above_log2 b2) by lia. apply andb_false_r.
Qed.

Lemma ram_load_inside addr cpu :
  0 <= addr < Z.of_nat (length (RAM cpu)) ->
  ram_load addr cpu = Done (at_ (RAM cpu) addr) cpu.
Proof.
  intros Ha. unfold ram_load.
  destruct (lookup_lt_is_Some_2 (RAM cpu) (Z.to_nat addr)) as [b Hb]; [lia|].
  rewrite Hb. unfold at_. now rewrite (list_lookup_total_correct _ _ _ Hb).
Qed.

Lemma ram_load_outside addr cpu :
  Z.of_nat (length (RAM cpu)) <= addr -> ram_load addr cpu = Panic IndexOutOfRange cpu.
Proof.
  intros Ha. unfold ram_load. now rewrite lookup_ge_None_2 by lia.
Qed.

Lemma at_byte_RAM cpu a : wf cpu -> 0 <= a < 4096 -> 0 <= at_ (RAM cpu) a < 256.
Proof. intros Hwf Ha. apply at_bytes; [apply Hwf|]. rewrite (wf_RAM_len _ Hwf). lia. Qed.

Lemma fetch_in_range cpu :
  wf cpu ->
  (0x200 <= PC cpu <= 4094 ->
   Fetch cpu = Done (256 * at_ (RAM cpu) (PC cpu) + at_ (RAM cpu) (PC cpu + 1))
                    (set_PC (PC cpu + 2) cpu))
  /\ (4095 <= PC cpu -> Fetch cpu = Panic IndexOutOfRange cpu).
Proof.
  intros Hwf. pose proof (wf_PC _ Hwf) as HPC. pose proof (wf_RAM_len _ Hwf) as Hlen.
  unfold Fetch, CHIP8_PROGRAM_START. split.
  - intros Hin. destruct (Z.ltb_spec (PC cpu) 0x200); [lia|].
    unfold bind, assign, ret.
    replace (u16 (PC cpu + 1)) with (PC cpu + 1) by (unfold u16; rewrite Z.mod_small; lia).
    replace (u16 (PC cpu + 2)) with (PC cpu + 2) by (unfold u16; rewrite Z.mod_small; lia).
    rewrite !ram_load_inside by lia.
    rewrite word_of_bytes by (apply at_byte_RAM; (assumption || lia)). reflexivity.
  - intros Hhigh. destruct (Z.ltb_spec (PC cpu) 0x200); [lia|]. unfold bind.
    destruct (Z.eq_dec (PC cpu) 4095) as [Hlast|Hne].
    + rewrite ram_load_inside by lia.
      rewrite ram_load_outside; [reflexivity|]. rewrite Hlast, Hlen. vm_compute. discriminate.
    + now rewrite ram_load_outside by lia.
Qed.

(** X7. [Fetch] returns exactly for a program counter from 0x200 to 4094:
    it then returns the two bytes at PC and PC+1 as a big-endian word and
    moves the program counter on by 2, touching nothing else.  Below 0x200
    it panics on the corrupted program counter, from 4095 on on the memory
    index, the machine unchanged in both cases. *)
Theorem fetch_outcomes cpu :
  wf cpu ->
  (PC cpu < 0x200 -> Fetch cpu = Panic CorruptedProgramCounter cpu)
  /\ (0x200 <= PC cpu <= 4094 ->
      Fetch cpu = Done (256 * at_ (RAM cpu) (PC cpu) + at_ (RAM cpu) (PC cpu + 1))
                       (set_PC (PC cpu + 2) cpu))
  /\ (4095 <= PC cpu -> Fetch cpu = Panic IndexOutOfRange cpu).
Proof.
  intros Hwf. split; [|apply fetch_in_range, Hwf].
  intros Hlow. unfold Fetch, CHIP8_PROGRAM_START.
  now destruct (Z.ltb_spec (PC cpu) 0x200); [|lia].
Qed.

Lemma fetch_outcomes_witness :
  Fetch (set_PC 0x1FE zero) = Panic CorruptedProgramCounter (set_PC 0x1FE zero)
  /\ Fetch (set_PC 0x200 zero)
     = Done (256 * at_ (RAM (set_PC 0x200 zero)) (PC (set_PC 0x200 zero))
             + at_ (RAM (set_PC 0x200 zero)) (PC (set_PC 0x200 zero) + 1))
            (set_PC (PC (set_PC 0x200 zero) + 2) (set_PC 0x200 zero))
  /\ Fetch (set_PC 0xFFF zero) = Panic IndexOutOfRange (set_PC 0xFFF zero).
Proof.
  split; [|split].
  - destruct (fetch_outcomes (set_PC 0x1FE zero)) as (Hlow & _ & _);
      [apply wfb_wf; vm_compute; reflexivity|].
    apply Hlow. cbn. lia.
  - destruct (fetch_outcomes (set_PC 0x200 zero)) as (_ & Hin & _);
      [apply wfb_wf; vm_compute; reflexivity|].
    apply Hin. cbn. lia.
  - destruct (fetch_outcomes (set_PC 0xFFF zero)) as (_ & _ & Hhigh);
      [apply wfb_wf; vm_compute; reflexivity|].
    apply Hhigh. cbn. lia.
Defined.

Section copying.
Context {A : Type} `{Inhabited A}.
Implicit Types (a dst src : list A).

Lemma at_copy_prefix a lo dst src j :
  0 <= lo -> lo <= j -> j - lo < Z.of_nat (length dst) -> j - lo < Z.of_nat (length src) ->
  j < Z.of_nat (length a) ->
  at_ (copy a lo dst src) j = at_ src (j - lo).
Proof.
  intros Hlo Hj Hdst Hsrc Ha. unfold at_, copy.
  rewrite list_lookup_total_inserts by (rewrite ?length_take; lia).
  rewrite lookup_total_take_lt by lia. f_equal. lia.
Qed.

Lemma at_copy_beyond a lo dst src j :
  0 <= lo -> 0 <= j ->
  j < lo \/ lo + Z.of_nat (length src) <= j \/ lo + Z.of_nat (length dst) <= j ->
  at_ (copy a lo dst src) j = at_ a j.
Proof.
  intros Hlo Hj Hout. unfold at_, copy.
  destruct (Z.lt_ge_cases j lo).
  - apply list_lookup_total_inserts_lt. lia.
  - apply list_lookup_total_inserts_ge. rewrite length_take. lia.
Qed.
End copying.

Lemma LoadRom_inside rom location cpu :
  length (RAM cpu) = 4096%nat -> 0 <= location <= 4096 ->
  LoadRom rom location cpu
  = Done tt (set_RAM (copy (RAM cpu) location
                        (take (Z.to_nat (4096 - location)) (drop (Z.to_nat location) (RAM cpu)))
                        rom) cpu).
Proof.
  intros Hlen Hloc.
  unfold LoadRom. rewrite slice_inside by lia. rewrite Hlen.
  reflexivity.
Qed.

(** X8. [LoadRom] at a location up to 4096 returns: it writes the rom bytes
    that fit before the end of memory from the location on, drops the rest
    without a fault, and leaves the other bytes of memory, the size of the
    memory and every other field as they were.  At a location above 4096 it
    panics on the slice bounds. *)
Theorem load_rom_effect rom location cpu :
  wf cpu -> 0 <= location ->
  (location <= 4096 ->
   exists cpu',
     LoadRom rom location cpu = Done tt cpu'
     /\ cpu' = set_RAM (RAM cpu') cpu
     /\ length (RAM cpu') = 4096%nat
     /\ (forall i, 0 <= i < Z.of_nat (length rom) -> location + i < 4096 ->
           at_ (RAM cpu') (location + i) = at_ rom i)
     /\ (forall a, 0 <= a -> a < location \/ location + Z.of_nat (length rom) <= a ->
           at_ (RAM cpu') a = at_ (RAM cpu) a))
  /\ (4096 < location -> LoadRom rom location cpu = Panic SliceBoundsOutOfRange cpu).
Proof.
  intros Hwf Hloc. pose proof (wf_RAM_len _ Hwf) as Hlen. split.
  - intros Hin. eexists. split; [apply LoadRom_inside; (assumption || lia)|].
    cbn [RAM set_RAM].
    assert (Hdst : length (take (Z.to_nat (4096 - location))
                             (drop (Z.to_nat location) (RAM cpu)))
                   = Z.to_nat (4096 - location)) by (apply length_window; lia).
    split; [reflexivity|]. split; [now rewrite length_copy|]. split.
    + intros i Hi Hfit. rewrite at_copy_prefix by (rewrite ?Hdst; lia).
      f_equal. lia.
    + intros a Ha Hout. apply at_copy_beyond; lia.
  - intros Hout. unfold LoadRom. rewrite slice_outside; [reflexivity|]. lia.
Qed.

Lemma load_rom_effect_witness :
  (exists cpu',
     LoadRom [0x12; 0x34; 0x56] 0xFFE zero = Done tt cpu'
     /\ cpu' = set_RAM (RAM cpu') zero
     /\ length (RAM cpu') = 4096%nat
     /\ (forall i, 0 <= i < Z.of_nat (length [0x12; 0x34; 0x56]) -> 0xFFE + i < 4096 ->
           at_ (RAM cpu') (0xFFE + i) = at_ [0x12; 0x34; 0x56] i)
     /\ (forall a, 0 <= a -> a < 0xFFE \/ 0xFFE + Z.of_nat (length [0x12; 0x34; 0x56]) <= a ->
           at_ (RAM cpu') a = at_ (RAM zero) a))
  /\ LoadRom [0x12] 0x1001 zero = Panic SliceBoundsOutOfRange zero.
Proof.
  split.
  - destruct (load_rom_effect [0x12; 0x34; 0x56] 0xFFE zero wf_zero) as (Hin & _); [lia|].
    apply Hin. lia.
  - destruct (load_rom_effect [0x12] 0x1001 zero wf_zero) as (_ & Hout); [lia|].
    apply Hout. lia.
Defined.

Lemma LoadRom_memory rom location cpu :
  length (RAM cpu) = 4096%nat -> 0 <= location <= 4096 ->
  exists ram,
    LoadRom rom location cpu = Done tt (set_RAM ram cpu)
    /\ length ram = 4096%nat
    /\ (bytes (RAM cpu) -> bytes rom -> bytes ram)
    /\ (forall i, 0 <= i < Z.of_nat (length rom) -> location + i < 4096 ->
          at_ ram (location + i) = at_ rom i)
    /\ (forall a, 0 <= a -> a < location \/ location + Z.of_nat (length rom) <= a ->
          at_ ram a = at_ (RAM cpu) a).
Proof.
  intros Hlen Hloc. eexists. split; [apply LoadRom_inside; (assumption || lia)|].
  assert (Hdst : length (take (Z.to_nat (4096 - location))
                           (drop (Z.to_nat location) (RAM cpu)))
                 = Z.to_nat (4096 - location)) by (apply length_window; lia).
  split; [now rewrite length_copy|]. split; [apply bytes_copy|]. split.
  - intros i Hi Hfit. rewrite at_copy_prefix by (rewrite ?Hdst; lia). f_equal. lia.
  - intros a Ha Hout. apply at_copy_beyond; lia.
Qed.

Lemma Initialize_memory digits rom cpu :
  length (RAM cpu) = 4096%nat ->
  exists ram,
    Initialize digits rom cpu = Done tt (set_PC 0x200 (set_RAM ram cpu))
    /\ length ram = 4096%nat
    /\ (bytes (RAM cpu) -> bytes digits -> bytes rom -> bytes ram)
    /\ (forall i, 0 <= i < Z.of_nat (length rom) -> 0x200 + i < 4096 ->
          at_ ram (0x200 + i) = at_ rom i)
    /\ (forall i, 0 <= i < Z.of_nat (length digits) -> i < 0x200 ->
          at_ ram i = at_ digits i)
    /\ (forall a, 0 <= a ->
          Z.of_nat (length digits) <= a < 0x200
          \/ 0x200 + Z.of_nat (length rom) <= a /\ Z.of_nat (length digits) <= a ->
          at_ ram a = at_ (RAM cpu) a).
Proof.
  intros Hlen.
  destruct (LoadRom_memory digits 0 cpu) as (ram0 & Hrun0 & Hlen0 & Hb0 & Hin0 & Hout0);
    [assumption | lia |].
  destruct (LoadRom_memory rom 0x200 (set_RAM ram0 cpu))
    as (ram1 & Hrun1 & Hlen1 & Hb1 & Hin1 & Hout1); [exact Hlen0 | lia |].
  cbn [RAM set_RAM] in Hb1, Hout1.
  exists ram1. unfold Initialize, bind, assign, CHIP8_PROGRAM_START.
  rewrite Hrun0, Hrun1. split; [reflexivity|]. split; [exact Hlen1|].
  split; [auto|]. split; [exact Hin1|]. split.
  - intros i Hi Hlow. rewrite Hout1 by lia. apply (Hin0 i); lia.
  - intros a Ha Hout. rewrite Hout1 by lia. apply Hout0; lia.
Qed.

(** X9. [Initialize] returns on every well-formed machine: it sets the
    program counter to 0x200 and changes nothing else but memory, where the
    rom bytes that fit lie from 0x200 on, the digit bytes lie from 0 up to
    0x200 (the rom goes over digit bytes beyond), and the bytes neither
    covers are as before; registers, stack, timers, display and keyboard are
    not reset.  With byte contents the machine stays well-formed. *)
Theorem initialize_effect digits rom cpu :
  wf cpu ->
  exists cpu',
    Initialize digits rom cpu = Done tt cpu'
    /\ cpu' = set_PC 0x200 (set_RAM (RAM cpu') cpu)
    /\ (bytes digits -> bytes rom -> wf cpu')
    /\ (forall i, 0 <= i < Z.of_nat (length rom) -> 0x200 + i < 4096 ->
          at_ (RAM cpu') (0x200 + i) = at_ rom i)
    /\ (forall i, 0 <= i < Z.of_nat (length digits) -> i < 0x200 ->
          at_ (RAM cpu') i = at_ digits i)
    /\ (forall a, 0 <= a ->
          Z.of_nat (length digits) <= a < 0x200
          \/ 0x200 + Z.of_nat (length rom) <= a /\ Z.of_nat (length digits) <= a ->
          at_ (RAM cpu') a = at_ (RAM cpu) a).
Proof.
  intros Hwf.
  destruct (Initialize_memory digits rom cpu (wf_RAM_len _ Hwf))
    as (ram & Hrun & Hlen & Hbytes & Hrom & Hdigits & Hrest).
  eexists. split; [exact Hrun|]. cbn [RAM set_PC set_RAM].
  split; [reflexivity|]. split; [|now repeat split].
  intros Hd Hr. apply wf_set_PC; [|lia].
  apply wf_set_RAM; [exact Hwf | exact Hlen |]. apply Hbytes; (assumption || apply Hwf).
Qed.

Lemma initialize_effect_witness :
  exists cpu',
    Initialize [0xF0; 0x90] [0x12; 0x00] zero = Done tt cpu'
    /\ cpu' = set_PC 0x200 (set_RAM (RAM cpu') zero)
    /\ (bytes [0xF0; 0x90] -> bytes [0x12; 0x00] -> wf cpu')
    /\ (forall i, 0 <= i < Z.of_nat (length [0x12; 0x00]) -> 0x200 + i < 4096 ->
          at_ (RAM cpu') (0x200 + i) = at_ [0x12; 0x00] i)
    /\ (forall i, 0 <= i < Z.of_nat (length [0xF0; 0x90]) -> i < 0x200 ->
          at_ (RAM cpu') i = at_ [0xF0; 0x90] i)
    /\ (forall a, 0 <= a ->
          Z.of_nat (length [0xF0; 0x90]) <= a < 0x200
          \/ 0x200 + Z.of_nat (length [0x12; 0x00]) <= a /\ Z.of_nat (length [0xF0; 0x90]) <= a ->
          at_ (RAM cpu') a = at_ (RAM zero) a).
Proof. apply (initialize_effect [0xF0; 0x90] [0x12; 0x00] zero wf_zero). Defined.

(** What [Initialize] loads is what [Fetch] reads: with the program
    counter at an even offset 2k into the rom, [Fetch] returns rom bytes 2k
    and 2k+1 as one big-endian word. *)
Theorem fetch_after_initialize digits rom cpu (k : Z) :
  wf cpu -> bytes digits -> bytes rom ->
  0 <= k -> 2 * k + 1 < Z.of_nat (length rom) -> 0x200 + 2 * k + 1 < 4096 ->
  exists cpu',
    Initialize digits rom cpu = Done tt cpu'
    /\ Fetch (set_PC (0x200 + 2 * k) cpu')
       = Done (256 * at_ rom (2 * k) + at_ rom (2 * k + 1))
              (set_PC (0x200 + 2 * k + 2) cpu').
Proof.
  intros Hwf Hd Hr Hk Hlen Hfit.
  destruct (Initialize_memory digits rom cpu (wf_RAM_len _ Hwf))
    as (ram & Hrun & Hlenr & Hbytes & Hrom & _ & _).
  eexists. split; [exact Hrun|].
  assert (Hwf' : wf (set_PC (0x200 + 2 * k) (set_PC 0x200 (set_RAM ram cpu)))).
  { apply wf_set_PC; [|lia]. apply wf_set_PC; [|lia].
    apply wf_set_RAM; [exact Hwf | exact Hlenr |]. apply Hbytes; (assumption || apply Hwf). }
  destruct (fetch_in_range _ Hwf') as [Hfetch _].
  rewrite Hfetch by (cbn [PC set_PC]; lia). cbn [PC RAM set_PC set_RAM].
  rewrite (Hrom (2 * k)) by lia.
  replace (0x200 + 2 * k + 1) with (0x200 + (2 * k + 1)) by lia.
  rewrite (Hrom (2 * k + 1)) by lia. reflexivity.
Qed.

Lemma fetch_after_initialize_witness :
  exists cpu',
    Initialize [] [0x00; 0xE0; 0x12; 0x00] zero = Done tt cpu'
    /\ Fetch (set_PC (0x200 + 2 * 1) cpu')
       = Done (256 * at_ [0x00; 0xE0; 0x12; 0x00] (2 * 1) + at_ [0x00; 0xE0; 0x12; 0x00] (2 * 1 + 1))
              (set_PC (0x200 + 2 * 1 + 2) cpu').
Proof.
  apply (fetch_after_initialize [] [0x00; 0xE0; 0x12; 0x00] zero 1 wf_zero).
  - constructor.
  - apply forallb_bytes. reflexivity.
  - lia.
  - cbn. lia.
  - lia.
Defined.

(** ** What an instruction can change *)

(** Split the dispatch chain of the goal into its arms, keeping the
    comparison that selected the arm. *)
Ltac arms :=
  unfold DecodeExecute;
  repeat match goal with
  | |- context [if Z.eqb ?a ?b then _ else _] => destruct (Z.eqb_spec a b) as [?|_]
  end;
  autounfold with ops; cbn beta zeta.

Ltac same_field :=
  first [ reflexivity | apply touches_DrawSprite
        | (intros Hne; exfalso; apply Hne; first [reflexivity | apply touches_DrawSprite]) ].

Lemma land_class ins m c m' :
  Z.land ins m = c -> Z.land m m' = m' -> Z.land ins m' = Z.land c m'.
Proof. intros <- Hm. now rewrite <- Z.land_assoc, Hm. Qed.

Ltac pick_class :=
  intros _;
  try match goal with
  | H : Z.land ?ins 0xF00F = _ |- context [Z.land ?ins 0xF000 = 0x8000] =>
      apply (land_class _ _ _ 0xF000) in H; [|reflexivity]
  end;
  solve [ repeat first [ assumption | reflexivity | left; assumption | left; reflexivity | right ] ].

(** X10. Whatever the outcome of executing an instruction word, it leaves
    the keyboard word alone, and each other field of the machine is changed
    by the words of its own instructions only: the delay timer by Fx15, the
    sound timer by Fx18, I by Annn, Fx1E and Fx29, memory by Fx33 and Fx55,
    the display by 00E0 and Dxyn, the stack array by 2nnn, the stack pointer
    by 00EE and 2nnn, the program counter by the return, the jumps, the call
    and the skips, the registers by 6xkk, 7xkk, the 8xy family, Cxkk, Dxyn,
    Fx07, Fx0A and Fx65. *)
Theorem decode_frame rnd ins cpu :
  let cpu' := machine (DecodeExecute rnd ins cpu) in
  KEYBOARD cpu' = KEYBOARD cpu
  /\ (DT cpu' <> DT cpu -> Z.land ins 0xF0FF = 0xF015)
  /\ (ST cpu' <> ST cpu -> Z.land ins 0xF0FF = 0xF018)
  /\ (I cpu' <> I cpu ->
      Z.land ins 0xF000 = 0xA000 \/ Z.land ins 0xF0FF = 0xF01E \/ Z.land ins 0xF0FF = 0xF029)
  /\ (RAM cpu' <> RAM cpu -> Z.land ins 0xF0FF = 0xF033 \/ Z.land ins 0xF0FF = 0xF055)
  /\ (FRAMEBUFFER cpu' <> FRAMEBUFFER cpu -> ins = 0x00E0 \/ Z.land ins 0xF000 = 0xD000)
  /\ (STACK cpu' <> STACK cpu -> Z.land ins 0xF000 = 0x2000)
  /\ (SP cpu' <> SP cpu -> ins = 0x00EE \/ Z.land ins 0xF000 = 0x2000)
  /\ (PC cpu' <> PC cpu ->
      ins = 0x00EE \/ Z.land ins 0xF000 = 0x1000 \/ Z.land ins 0xF000 = 0x2000
      \/ Z.land ins 0xF000 = 0x3000 \/ Z.land ins 0xF000 = 0x4000
      \/ Z.land ins 0xF00F = 0x5000 \/ Z.land ins 0xF00F = 0x9000
      \/ Z.land ins 0xF000 = 0xB000
      \/ Z.land ins 0xF0FF = 0xE09E \/ Z.land ins 0xF0FF = 0xE0A1)
  /\ (V cpu' <> V cpu ->
      Z.land ins 0xF000 = 0x6000 \/ Z.land ins 0xF000 = 0x7000
      \/ Z.land ins 0xF000 = 0x8000 \/ Z.land ins 0xF000 = 0xC000
      \/ Z.land ins 0xF000 = 0xD000
      \/ Z.land ins 0xF0FF = 0xF007 \/ Z.land ins 0xF0FF = 0xF00A
      \/ Z.land ins 0xF0FF = 0xF065).
Proof.
  intros cpu'. subst cpu'. arms.
  all: repeat case_match; simplify_eq; cbn [machine].
  all: repeat split.
  all: try same_field.
  all: pick_class.
Qed.

Ltac same_register Hne :=
  exfalso; apply Hne;
  first [ reflexivity
        | (rewrite ?at_upd_ne by lia; reflexivity)
        | (apply touches_DrawSprite; lia) ].

(** X11. Whatever the outcome of executing an instruction word, a register
    other than the word's x operand is changed in two ways only: as the flag
    register 0xF, by a draw or by an arithmetic instruction with a flag
    (8xy4, 8xy5, 8xy6, 8xy7, 8xyE), or as one of the registers below x, by
    the load Fx65. *)
Theorem register_frame rnd ins cpu (r : Z) :
  wf cpu -> 0 <= r < 16 -> r <> X ins ->
  at_ (V (machine (DecodeExecute rnd ins cpu))) r <> at_ (V cpu) r ->
  (r = 0xF
   /\ (Z.land ins 0xF000 = 0xD000
       \/ Z.land ins 0xF00F = 0x8004 \/ Z.land ins 0xF00F = 0x8005
       \/ Z.land ins 0xF00F = 0x8006 \/ Z.land ins 0xF00F = 0x8007
       \/ Z.land ins 0xF00F = 0x800E))
  \/ (Z.land ins 0xF0FF = 0xF065 /\ r < X ins).
Proof.
  intros Hwf Hr Hx.
  pose proof (X_nibble ins) as HX.
  destruct (Z.eq_dec (Z.land ins 0xF0FF) 0xF065) as [H65|H65].
  - intros Hne. right. split; [exact H65|].
    destruct (Z.lt_ge_cases r (X ins)) as [Hlt|Hge]; [exact Hlt|].
    exfalso. apply Hne.
    destruct (registers_load rnd ins cpu Hwf H65) as [Hin Hout].
    destruct (Z.le_gt_cases (I cpu + X ins + 1) 4096) as [Hfit|Hover].
    + destruct (Hin Hfit) as (cpu' & -> & _ & Hrest). cbn [machine].
      apply Hrest. lia.
    + now rewrite (Hout Hover).
  - unfold X in Hx, HX, H65. revert H65. arms.
    all: repeat case_match; simplify_eq;
      cbn [machine V set_V set_I set_PC set_SP set_DT set_ST set_STACK
           set_FRAMEBUFFER set_RAM].
    all: intros H65 Hne.
    all: try (same_register Hne).
    all: try (exfalso; apply H65; assumption).
    all: destruct (Z.eq_dec r 0xF) as [->|HF]; [|same_register Hne].
    all: left; split; [reflexivity|].
    all: solve [ repeat first [ assumption | left; assumption | right ] ].
Qed.

Lemma register_frame_witness :
  (0xF = 0xF
   /\ (Z.land 0x8014 0xF000 = 0xD000
       \/ Z.land 0x8014 0xF00F = 0x8004 \/ Z.land 0x8014 0xF00F = 0x8005
       \/ Z.land 0x8014 0xF00F = 0x8006 \/ Z.land 0x8014 0xF00F = 0x8007
       \/ Z.land 0x8014 0xF00F = 0x800E))
  \/ (Z.land 0x8014 0xF0FF = 0xF065 /\ 0xF < X 0x8014).
Proof.
  apply (register_frame 0 0x8014 (set_V (upd (upd (V zero) 0 0xFF) 1 1) zero) 0xF).
  - apply wfb_wf. vm_compute. reflexivity.
  - lia.
  - vm_compute. discriminate.
  - vm_compute. discriminate.
Defined.

(** ** The machine stays within its types *)

Lemma DecodeExecute_wf_any rnd ins cpu :
  wf cpu -> wf (machine (DecodeExecute rnd ins cpu)).
Proof.
  intros Hwf. destruct (DecodeExecute rnd ins cpu) as [[] cpu'|e cpu'|cpu'] eqn:Hrun;
    cbn [machine].
  - exact (DecodeExecute_wf _ _ _ _ Hwf Hrun).
  - by_arm Hrun.
    all: repeat first
      [ exact Hwf | apply wf_set_SP | apply wf_set_RAM ].
    all: cbn [RAM set_RAM]; rewrite ?length_upd.
    all: repeat first
      [ apply Hwf | apply u8_range | apply div_byte | apply mod10_byte
      | apply bytes_upd | apply at_byte_V; exact Hwf | lia ].
  - by_arm Hrun. exact Hwf.
Qed.

Lemma Fetch_wf_any cpu : wf cpu -> wf (machine (Fetch cpu)).
Proof.
  intros Hwf. unfold Fetch, bind, ram_load, assign, ret.
  repeat case_match; simplify_eq; cbn [machine]; try exact Hwf.
  apply wf_set_PC; [exact Hwf | apply u16_range].
Qed.

Lemma Step_wf_any rnd cpu : wf cpu -> wf (machine (Step rnd cpu)).
Proof.
  intros Hwf. unfold Step, bind.
  pose proof (Fetch_wf_any cpu Hwf) as HF.
  destruct (Fetch cpu) as [ins cpu1|e cpu1|cpu1]; cbn [machine] in *; try exact HF.
  now apply DecodeExecute_wf_any.
Qed.

Lemma UpdateTimers_wf cpu : wf cpu -> wf (UpdateTimers cpu).
Proof.
  intros Hwf. unfold UpdateTimers.
  repeat case_match;
    repeat first [ exact Hwf | apply wf_set_DT | apply wf_set_ST | apply u8_range ].
Qed.

Lemma UpdateKeyboard_wf keys cpu : wf cpu -> bytes keys -> wf (UpdateKeyboard keys cpu).
Proof.
  intros Hwf Hkeys.
  rewrite UpdateKeyboard_fields.
  pose proof (UpdateKeyboard_range keys cpu Hkeys).
  destruct Hwf. now constructor.
Qed.

(** X12. A machine within its types (array lengths, 8- and 16-bit ranges)
    stays within them whatever runs on it: any number of steps, however they
    end (a panic or the busy wait included), a timer tick, a keyboard
    update. *)
Theorem machine_stays_typed rnds keys cpu :
  wf cpu ->
  wf (machine (steps rnds cpu))
  /\ wf (UpdateTimers cpu)
  /\ (bytes keys -> wf (UpdateKeyboard keys cpu)).
Proof.
  intros Hwf. split; [|split].
  - revert cpu Hwf. induction rnds as [|rnd rnds IH]; intros cpu Hwf; [exact Hwf|].
    cbn [steps]. unfold bind.
    pose proof (Step_wf_any rnd cpu Hwf) as HS.
    destruct (Step rnd cpu) as [[] cpu1|e cpu1|cpu1]; cbn [machine] in *; try exact HS.
    now apply IH.
  - now apply UpdateTimers_wf.
  - now apply UpdateKeyboard_wf.
Qed.

Lemma machine_stays_typed_witness :
  wf (machine (steps [0; 0; 0] (loaded [0x00; 0xEE])))
  /\ wf (UpdateTimers (loaded [0x00; 0xEE]))
  /\ wf (UpdateKeyboard [0x1; 0xF] (loaded [0x00; 0xEE])).
Proof.
  destruct (machine_stays_typed [0; 0; 0] [0x1; 0xF] (loaded [0x00; 0xEE]))
    as (Hsteps & Htick & Hkeys).
  - apply wfb_wf. vm_compute. reflexivity.
  - split; [exact Hsteps|]. split; [exact Htick|].
    apply Hkeys. apply forallb_bytes. reflexivity.
Defined.

(** ** Registers to memory and back *)

Lemma store_keeps rnd ins cpu cpu' :
  Z.land ins 0xF0FF = 0xF055 -> DecodeExecute rnd ins cpu = Done tt cpu' ->
  I cpu' = I cpu /\ V cpu' = V cpu.
Proof.
  intros Hm. rewrite dispatch_Fx55 by exact Hm. unfold op_Fx55.
  intros Hrun. repeat case_match; simplify_eq. now split.
Qed.

Lemma load_keeps rnd ins cpu cpu' :
  Z.land ins 0xF0FF = 0xF065 -> DecodeExecute rnd ins cpu = Done tt cpu' ->
  I cpu' = I cpu /\ RAM cpu' = RAM cpu.
Proof.
  intros Hm. rewrite dispatch_Fx65 by exact Hm. unfold op_Fx65.
  intros Hrun. repeat case_match; simplify_eq. now split.
Qed.

(** X13. Registers saved with Fx55 come back with Fx65: when the x+1 bytes
    from I on fit in memory the save returns and leaves I and the registers
    as they were (I is not advanced), and whatever the registers hold
    afterwards, the load for the same x then returns with registers 0 to x
    as they were at the save, the registers above x as the load found them,
    and I and memory as the save left them. *)
Theorem save_restore_registers rnd rnd' save load cpu :
  wf cpu ->
  Z.land save 0xF0FF = 0xF055 -> Z.land load 0xF0FF = 0xF065 -> X load = X save ->
  I cpu + X save + 1 <= 4096 ->
  exists cpu1,
    DecodeExecute rnd save cpu = Done tt cpu1
    /\ I cpu1 = I cpu /\ V cpu1 = V cpu
    /\ forall regs, length regs = 16%nat -> bytes regs ->
       exists cpu2,
         DecodeExecute rnd' load (set_V regs cpu1) = Done tt cpu2
         /\ (forall i, 0 <= i <= X save -> at_ (V cpu2) i = at_ (V cpu) i)
         /\ (forall i, X save < i -> at_ (V cpu2) i = at_ regs i)
         /\ I cpu2 = I cpu /\ RAM cpu2 = RAM cpu1.
Proof.
  intros Hwf Hsave Hload Hx Hfit.
  destruct (registers_store rnd save cpu Hwf Hsave) as [Hin _].
  destruct (Hin Hfit) as (cpu1 & Hrun1 & Hregs & _).
  destruct (store_keeps _ _ _ _ Hsave Hrun1) as [HI1 HV1].
  pose proof (DecodeExecute_wf _ _ _ _ Hwf Hrun1) as Hwf1.
  exists cpu1. split; [exact Hrun1|]. split; [exact HI1|]. split; [exact HV1|].
  intros regs Hlen Hbytes.
  assert (Hwf1' : wf (set_V regs cpu1)) by now apply wf_set_V.
  destruct (registers_load rnd' load (set_V regs cpu1) Hwf1' Hload) as [Hin2 _].
  cbn [I RAM V set_V] in Hin2. rewrite Hx, HI1 in Hin2.
  destruct (Hin2 Hfit) as (cpu2 & Hrun2 & Hback & Hrest).
  destruct (load_keeps _ _ _ _ Hload Hrun2) as [HI2 HRAM2].
  exists cpu2. split; [exact Hrun2|]. split; [|split; [exact Hrest|]].
  - intros i Hi. rewrite Hback by exact Hi. now apply Hregs.
  - split; [now rewrite HI2 | exact HRAM2].
Qed.

Lemma save_restore_registers_witness :
  exists cpu1,
    DecodeExecute 0 0xF255 (set_I 0x300 (set_V (seqZ 1 16) zero)) = Done tt cpu1
    /\ I cpu1 = I (set_I 0x300 (set_V (seqZ 1 16) zero))
    /\ V cpu1 = V (set_I 0x300 (set_V (seqZ 1 16) zero))
    /\ forall regs, length regs = 16%nat -> bytes regs ->
       exists cpu2,
         DecodeExecute 0 0xF265 (set_V regs cpu1) = Done tt cpu2
         /\ (forall i, 0 <= i <= X 0xF255 ->
               at_ (V cpu2) i = at_ (V (set_I 0x300 (set_V (seqZ 1 16) zero))) i)
         /\ (forall i, X 0xF255 < i -> at_ (V cpu2) i = at_ regs i)
         /\ I cpu2 = I (set_I 0x300 (set_V (seqZ 1 16) zero)) /\ RAM cpu2 = RAM cpu1.
Proof.
  apply (save_restore_registers 0 0 0xF255 0xF265 (set_I 0x300 (set_V (seqZ 1 16) zero))).
  - apply wfb_wf. vm_compute. reflexivity.
  - reflexivity.
  - reflexivity.
  - reflexivity.
  - vm_compute. discriminate.
Defined.

(** ** Decimal digits *)

(** X14. The three bytes that Fx33 stores at I, I+1 and I+2 are decimal
    digits, the first at most 2, and read as hundreds, tens and ones they
    give back the value of register x. *)
Theorem bcd_digits rnd ins cpu :
  wf cpu -> Z.land ins 0xF0FF = 0xF033 -> I cpu + 2 < 4096 ->
  exists cpu',
    DecodeExecute rnd ins cpu = Done tt cpu'
    /\ 0 <= at_ (RAM cpu') (I cpu) <= 2
    /\ 0 <= at_ (RAM cpu') (I cpu + 1) <= 9
    /\ 0 <= at_ (RAM cpu') (I cpu + 2) <= 9
    /\ 100 * at_ (RAM cpu') (I cpu) + 10 * at_ (RAM cpu') (I cpu + 1)
       + at_ (RAM cpu') (I cpu + 2) = at_ (V cpu) (X ins).
Proof.
  intros Hwf Hm Hfit.
  destruct (bcd_store rnd ins cpu Hwf Hm) as [Hin _].
  destruct (Hin Hfit) as (cpu' & Hrun & H2 & H1 & H0).
  exists cpu'. split; [exact Hrun|]. rewrite H2, H1, H0.
  pose proof (wf_Vx cpu ins Hwf) as Ha. revert Ha.
  generalize (at_ (V cpu) (X ins)). intros a Ha.
  Z.div_mod_to_equations. lia.
Qed.

Lemma bcd_digits_witness :
  exists cpu',
    DecodeExecute 0 0xF333 (set_I 0x400 (set_V (replicate 3 0 ++ [207] ++ replicate 12 0) zero))
    = Done tt cpu'
    /\ 0 <= at_ (RAM cpu') (I (set_I 0x400 (set_V (replicate 3 0 ++ [207] ++ replicate 12 0) zero))) <= 2
    /\ 0 <= at_ (RAM cpu') (I (set_I 0x400 (set_V (replicate 3 0 ++ [207] ++ replicate 12 0) zero)) + 1) <= 9
    /\ 0 <= at_ (RAM cpu') (I (set_I 0x400 (set_V (replicate 3 0 ++ [207] ++ replicate 12 0) zero)) + 2) <= 9
    /\ 100 * at_ (RAM cpu') (I (set_I 0x400 (set_V (replicate 3 0 ++ [207] ++ replicate 12 0) zero)))
       + 10 * at_ (RAM cpu') (I (set_I 0x400 (set_V (replicate 3 0 ++ [207] ++ replicate 12 0) zero)) + 1)
       + at_ (RAM cpu') (I (set_I 0x400 (set_V (replicate 3 0 ++ [207] ++ replicate 12 0) zero)) + 2)
       = at_ (V (set_I 0x400 (set_V (replicate 3 0 ++ [207] ++ replicate 12 0) zero))) (X 0xF333).
Proof.
  apply (bcd_digits 0 0xF333 (set_I 0x400 (set_V (replicate 3 0 ++ [207] ++ replicate 12 0) zero))).
  - apply wfb_wf. vm_compute. reflexivity.
  - reflexivity.
  - vm_compute. reflexivity.
Defined.

(** ** Arithmetic with a flag *)

Lemma land_1_mod2 a : Z.land a 1 = a mod 2.
Proof. change 1 with (Z.ones 1). now rewrite Z.land_ones by lia. Qed.

(** X15. The shifts split the register value between the result and the
    flag, for a destination other than 0xF: after 8xy6 twice the result
    plus the flag is the old value, after 8xyE 256 times the flag plus the
    result is twice the old value; the flag is 0 or 1; Vy plays no part. *)
Theorem shift_splits rnd ins cpu (a : Z) :
  wf cpu -> X ins <> 0xF -> at_ (V cpu) (X ins) = a ->
  (Z.land ins 0xF00F = 0x8006 ->
   exists cpu', DecodeExecute rnd ins cpu = Done tt cpu'
     /\ 0 <= at_ (V cpu') 0xF <= 1
     /\ 2 * at_ (V cpu') (X ins) + at_ (V cpu') 0xF = a)
  /\ (Z.land ins 0xF00F = 0x800E ->
      exists cpu', DecodeExecute rnd ins cpu = Done tt cpu'
        /\ 0 <= at_ (V cpu') 0xF <= 1
        /\ 256 * at_ (V cpu') 0xF + at_ (V cpu') (X ins) = 2 * a).
Proof.
  intros Hwf Hx Ha.
  pose proof (X_nibble ins) as HX. pose proof (wf_Vx cpu ins Hwf) as Hra.
  pose proof (wf_V_len _ Hwf) as Hlen. rewrite Ha in Hra.
  split; intros Hm.
  - rewrite dispatch_8xy6 by exact Hm. unfold op_8xy6. eexists. split; [reflexivity|].
    cbn [V set_V]. rewrite Ha.
    rewrite at_upd_eq by (rewrite length_upd; lia).
    rewrite at_upd_ne, at_upd_eq by lia.
    rewrite land_1_mod2, Z.shiftr_div_pow2 by lia. change (2 ^ 1) with 2.
    Z.div_mod_to_equations. lia.
  - rewrite dispatch_8xyE by exact Hm. unfold op_8xyE. eexists. split; [reflexivity|].
    cbn [V set_V]. rewrite Ha.
    rewrite at_upd_eq by (rewrite length_upd; lia).
    rewrite at_upd_ne, at_upd_eq by lia.
    rewrite land_1_mod2, Z.shiftr_div_pow2, Z.shiftl_mul_pow2 by lia. unfold u8.
    change (2 ^ 1) with 2. change (2 ^ 7) with 128.
    Z.div_mod_to_equations. lia.
Qed.

Lemma shift_splits_witness :
  (exists cpu', DecodeExecute 0 0x8306 (set_V (upd (V zero) 3 0x8B) zero) = Done tt cpu'
     /\ 0 <= at_ (V cpu') 0xF <= 1
     /\ 2 * at_ (V cpu') (X 0x8306) + at_ (V cpu') 0xF = 0x8B)
  /\ (exists cpu', DecodeExecute 0 0x830E (set_V (upd (V zero) 3 0x8B) zero) = Done tt cpu'
        /\ 0 <= at_ (V cpu') 0xF <= 1
        /\ 256 * at_ (V cpu') 0xF + at_ (V cpu') (X 0x830E) = 2 * 0x8B).
Proof.
  split.
  - destruct (shift_splits 0 0x8306 (set_V (upd (V zero) 3 0x8B) zero) 0x8B) as [Hright _].
    + apply wfb_wf. vm_compute. reflexivity.
    + vm_compute. discriminate.
    + reflexivity.
    + apply Hright. reflexivity.
  - destruct (shift_splits 0 0x830E (set_V (upd (V zero) 3 0x8B) zero) 0x8B) as [_ Hleft].
    + apply wfb_wf. vm_compute. reflexivity.
    + vm_compute. discriminate.
    + reflexivity.
    + apply Hleft. reflexivity.
Defined.

(** X16. The subtractions, for a destination other than 0xF: 8xy5 leaves
    (a - b) mod 256 in register x and 8xy7 leaves (b - a) mod 256 there, and
    the flag is 1 exactly when nothing was borrowed, so that the result
    less 256 for a borrow is the true difference. *)
Theorem subtract_no_borrow rnd ins cpu (a b : Z) :
  wf cpu -> X ins <> 0xF ->
  at_ (V cpu) (X ins) = a -> at_ (V cpu) (Y ins) = b ->
  (Z.land ins 0xF00F = 0x8005 ->
   exists cpu', DecodeExecute rnd ins cpu = Done tt cpu'
     /\ at_ (V cpu') (X ins) = (a - b) mod 256
     /\ at_ (V cpu') 0xF = (if b <=? a then 1 else 0)
     /\ at_ (V cpu') (X ins) - 256 * (1 - at_ (V cpu') 0xF) = a - b)
  /\ (Z.land ins 0xF00F = 0x8007 ->
      exists cpu', DecodeExecute rnd ins cpu = Done tt cpu'
        /\ at_ (V cpu') (X ins) = (b - a) mod 256
        /\ at_ (V cpu') 0xF = (if a <=? b then 1 else 0)
        /\ at_ (V cpu') (X ins) - 256 * (1 - at_ (V cpu') 0xF) = b - a).
Proof.
  intros Hwf Hx Ha Hb.
  pose proof (X_nibble ins) as HX.
  pose proof (wf_Vx cpu ins Hwf) as Hra. pose proof (wf_Vy cpu ins Hwf) as Hrb.
  pose proof (wf_V_len _ Hwf) as Hlen. rewrite Ha in Hra. rewrite Hb in Hrb.
  split; intros Hm.
  - rewrite dispatch_8xy5 by exact Hm. unfold op_8xy5. rewrite Ha, Hb.
    eexists. split; [reflexivity|].
    destruct (Z.leb_spec b a); cbn [V set_V];
      rewrite at_upd_eq by (rewrite length_upd; lia);
      rewrite at_upd_ne, at_upd_eq by lia; unfold u8;
      (split; [reflexivity|]); (split; [reflexivity|]);
      Z.div_mod_to_equations; lia.
  - rewrite dispatch_8xy7 by exact Hm. unfold op_8xy7. rewrite Ha, Hb.
    eexists. split; [reflexivity|].
    destruct (Z.leb_spec a b); cbn [V set_V];
      rewrite at_upd_eq by (rewrite length_upd; lia);
      rewrite at_upd_ne, at_upd_eq by lia; unfold u8;
      (split; [reflexivity|]); (split; [reflexivity|]);
      Z.div_mod_to_equations; lia.
Qed.

Lemma subtract_no_borrow_witness :
  (exists cpu',
     DecodeExecute 0 0x8125 (set_V (upd (upd (V zero) 1 5) 2 7) zero) = Done tt cpu'
     /\ at_ (V cpu') (X 0x8125) = (5 - 7) mod 256
     /\ at_ (V cpu') 0xF = (if 7 <=? 5 then 1 else 0)
     /\ at_ (V cpu') (X 0x8125) - 256 * (1 - at_ (V cpu') 0xF) = 5 - 7)
  /\ (exists cpu',
        DecodeExecute 0 0x8127 (set_V (upd (upd (V zero) 1 5) 2 7) zero) = Done tt cpu'
        /\ at_ (V cpu') (X 0x8127) = (7 - 5) mod 256
        /\ at_ (V cpu') 0xF = (if 5 <=? 7 then 1 else 0)
        /\ at_ (V cpu') (X 0x8127) - 256 * (1 - at_ (V cpu') 0xF) = 7 - 5).
Proof.
  split.
  - destruct (subtract_no_borrow 0 0x8125 (set_V (upd (upd (V zero) 1 5) 2 7) zero) 5 7)
      as [Hsub _].
    + apply wfb_wf. vm_compute. reflexivity.
    + vm_compute. discriminate.
    + reflexivity.
    + reflexivity.
    + apply Hsub. reflexivity.
  - destruct (subtract_no_borrow 0 0x8127 (set_V (upd (upd (V zero) 1 5) 2 7) zero) 5 7)
      as [_ Hsubn].
    + apply wfb_wf. vm_compute. reflexivity.
    + vm_compute. discriminate.
    + reflexivity.
    + reflexivity.
    + apply Hsubn. reflexivity.
Defined.

(** The register file after 8xy5 and after 8xy4. *)
Lemma sub_registers rnd ins cpu :
  Z.land ins 0xF00F = 0x8005 ->
  DecodeExecute rnd ins cpu
  = Done tt (set_V (upd (upd (V cpu) (X ins) (u8 (at_ (V cpu) (X ins) - at_ (V cpu) (Y ins))))
                        0xF (if at_ (V cpu) (Y ins) <=? at_ (V cpu) (X ins) then 1 else 0))
                   cpu).
Proof.
  intros Hm. rewrite dispatch_8xy5 by exact Hm. unfold op_8xy5.
  now destruct (at_ (V cpu) (Y ins) <=? at_ (V cpu) (X ins)).
Qed.

Lemma add_registers rnd ins cpu :
  Z.land ins 0xF00F = 0x8004 ->
  DecodeExecute rnd ins cpu
  = Done tt (set_V (upd (upd (V cpu) 0xF
                           (if 0xFF <? u16 (u16 (at_ (V cpu) (X ins)) + u16 (at_ (V cpu) (Y ins)))
                            then 1 else 0))
                        (X ins) (u8 (u16 (u16 (at_ (V cpu) (X ins)) + u16 (at_ (V cpu) (Y ins))))))
                   cpu).
Proof.
  intros Hm. rewrite dispatch_8xy4 by exact Hm. unfold op_8xy4.
  now destruct (0xFF <? u16 (u16 (at_ (V cpu) (X ins)) + u16 (at_ (V cpu) (Y ins)))).
Qed.

(** Read a register back through the writes made since. *)
Ltac reads :=
  repeat (rewrite at_upd by (rewrite ?length_upd; lia));
  repeat match goal with
  | |- context [Z.eqb ?i ?j] => destruct (Z.eqb_spec i j); try lia
  end.

(** X17. Subtracting a register and adding it back, with 8xy5 and then 8xy4
    on the same two distinct registers, neither of them 0xF, restores
    register x; the carry of the addition is then the borrow of the
    subtraction, the flag being 1 after the one exactly when it is 0 after
    the other. *)
Theorem subtract_then_add rnd rnd' sub add cpu :
  wf cpu ->
  Z.land sub 0xF00F = 0x8005 -> Z.land add 0xF00F = 0x8004 ->
  X add = X sub -> Y add = Y sub ->
  X sub <> 0xF -> Y sub <> 0xF -> X sub <> Y sub ->
  exists cpu1 cpu2,
    DecodeExecute rnd sub cpu = Done tt cpu1
    /\ DecodeExecute rnd' add cpu1 = Done tt cpu2
    /\ at_ (V cpu2) (X sub) = at_ (V cpu) (X sub)
    /\ at_ (V cpu2) (Y sub) = at_ (V cpu) (Y sub)
    /\ at_ (V cpu2) 0xF = 1 - at_ (V cpu1) 0xF.
Proof.
  intros Hwf Hsub Hadd HX HY Hx Hy Hxy.
  pose proof (X_nibble sub) as HXr. pose proof (Y_nibble sub) as HYr.
  pose proof (wf_Vx cpu sub Hwf) as Hra. pose proof (wf_Vy cpu sub Hwf) as Hrb.
  pose proof (wf_V_len _ Hwf) as Hlen.
  do 2 eexists. split; [now apply sub_registers|].
  split; [now apply add_registers|].
  rewrite HX, HY. cbn [V set_V].
  set (a := at_ (V cpu) (X sub)) in *. set (b := at_ (V cpu) (Y sub)) in *.
  assert (Hdiff : at_ (upd (upd (V cpu) (X sub) (u8 (a - b))) 15 (if b <=? a then 1 else 0)) (X sub)
                  = u8 (a - b)) by (reads; reflexivity).
  assert (Hb : at_ (upd (upd (V cpu) (X sub) (u8 (a - b))) 15 (if b <=? a then 1 else 0)) (Y sub)
               = b) by (reads; reflexivity).
  rewrite Hdiff, Hb.
  assert (Hsum : u16 (u16 (u8 (a - b)) + u16 b) = u8 (a - b) + b).
  { unfold u16, u8. Z.div_mod_to_equations. lia. }
  rewrite Hsum. clear Hdiff Hb Hsum.
  split; [|split]; reads; try reflexivity; unfold u8 in *; clearbody a b.
  - Z.div_mod_to_equations. lia.
  - destruct (Z.leb_spec b a), (Z.ltb_spec 255 ((a - b) mod 256 + b));
      Z.div_mod_to_equations; lia.
Qed.

Lemma subtract_then_add_witness :
  exists cpu1 cpu2,
    DecodeExecute 0 0x8125 (set_V (upd (upd (V zero) 1 5) 2 7) zero) = Done tt cpu1
    /\ DecodeExecute 0 0x8124 cpu1 = Done tt cpu2
    /\ at_ (V cpu2) (X 0x8125) = at_ (V (set_V (upd (upd (V zero) 1 5) 2 7) zero)) (X 0x8125)
    /\ at_ (V cpu2) (Y 0x8125) = at_ (V (set_V (upd (upd (V zero) 1 5) 2 7) zero)) (Y 0x8125)
    /\ at_ (V cpu2) 0xF = 1 - at_ (V cpu1) 0xF.
Proof.
  apply (subtract_then_add 0 0 0x8125 0x8124 (set_V (upd (upd (V zero) 1 5) 2 7) zero)).
  - apply wfb_wf. vm_compute. reflexivity.
  - reflexivity.
  - reflexivity.
  - reflexivity.
  - reflexivity.
  - vm_compute. discriminate.
  - vm_compute. discriminate.
  - vm_compute. discriminate.
Defined.

(** ** Skips *)









(** ** The delay timer through the instructions *)

Lemma dispatch_Fx15 rnd ins :
  Z.land ins 0xF0FF = 0xF015 -> DecodeExecute rnd ins = op_Fx15 (X ins).
Proof. intros Hm. dispatch Hm. reflexivity. Qed.

Lemma dispatch_Fx07 rnd ins :
  Z.land ins 0xF0FF = 0xF007 -> DecodeExecute rnd ins = op_Fx07 (X ins).
Proof. intros Hm. dispatch Hm. reflexivity. Qed.

Lemma ticks_DT (n : nat) cpu :
  wf cpu ->
  DT (ticks n cpu) = Z.max 0 (DT cpu - Z.of_nat n) /\ V (ticks n cpu) = V cpu.
Proof.
  revert cpu. induction n as [|n IH]; intros cpu Hwf.
  - cbn [ticks]. pose proof (wf_DT _ Hwf). split; [lia | reflexivity].
  - cbn [ticks]. destruct (IH (UpdateTimers cpu) (UpdateTimers_wf _ Hwf)) as [HDT HV].
    rewrite HDT, HV, (UpdateTimers_fields cpu Hwf). cbn [DT V set_DT set_ST].
    pose proof (wf_DT _ Hwf). split; [lia | reflexivity].
Qed.

(** X19. A delay set with Fx15 and read back with Fx07 after [n] timer
    ticks reads as the value set less [n], and as 0 once [n] has reached the
    value. *)
Theorem delay_read_back rnd rnd' set get (n : nat) cpu :
  wf cpu -> Z.land set 0xF0FF = 0xF015 -> Z.land get 0xF0FF = 0xF007 ->
  exists cpu1 cpu2,
    DecodeExecute rnd set cpu = Done tt cpu1
    /\ DecodeExecute rnd' get (ticks n cpu1) = Done tt cpu2
    /\ at_ (V cpu2) (X get) = Z.max 0 (at_ (V cpu) (X set) - Z.of_nat n).
Proof.
  intros Hwf Hset Hget.
  pose proof (X_nibble get) as HX. pose proof (wf_V_len _ Hwf) as Hlen.
  rewrite dispatch_Fx15 by exact Hset. unfold op_Fx15.
  do 2 eexists. split; [reflexivity|].
  rewrite dispatch_Fx07 by exact Hget. unfold op_Fx07.
  split; [reflexivity|]. cbn [V set_V].
  assert (Hwf1 : wf (set_DT (at_ (V cpu) (X set)) cpu))
    by (apply wf_set_DT; [exact Hwf | now apply wf_Vx]).
  destruct (ticks_DT n _ Hwf1) as [HDT HV]. rewrite HDT, HV. cbn [DT V set_DT].
  apply at_upd_eq. lia.
Qed.

Lemma delay_read_back_witness :
  exists cpu1 cpu2,
    DecodeExecute 0 0xF215 (set_V (upd (V zero) 2 60) zero) = Done tt cpu1
    /\ DecodeExecute 0 0xF507 (ticks 25 cpu1) = Done tt cpu2
    /\ at_ (V cpu2) (X 0xF507)
       = Z.max 0 (at_ (V (set_V (upd (V zero) 2 60) zero)) (X 0xF215) - Z.of_nat 25).
Proof.
  apply (delay_read_back 0 0 0xF215 0xF507 25 (set_V (upd (V zero) 2 60) zero)).
  - apply wfb_wf. vm_compute. reflexivity.
  - reflexivity.
  - reflexivity.
Defined.

(** ** Jumps *)

Lemma dispatch_1nnn rnd ins :
  Z.land ins 0xF000 = 0x1000 -> DecodeExecute rnd ins = op_1nnn ins.
Proof. intros Hm. dispatch Hm. reflexivity. Qed.

Lemma dispatch_Bnnn rnd ins :
  Z.land ins 0xF000 = 0xB000 -> DecodeExecute rnd ins = op_Bnnn ins.
Proof. intros Hm. dispatch Hm. reflexivity. Qed.

Lemma land_low12_range ins : 0 <= Z.land ins 0x0FFF < 4096.
Proof.
  change 0x0FFF with (Z.ones 12). rewrite Z.land_ones by lia.
  apply Z.mod_pos_bound. lia.
Qed.

Lemma Step_outside rnd cpu :
  wf cpu ->
  (PC cpu < 0x200 -> Step rnd cpu = Panic CorruptedProgramCounter cpu)
  /\ (4095 <= PC cpu -> Step rnd cpu = Panic IndexOutOfRange cpu).
Proof.
  intros Hwf. unfold Step, bind. split; intros HPC.
  - unfold Fetch. change CHIP8_PROGRAM_START with 0x200.
    destruct (Z.ltb_spec (PC cpu) 0x200); [reflexivity | lia].
  - destruct (fetch_in_range cpu Hwf) as [_ Hout]. now rewrite Hout.
Qed.

(** X20. A jump checks nothing: 1nnn puts nnn in the program counter and
    Bnnn puts nnn plus register 0 there, unwrapped, and touch nothing else;
    when the target lies below 0x200 the next step panics on the corrupted
    program counter, when it lies at 4095 or above the next step panics on
    the memory index, in both cases before anything is executed. *)
Theorem jump_unchecked rnd rnd' ins cpu :
  wf cpu ->
  let lands target :=
    DecodeExecute rnd ins cpu = Done tt (set_PC target cpu)
    /\ (target < 0x200 ->
        Step rnd' (set_PC target cpu) = Panic CorruptedProgramCounter (set_PC target cpu))
    /\ (4095 <= target ->
        Step rnd' (set_PC target cpu) = Panic IndexOutOfRange (set_PC target cpu)) in
  (Z.land ins 0xF000 = 0x1000 -> lands (Z.land ins 0x0FFF))
  /\ (Z.land ins 0xF000 = 0xB000 -> lands (Z.land ins 0x0FFF + at_ (V cpu) 0)).
Proof.
  intros Hwf lands. subst lands. cbv beta.
  pose proof (land_low12_range ins) as Hnnn.
  assert (H0 : 0 <= at_ (V cpu) 0 < 256).
  { apply at_bytes; [apply Hwf|]. rewrite (wf_V_len _ Hwf). lia. }
  assert (Hstep : forall target, 0 <= target < 65536 ->
            (target < 0x200 ->
             Step rnd' (set_PC target cpu) = Panic CorruptedProgramCounter (set_PC target cpu))
            /\ (4095 <= target ->
                Step rnd' (set_PC target cpu) = Panic IndexOutOfRange (set_PC target cpu))).
  { intros target Ht. apply (Step_outside rnd' (set_PC target cpu)).
    now apply wf_set_PC. }
  split; intros Hm.
  - split; [|apply Hstep; lia].
    rewrite dispatch_1nnn by exact Hm. reflexivity.
  - split; [|apply Hstep; lia].
    rewrite dispatch_Bnnn by exact Hm. unfold op_Bnnn, u16.
    rewrite Z.mod_small by lia. reflexivity.
Qed.

Lemma jump_unchecked_witness :
  (DecodeExecute 0 0x1FFF zero = Done tt (set_PC (Z.land 0x1FFF 0x0FFF) zero)
   /\ Step 0 (set_PC (Z.land 0x1FFF 0x0FFF) zero)
      = Panic IndexOutOfRange (set_PC (Z.land 0x1FFF 0x0FFF) zero))
  /\ (DecodeExecute 0 0xB100 (set_V (upd (V zero) 0 0x20) zero)
      = Done tt (set_PC (Z.land 0xB100 0x0FFF + at_ (V (set_V (upd (V zero) 0 0x20) zero)) 0)
                        (set_V (upd (V zero) 0 0x20) zero))
      /\ Step 0 (set_PC (Z.land 0xB100 0x0FFF + at_ (V (set_V (upd (V zero) 0 0x20) zero)) 0)
                        (set_V (upd (V zero) 0 0x20) zero))
         = Panic CorruptedProgramCounter
             (set_PC (Z.land 0xB100 0x0FFF + at_ (V (set_V (upd (V zero) 0 0x20) zero)) 0)
                     (set_V (upd (V zero) 0 0x20) zero))).
Proof.
  split.
  - destruct (jump_unchecked 0 0 0x1FFF zero wf_zero) as [Hjump _].
    destruct (Hjump eq_refl) as (Hrun & _ & Hhigh).
    split; [exact Hrun|]. apply Hhigh. vm_compute. discriminate.
  - destruct (jump_unchecked 0 0 0xB100 (set_V (upd (V zero) 0 0x20) zero)) as [_ Hjump].
    + apply wfb_wf. vm_compute. reflexivity.
    + destruct (Hjump eq_refl) as (Hrun & Hlow & _).
      split; [exact Hrun|]. apply Hlow. vm_compute. reflexivity.
Defined.

(** The jump to its own address. *)
Lemma jump_word (pc : Z) :
  0 <= pc < 4096 ->
  Z.land (0x1000 + pc) 0xF000 = 0x1000 /\ Z.land (0x1000 + pc) 0x0FFF = pc.
Proof.
  intros Hpc.
  assert (Hall : forallb (fun pc => (Z.land (0x1000 + pc) 0xF000 =? 0x1000)
                                    && (Z.land (0x1000 + pc) 0x0FFF =? pc))
                         (seqZ 0 4096) = true) by (vm_compute; reflexivity).
  rewrite forallb_forall in Hall.
  specialize (Hall pc). rewrite <- list_elem_of_In, elem_of_seqZ in Hall.
  specialize (Hall ltac:(lia)). apply andb_true_iff in Hall. lia.
Qed.

(** X21. A jump to its own address holds the machine still: with the two
    bytes at the program counter spelling the jump to that very address,
    any number of steps returns and leaves the machine exactly as it was. *)
Theorem jump_to_self_halts rnds cpu :
  wf cpu -> 0x200 <= PC cpu <= 4094 ->
  256 * at_ (RAM cpu) (PC cpu) + at_ (RAM cpu) (PC cpu + 1) = 0x1000 + PC cpu ->
  steps rnds cpu = Done tt cpu.
Proof.
  intros Hwf HPC Hword.
  assert (Hstep : forall rnd, Step rnd cpu = Done tt cpu).
  { intros rnd. unfold Step, bind.
    destruct (fetch_in_range cpu Hwf) as [Hin _]. rewrite (Hin HPC), Hword.
    destruct (jump_word (PC cpu)) as [Hclass Hnnn]; [lia|].
    rewrite dispatch_1nnn by exact Hclass. unfold op_1nnn, assign. rewrite Hnnn.
    now destruct cpu. }
  induction rnds as [|rnd rnds IH]; [reflexivity|].
  cbn [steps]. unfold bind. now rewrite Hstep.
Qed.

Lemma jump_to_self_halts_witness :
  steps [0; 0; 0] (set_PC 0x202 (loaded [0x00; 0xE0; 0x12; 0x02]))
  = Done tt (set_PC 0x202 (loaded [0x00; 0xE0; 0x12; 0x02])).
Proof.
  apply (jump_to_self_halts [0; 0; 0] (set_PC 0x202 (loaded [0x00; 0xE0; 0x12; 0x02]))).
  - apply wfb_wf. vm_compute. reflexivity.
  - vm_compute. split; discriminate.
  - vm_compute. reflexivity.
Defined.

(** ** Waiting for a key *)

(** X22. Fx0A on the keyboard as [UpdateKeyboard] leaves it: with no key in
    the update it never returns; with keys of which the least, [k], is below
    0xF it returns with [k] in register x and nothing else changed. *)
Theorem wait_key_after_update rnd ins keys cpu :
  wf cpu -> bytes keys -> Z.land ins 0xF0FF = 0xF00A ->
  (keys = [] ->
   DecodeExecute rnd ins (UpdateKeyboard keys cpu) = Spin (UpdateKeyboard keys cpu))
  /\ (forall k, k ∈ keys -> k < 0xF -> (forall j, j ∈ keys -> k <= j) ->
      DecodeExecute rnd ins (UpdateKeyboard keys cpu)
      = Done tt (set_V (upd (V cpu) (X ins) k) (UpdateKeyboard keys cpu))).
Proof.
  intros Hwf Hkeys Hm. split.
  - intros ->. now apply wait_key_spins.
  - intros k Hk HkF Hleast.
    assert (Hk0 : 0 <= k < 256) by exact (proj1 (List.Forall_forall _ _) Hkeys k
                                            (proj1 (list_elem_of_In _ _) Hk)).
    pose proof (UpdateKeyboard_wf keys cpu Hwf Hkeys) as Hwf'.
    destruct (wait_key_lowest rnd ins (UpdateKeyboard keys cpu) Hwf' Hm)
      as (k' & Hk' & Hlatch & Hbelow & Hrun).
    { exists k. split; [lia|]. apply UpdateKeyboard_latch; [assumption | lia | assumption]. }
    assert (k' = k) as ->.
    { apply UpdateKeyboard_latch in Hlatch; [|assumption | lia].
      specialize (Hleast k' Hlatch).
      destruct (Z.eq_dec k' k) as [|Hne]; [assumption|].
      specialize (Hbelow k ltac:(lia)).
      assert (Htrue : key_latch (UpdateKeyboard keys cpu) k = true)
        by (apply UpdateKeyboard_latch; [assumption | lia | assumption]).
      congruence. }
    assert (HV : V (UpdateKeyboard keys cpu) = V cpu)
      by (rewrite UpdateKeyboard_fields; reflexivity).
    now rewrite Hrun, HV.
Qed.

Lemma wait_key_after_update_witness :
  DecodeExecute 0 0xF30A (UpdateKeyboard [] zero) = Spin (UpdateKeyboard [] zero)
  /\ DecodeExecute 0 0xF30A (UpdateKeyboard [0xF; 0x9; 0x4; 0x9] zero)
     = Done tt (set_V (upd (V zero) (X 0xF30A) 0x4) (UpdateKeyboard [0xF; 0x9; 0x4; 0x9] zero)).
Proof.
  split.
  - destruct (wait_key_after_update 0 0xF30A [] zero wf_zero) as [Hnone _];
      [constructor | reflexivity |].
    apply Hnone. reflexivity.
  - destruct (wait_key_after_update 0 0xF30A [0xF; 0x9; 0x4; 0x9] zero wf_zero) as [_ Hsome];
      [apply forallb_bytes; reflexivity | reflexivity |].
    apply Hsome.
    + apply list_elem_of_In. right. right. left. reflexivity.
    + lia.
    + intros j Hj. apply list_elem_of_In in Hj. cbn in Hj. lia.
Defined.

(** ** Digit sprites *)

Lemma dispatch_Fx29 rnd ins :
  Z.land ins 0xF0FF = 0xF029 -> DecodeExecute rnd ins = op_Fx29 (X ins).
Proof. intros Hm. dispatch Hm. reflexivity. Qed.

(** X23. Fx29 points at the digits that [Initialize] loaded: on a machine
    whose memory is as [Initialize] left it, Fx29 sets I to 5 times the
    value of register x, unwrapped, and touches nothing else, and the bytes
    from there on are the bytes of the digits file from that offset on, as
    far as the file reaches below 0x200. *)
Theorem digit_sprite_address rnd ins digits rom cpu0 cpu1 cpu :
  wf cpu0 -> Initialize digits rom cpu0 = Done tt cpu1 ->
  wf cpu -> RAM cpu = RAM cpu1 ->
  Z.land ins 0xF0FF = 0xF029 ->
  DecodeExecute rnd ins cpu = Done tt (set_I (5 * at_ (V cpu) (X ins)) cpu)
  /\ forall i, 0 <= i ->
       5 * at_ (V cpu) (X ins) + i < Z.of_nat (length digits) ->
       5 * at_ (V cpu) (X ins) + i < 0x200 ->
       at_ (RAM cpu) (5 * at_ (V cpu) (X ins) + i)
       = at_ digits (5 * at_ (V cpu) (X ins) + i).
Proof.
  intros Hwf0 Hrun Hwf HRAM Hm.
  destruct (Initialize_memory digits rom cpu0 (wf_RAM_len _ Hwf0))
    as (ram & Hinit & _ & _ & _ & Hdigits & _).
  rewrite Hinit in Hrun. injection Hrun as <-. cbn [RAM set_PC set_RAM] in HRAM.
  pose proof (wf_Vx cpu ins Hwf) as Hd. split.
  - rewrite dispatch_Fx29 by exact Hm. unfold op_Fx29, u16.
    change DIGITS_LEN with 5.
    rewrite (Z.mod_small (at_ (V cpu) (X ins))) by lia. rewrite Z.mod_small by lia.
    now rewrite Z.mul_comm.
  - intros i Hi Hlen Hlow. rewrite HRAM. apply Hdigits; lia.
Qed.

Lemma digit_sprite_address_witness :
  DecodeExecute 0 0xF429
    (set_V (upd (V zero) 4 1)
       (machine (Initialize [0xF0; 0x90; 0x90; 0x90; 0xF0; 0x20; 0x60; 0x20; 0x20; 0x70]
                            [0x12; 0x00] zero)))
  = Done tt
      (set_I (5 * at_ (V (set_V (upd (V zero) 4 1)
                (machine (Initialize [0xF0; 0x90; 0x90; 0x90; 0xF0; 0x20; 0x60; 0x20; 0x20; 0x70]
                                     [0x12; 0x00] zero)))) (X 0xF429))
         (set_V (upd (V zero) 4 1)
            (machine (Initialize [0xF0; 0x90; 0x90; 0x90; 0xF0; 0x20; 0x60; 0x20; 0x20; 0x70]
                                 [0x12; 0x00] zero))))
  /\ at_ (RAM (set_V (upd (V zero) 4 1)
               (machine (Initialize [0xF0; 0x90; 0x90; 0x90; 0xF0; 0x20; 0x60; 0x20; 0x20; 0x70]
                                    [0x12; 0x00] zero))))
         (5 * at_ (V (set_V (upd (V zero) 4 1)
                  (machine (Initialize [0xF0; 0x90; 0x90; 0x90; 0xF0; 0x20; 0x60; 0x20; 0x20; 0x70]
                                       [0x12; 0x00] zero)))) (X 0xF429) + 1)
     = at_ [0xF0; 0x90; 0x90; 0x90; 0xF0; 0x20; 0x60; 0x20; 0x20; 0x70]
         (5 * at_ (V (set_V (upd (V zero) 4 1)
                  (machine (Initialize [0xF0; 0x90; 0x90; 0x90; 0xF0; 0x20; 0x60; 0x20; 0x20; 0x70]
                                       [0x12; 0x00] zero)))) (X 0xF429) + 1).
Proof.
  destruct (digit_sprite_address 0 0xF429
              [0xF0; 0x90; 0x90; 0x90; 0xF0; 0x20; 0x60; 0x20; 0x20; 0x70] [0x12; 0x00] zero
              (machine (Initialize [0xF0; 0x90; 0x90; 0x90; 0xF0; 0x20; 0x60; 0x20; 0x20; 0x70]
                                   [0x12; 0x00] zero))
              (set_V (upd (V zero) 4 1)
                 (machine (Initialize [0xF0; 0x90; 0x90; 0x90; 0xF0; 0x20; 0x60; 0x20; 0x20; 0x70]
                                      [0x12; 0x00] zero)))) as [Hrun Hbytes].
  - exact wf_zero.
  - vm_compute. reflexivity.
  - apply wfb_wf. vm_compute. reflexivity.
  - reflexivity.
  - reflexivity.
  - split; [exact Hrun|]. apply Hbytes; vm_compute; reflexivity || discriminate.
Defined.

(** ** Drawing from memory *)

(** X24. Dxyn draws the [n] bytes at I, I+1, ... as the rows of the sprite:
    when they lie inside memory the instruction returns, bit [dx] of the
    byte at I + [dy] is XORed onto the pixel at column (Vx + dx) mod 64 of
    row (Vy + dy) mod 32, and register 0xF is left at 1 if one of the set
    sprite bits met a lit pixel and at 0 otherwise; memory, I and the
    program counter are as before. *)
Theorem draw_from_memory rnd ins cpu :
  wf cpu -> Z.land ins 0xF000 = 0xD000 ->
  I cpu + Z.land ins 0x000F <= 4096 ->
  exists cpu',
    DecodeExecute rnd ins cpu = Done tt cpu'
    /\ RAM cpu' = RAM cpu /\ I cpu' = I cpu /\ PC cpu' = PC cpu
    /\ (forall dy dx, 0 <= dy < Z.land ins 0x000F -> 0 <= dx < 8 ->
          at_ (FRAMEBUFFER cpu')
              (pixel ((at_ (V cpu) (X ins) + dx) mod 64) ((at_ (V cpu) (Y ins) + dy) mod 32))
          = xorb (at_ (FRAMEBUFFER cpu)
                      (pixel ((at_ (V cpu) (X ins) + dx) mod 64)
                             ((at_ (V cpu) (Y ins) + dy) mod 32)))
                 (sprite_bit (at_ (RAM cpu) (I cpu + dy)) dx))
    /\ (at_ (V cpu') 0xF = 1 \/ at_ (V cpu') 0xF = 0)
    /\ (at_ (V cpu') 0xF = 1 <->
        exists dy dx, 0 <= dy < Z.land ins 0x000F /\ 0 <= dx < 8
          /\ sprite_bit (at_ (RAM cpu) (I cpu + dy)) dx = true
          /\ at_ (FRAMEBUFFER cpu)
                 (pixel ((at_ (V cpu) (X ins) + dx) mod 64)
                        ((at_ (V cpu) (Y ins) + dy) mod 32)) = true).
Proof.
  intros Hwf Hm Hfit.
  pose proof (low_nibble ins) as Hn. pose proof (wf_I _ Hwf) as HI.
  pose proof (wf_RAM_len _ Hwf) as HRAM. pose proof (wf_FB_len _ Hwf) as HFB.
  pose proof (wf_V_len _ Hwf) as HV.
  destruct (sprite_read rnd ins cpu Hwf Hm) as [Hin _].
  set (n := Z.land ins 0x000F) in *.
  set (sprite := take (Z.to_nat n) (drop (Z.to_nat (I cpu)) (RAM cpu))) in *.
  set (vx := at_ (V cpu) (X ins)) in *. set (vy := at_ (V cpu) (Y ins)) in *.
  assert (Hlen : length sprite = Z.to_nat n) by (apply length_window; lia).
  assert (Hrow : forall dy, 0 <= dy < n ->
            sprite !! Z.to_nat dy = Some (at_ (RAM cpu) (I cpu + dy))).
  { intros dy Hdy. rewrite <- (at_window (RAM cpu) (I cpu) n dy) by lia.
    apply list_lookup_lookup_total_lt. fold sprite. lia. }
  eexists. split; [exact (Hin Hfit)|].
  pose proof (touches_DrawSprite vx vy sprite cpu) as Hsame.
  split; [apply Hsame|]. split; [apply Hsame|]. split; [apply Hsame|].
  split; [|split].
  - intros dy dx Hdy Hdx.
    pose proof (target_range vx vy (0 + dy) dx) as Hrange. rewrite Z.add_0_l in Hrange.
    change (pixel ((vx + dx) mod 64) ((vy + dy) mod 32)) with (target vx vy dy dx).
    rewrite at_DrawSprite by (assumption || lia). f_equal.
    apply parity_once; [apply NoDup_plots; lia|].
    apply elem_of_plots. exists (Z.to_nat dy), (at_ (RAM cpu) (I cpu + dy)), dx.
    rewrite Z.add_0_l, Z2Nat.id by lia. auto using Hrow.
  - rewrite flag_DrawSprite by (assumption || lia).
    destruct (existsb _ _); auto.
  - rewrite flag_DrawSprite by (assumption || lia).
    transitivity (existsb (hits (FRAMEBUFFER cpu)) (plots vx vy 0 sprite) = true).
    { destruct (existsb _ _); split; congruence || lia. }
    rewrite hits_plots. split.
    + intros (dy & v & dx & Hv & Hdx & Hbit & Hlit).
      assert (Hdy : 0 <= Z.of_nat dy < n).
      { apply lookup_lt_Some in Hv. lia. }
      exists (Z.of_nat dy), dx.
      pose proof (Hrow _ Hdy) as Hv'. rewrite Nat2Z.id, Hv in Hv'.
      injection Hv' as <-. auto.
    + intros (dy & dx & Hdy & Hdx & Hbit & Hlit).
      exists (Z.to_nat dy), (at_ (RAM cpu) (I cpu + dy)), dx.
      rewrite Z2Nat.id by lia. auto using Hrow.
Qed.

Lemma draw_from_memory_witness :
  exists cpu',
    DecodeExecute 0 0xD125 (set_I 0 (loaded [0xF0; 0x90])) = Done tt cpu'
    /\ RAM cpu' = RAM (set_I 0 (loaded [0xF0; 0x90]))
    /\ I cpu' = I (set_I 0 (loaded [0xF0; 0x90]))
    /\ PC cpu' = PC (set_I 0 (loaded [0xF0; 0x90]))
    /\ (forall dy dx, 0 <= dy < Z.land 0xD125 0x000F -> 0 <= dx < 8 ->
          at_ (FRAMEBUFFER cpu')
              (pixel ((at_ (V (set_I 0 (loaded [0xF0; 0x90]))) (X 0xD125) + dx) mod 64)
                     ((at_ (V (set_I 0 (loaded [0xF0; 0x90]))) (Y 0xD125) + dy) mod 32))
          = xorb (at_ (FRAMEBUFFER (set_I 0 (loaded [0xF0; 0x90])))
                      (pixel ((at_ (V (set_I 0 (loaded [0xF0; 0x90]))) (X 0xD125) + dx) mod 64)
                             ((at_ (V (set_I 0 (loaded [0xF0; 0x90]))) (Y 0xD125) + dy) mod 32)))
                 (sprite_bit (at_ (RAM (set_I 0 (loaded [0xF0; 0x90])))
                                  (I (set_I 0 (loaded [0xF0; 0x90])) + dy)) dx))
    /\ (at_ (V cpu') 0xF = 1 \/ at_ (V cpu') 0xF = 0)
    /\ (at_ (V cpu') 0xF = 1 <->
        exists dy dx, 0 <= dy < Z.land 0xD125 0x000F /\ 0 <= dx < 8
          /\ sprite_bit (at_ (RAM (set_I 0 (loaded [0xF0; 0x90])))
                             (I (set_I 0 (loaded [0xF0; 0x90])) + dy)) dx = true
          /\ at_ (FRAMEBUFFER (set_I 0 (loaded [0xF0; 0x90])))
                 (pixel ((at_ (V (set_I 0 (loaded [0xF0; 0x90]))) (X 0xD125) + dx) mod 64)
                        ((at_ (V (set_I 0 (loaded [0xF0; 0x90]))) (Y 0xD125) + dy) mod 32)) = true).
Proof.
  apply (draw_from_memory 0 0xD125 (set_I 0 (loaded [0xF0; 0x90]))).
  - apply wfb_wf. vm_compute. reflexivity.
  - reflexivity.
  - vm_compute. discriminate.
Defined.

(** ** The debug line *)

(** X25. The debug line agrees with [Fetch]: on a machine within its types
    [PrintDebugCompact] reads memory inside its bounds only; it prints an
    instruction word exactly when the program counter is below 4095, and
    from 0x200 on that word is the one the next [Fetch] returns; at 4095 and
    above, where [Fetch] panics on the memory index, it prints none.  The
    line always has the header, the sixteen registers in order and the line
    end. *)
Theorem debug_line_shows_next_fetch cpu :
  wf cpu ->
  exists shown,
    PrintDebugCompact cpu
    = [ Printf "PC:0x%04X I:0x%04X SP:%d DT:%d ST:%d | "
               [PC cpu; I cpu; SP cpu; DT cpu; ST cpu];
        Print "V:" ]
      ++ ((fun i => Printf "%02X " [at_ (V cpu) i]) <$> seqZ 0 16)
      ++ shown ++ [ Println ]
    /\ (PC cpu < 4095 ->
        PC cpu + 1 < Z.of_nat (length (RAM cpu))
        /\ shown = [ Printf "| Instr:0x%04X"
                       [256 * at_ (RAM cpu) (PC cpu) + at_ (RAM cpu) (PC cpu + 1)] ]
        /\ (0x200 <= PC cpu ->
            Fetch cpu = Done (256 * at_ (RAM cpu) (PC cpu) + at_ (RAM cpu) (PC cpu + 1))
                             (set_PC (PC cpu + 2) cpu)))
    /\ (4095 <= PC cpu -> shown = [] /\ Fetch cpu = Panic IndexOutOfRange cpu).
Proof.
  intros Hwf. pose proof (wf_PC _ Hwf) as HPC. pose proof (wf_RAM_len _ Hwf) as Hlen.
  unfold PrintDebugCompact. eexists. split; [reflexivity|].
  destruct (fetch_in_range cpu Hwf) as [Hin Hout].
  destruct (Z.ltb_spec (PC cpu) 4095) as [Hlt|Hge]; split; intros H; try lia.
  - split; [lia|]. split; [|intros Hlow; apply Hin; lia].
    do 3 f_equal.
    replace (u16 (PC cpu + 1)) with (PC cpu + 1) by (unfold u16; rewrite Z.mod_small; lia).
    pose proof (at_byte_RAM cpu (PC cpu) Hwf ltac:(lia)) as H1.
    pose proof (at_byte_RAM cpu (PC cpu + 1) Hwf ltac:(lia)) as H2.
    assert (Hu : forall b, 0 <= b < 256 -> u16 b = b)
      by (intros b Hb; unfold u16; apply Z.mod_small; lia).
    rewrite (Hu _ H1), (Hu _ H2). now apply word_of_bytes.
  - split; [reflexivity|]. now apply Hout.
Qed.

Lemma debug_line_shows_next_fetch_witness :
  Fetch (loaded [0x12; 0x34])
  = Done (256 * at_ (RAM (loaded [0x12; 0x34])) (PC (loaded [0x12; 0x34]))
          + at_ (RAM (loaded [0x12; 0x34])) (PC (loaded [0x12; 0x34]) + 1))
         (set_PC (PC (loaded [0x12; 0x34]) + 2) (loaded [0x12; 0x34]))
  /\ Fetch (set_PC 0xFFF zero) = Panic IndexOutOfRange (set_PC 0xFFF zero).
Proof.
  split.
  - destruct (debug_line_shows_next_fetch (loaded [0x12; 0x34])) as (shown & _ & Hlow & _).
    + apply wfb_wf. vm_compute. reflexivity.
    + destruct Hlow as (_ & _ & Hfetch); [vm_compute; reflexivity|].
      apply Hfetch. vm_compute. discriminate.
  - destruct (debug_line_shows_next_fetch (set_PC 0xFFF zero)) as (shown & _ & _ & Hhigh).
    + apply wfb_wf. vm_compute. reflexivity.
    + apply Hhigh. vm_compute. discriminate.
Defined.

(** * Properties of the window *)

(** ** The display on the window *)

(** X26. [RenderDisplay] draws one white square of 13 by 13 for every lit
    pixel and nothing else (the debug text apart, which comes last when it
    is asked for): the square of the pixel at column x of row y has its
    corner at (13 x, 13 y), no square is drawn twice, and all lie inside the
    window of 832 by 416. *)
Theorem render_display_squares cpu :
  (forall c, c ∈ main.RenderDisplay false cpu <->
     exists x y, 0 <= x < 64 /\ 0 <= y < 32
       /\ at_ (FRAMEBUFFER cpu) (pixel x y) = true
       /\ c = main.DrawRectangle (13 * x) (13 * y) 13 13 main.White)
  /\ NoDup (main.RenderDisplay false cpu)
  /\ (forall posX posY width height color,
        main.DrawRectangle posX posY width height color ∈ main.RenderDisplay false cpu ->
        0 <= posX /\ posX + width <= main.windowWidth
        /\ 0 <= posY /\ posY + height <= main.windowHeight)
  /\ main.RenderDisplay true cpu = main.RenderDisplay false cpu ++ main.renderCpuDebug cpu.
Proof.
  assert (Hin : forall c, c ∈ main.RenderDisplay false cpu <->
     exists x y, 0 <= x < 64 /\ 0 <= y < 32
       /\ at_ (FRAMEBUFFER cpu) (pixel x y) = true
       /\ c = main.DrawRectangle (13 * x) (13 * y) 13 13 main.White).
  { intros c. unfold main.RenderDisplay. rewrite app_nil_r, list_elem_of_bind. split.
    - intros (y & Hc & Hy). apply list_elem_of_bind in Hc as (x & Hc & Hx).
      apply elem_of_seqZ in Hy, Hx. change FB_HEIGHT with 32 in Hy. change FB_WIDTH with 64 in Hx.
      destruct (at_ (FRAMEBUFFER cpu) (y * FB_WIDTH + x)) eqn:Hlit;
        [|now apply elem_of_nil in Hc].
      apply list_elem_of_singleton in Hc as ->.
      exists x, y. repeat split; try lia; [exact Hlit|].
      unfold main.WINDOW_SCALING. f_equal; lia.
    - intros (x & y & Hx & Hy & Hlit & ->). exists y. split.
      + apply list_elem_of_bind. exists x. split; [|apply elem_of_seqZ; change FB_WIDTH with 64; lia].
        unfold pixel in Hlit. rewrite Hlit. apply list_elem_of_singleton.
        unfold main.WINDOW_SCALING. f_equal; lia.
      + apply elem_of_seqZ. change FB_HEIGHT with 32. lia. }
  split; [exact Hin|]. split; [|split].
  - unfold main.RenderDisplay. rewrite app_nil_r.
    apply NoDup_bind; [| |apply NoDup_seqZ].
    + intros y1 y2 c _ _ H1 H2.
      apply list_elem_of_bind in H1 as (x1 & H1 & _), H2 as (x2 & H2 & _).
      destruct (at_ _ _); [|now apply elem_of_nil in H1].
      destruct (at_ _ _); [|now apply elem_of_nil in H2].
      apply list_elem_of_singleton in H1, H2. subst c.
      unfold main.WINDOW_SCALING in H2. injection H2. lia.
    + intros y _. apply NoDup_bind; [| |apply NoDup_seqZ].
      * intros x1 x2 c _ _ H1 H2.
        destruct (at_ _ _); [|now apply elem_of_nil in H1].
        destruct (at_ _ _); [|now apply elem_of_nil in H2].
        apply list_elem_of_singleton in H1, H2. subst c.
        unfold main.WINDOW_SCALING in H2. injection H2. lia.
      * intros x _. destruct (at_ _ _); [apply NoDup_singleton | apply NoDup_nil_2].
  - intros posX posY width height color Hc.
    apply Hin in Hc as (x & y & Hx & Hy & _ & Heq). injection Heq as -> -> -> -> ->.
    unfold main.windowWidth, main.windowHeight, main.WINDOW_SCALING.
    change FB_WIDTH with 64. change FB_HEIGHT with 32. lia.
  - unfold main.RenderDisplay. now rewrite app_nil_r.
Qed.

(** ** The keys on their way to the machine *)

Lemma KEY_MAP_keys key k :
  (key, k) ∈ main.KEY_MAP -> 0 <= k <= 15 /\ forall key', (key', k) ∈ main.KEY_MAP -> key' = key.
Proof.
  intros Hk. split.
  - unfold main.KEY_MAP in Hk.
    repeat (apply elem_of_cons in Hk as [Hk|Hk]; [injection Hk as -> ->; lia|]).
    now apply elem_of_nil in Hk.
  - intros key' Hk'. unfold main.KEY_MAP in Hk, Hk'.
    repeat (apply elem_of_cons in Hk as [Hk|Hk];
            [injection Hk as -> ->;
             repeat (apply elem_of_cons in Hk' as [Hk'|Hk'];
                     [simplify_eq; reflexivity|]);
             now apply elem_of_nil in Hk'|]).
    now apply elem_of_nil in Hk.
Qed.

Lemma PressedKeys_spec f :
  main.range_KEY_MAP f ≡ₚ main.KEY_MAP ->
  bytes (main.PressedKeys f)
  /\ forall k, k ∈ main.PressedKeys f <->
       exists key, (key, k) ∈ main.KEY_MAP /\ main.IsKeyDown f key = true.
Proof.
  intros Hperm.
  assert (Hin : forall k, k ∈ main.PressedKeys f <->
            exists key, (key, k) ∈ main.KEY_MAP /\ main.IsKeyDown f key = true).
  { intros k. unfold main.PressedKeys. rewrite list_elem_of_fmap. split.
    - intros ([key k'] & -> & Hkv).
      apply list_elem_of_In, filter_In in Hkv as [Hkv Hdown].
      exists key. split; [|exact Hdown].
      rewrite <- Hperm. now apply list_elem_of_In.
    - intros (key & Hkv & Hdown). exists (key, k). split; [reflexivity|].
      apply list_elem_of_In, filter_In. split; [|exact Hdown].
      apply list_elem_of_In. now rewrite Hperm. }
  split; [|exact Hin].
  apply List.Forall_forall. intros k Hk.
  apply list_elem_of_In, Hin in Hk as (key & Hkv & _).
  apply KEY_MAP_keys in Hkv. lia.
Qed.

(** X27. The keys held down reach the machine whatever the order in which
    the key map is ranged over: after [RenderEmulatorScreen], for every
    entry of [KEY_MAP], [IsKeyPressed] answers for the CHIP-8 key what
    raylib answered for the keyboard key; only the keyboard word of the
    machine has changed, and the display is drawn after the background is
    cleared. *)
Theorem keys_reach_machine showDebug f cpu :
  main.range_KEY_MAP f ≡ₚ main.KEY_MAP ->
  (forall key k, (key, k) ∈ main.KEY_MAP ->
     IsKeyPressed k (main.RenderEmulatorScreen showDebug f cpu).1 = main.IsKeyDown f key)
  /\ (main.RenderEmulatorScreen showDebug f cpu).1
     = set_KEYBOARD (KEYBOARD (main.RenderEmulatorScreen showDebug f cpu).1) cpu
  /\ (main.RenderEmulatorScreen showDebug f cpu).2
     = main.ClearBackground main.DarkGray :: main.RenderDisplay showDebug cpu.
Proof.
  intros Hperm. destruct (PressedKeys_spec f Hperm) as [Hbytes Hin].
  unfold main.RenderEmulatorScreen. cbn [fst snd]. split; [|split].
  - intros key k Hk. destruct (KEY_MAP_keys key k Hk) as [Hrange Huniq].
    rewrite pressed_after_update by (assumption || lia).
    destruct (main.IsKeyDown f key) eqn:Hdown.
    + apply bool_decide_eq_true_2, Hin. now exists key.
    + apply bool_decide_eq_false_2. intros (key' & Hk' & Hdown')%Hin.
      rewrite (Huniq key' Hk') in Hdown'. congruence.
  - apply UpdateKeyboard_fields.
  - f_equal. unfold main.RenderDisplay, main.renderCpuDebug.
    now rewrite (UpdateKeyboard_fields _ cpu).
Qed.

Lemma keys_reach_machine_witness :
  (forall key k, (key, k) ∈ main.KEY_MAP ->
     IsKeyPressed k
       (main.RenderEmulatorScreen false
          (main.mkFrame (fun key => match key with main.KeyF | main.KeyTwo => true | _ => false end)
                        (fun _ => false) (reverse main.KEY_MAP)) zero).1
     = main.IsKeyDown
         (main.mkFrame (fun key => match key with main.KeyF | main.KeyTwo => true | _ => false end)
                       (fun _ => false) (reverse main.KEY_MAP)) key)
  /\ (main.RenderEmulatorScreen false
        (main.mkFrame (fun key => match key with main.KeyF | main.KeyTwo => true | _ => false end)
                      (fun _ => false) (reverse main.KEY_MAP)) zero).1
     = set_KEYBOARD
         (KEYBOARD (main.RenderEmulatorScreen false
            (main.mkFrame (fun key => match key with main.KeyF | main.KeyTwo => true | _ => false end)
                          (fun _ => false) (reverse main.KEY_MAP)) zero).1) zero
  /\ (main.RenderEmulatorScreen false
        (main.mkFrame (fun key => match key with main.KeyF | main.KeyTwo => true | _ => false end)
                      (fun _ => false) (reverse main.KEY_MAP)) zero).2
     = main.ClearBackground main.DarkGray :: main.RenderDisplay false zero.
Proof.
  apply (keys_reach_machine false
           (main.mkFrame (fun key => match key with main.KeyF | main.KeyTwo => true | _ => false end)
                         (fun _ => false) (reverse main.KEY_MAP)) zero).
  apply reverse_Permutation.
Defined.

(** ** The rom selection screen *)

Lemma i64_small z : - 2 ^ 63 <= z < 2 ^ 63 -> main.i64 z = z.
Proof. intros Hz. unfold main.i64. rewrite Z.mod_small; lia. Qed.

Lemma select_down ReadFile roms f p :
  main.IsKeyReleased f main.KeyDown = true -> roms <> [] ->
  main.RenderRomSelectScreen ReadFile roms f p
  = main.Returned
      (main.mkProgram
         (Z.rem (main.i64 (main.currentRomCursorIndex p + 1)) (Z.of_nat (length roms)))
         (main.currentScreen p) (main.cpu p))
      ([main.ClearBackground main.RayWhite]
       ++ main.draw_roms
            (Z.rem (main.i64 (main.currentRomCursorIndex p + 1)) (Z.of_nat (length roms)))
            0 45 roms).
Proof.
  intros Hdown Hroms. unfold main.RenderRomSelectScreen. rewrite Hdown.
  destruct (Z.eqb_spec (Z.of_nat (length roms)) 0) as [Hlen|_]; [|reflexivity].
  destruct roms; [congruence | discriminate Hlen].
Qed.

Lemma select_up ReadFile roms f p :
  main.IsKeyReleased f main.KeyDown = false -> main.IsKeyReleased f main.KeyUp = true ->
  main.RenderRomSelectScreen ReadFile roms f p
  = main.Returned
      (main.mkProgram
         (if 0 <? main.currentRomCursorIndex p then main.currentRomCursorIndex p - 1
          else Z.of_nat (length roms) - 1)
         (main.currentScreen p) (main.cpu p))
      ([main.ClearBackground main.RayWhite]
       ++ main.draw_roms
            (if 0 <? main.currentRomCursorIndex p then main.currentRomCursorIndex p - 1
             else Z.of_nat (length roms) - 1)
            0 45 roms).
Proof.
  intros Hdown Hup. unfold main.RenderRomSelectScreen. rewrite Hdown, Hup.
  now destruct (0 <? main.currentRomCursorIndex p).
Qed.

(** X28. On the rom selection screen the cursor walks round the list: with
    the cursor on one of [n > 0] roms, a released [Down] moves it to the
    next rom and from the last to the first, whatever other keys were
    released, a released [Up] (without [Down]) moves it to the rom before
    and from the first to the last, either leaves it on a rom and returns
    with screen and machine as they were, and [Down] then [Up], or [Up] then
    [Down], bring the program back to where it was. *)
Theorem rom_cursor_walks ReadFile roms down up p :
  Z.of_nat (length roms) < 2 ^ 63 ->
  0 <= main.currentRomCursorIndex p < Z.of_nat (length roms) ->
  main.IsKeyReleased down main.KeyDown = true ->
  main.IsKeyReleased up main.KeyDown = false -> main.IsKeyReleased up main.KeyUp = true ->
  let n := Z.of_nat (length roms) in
  let moved (c : Z) := main.mkProgram c (main.currentScreen p) (main.cpu p) in
  exists calls_down calls_up calls_back calls_forth,
    main.RenderRomSelectScreen ReadFile roms down p
    = main.Returned (moved ((main.currentRomCursorIndex p + 1) mod n)) calls_down
    /\ main.RenderRomSelectScreen ReadFile roms up p
       = main.Returned (moved ((main.currentRomCursorIndex p - 1) mod n)) calls_up
    /\ main.RenderRomSelectScreen ReadFile roms up
         (moved ((main.currentRomCursorIndex p + 1) mod n))
       = main.Returned p calls_back
    /\ main.RenderRomSelectScreen ReadFile roms down
         (moved ((main.currentRomCursorIndex p - 1) mod n))
       = main.Returned p calls_forth.
Proof.
  intros Hint Hc Hdown Hnodown Hup n moved. subst moved. fold n in Hc, Hint.
  assert (Hroms : roms <> []) by (intros ->; cbn in n; lia).
  destruct p as [c screen cpu]. cbn [main.currentRomCursorIndex main.currentScreen main.cpu] in *.
  pose proof (Z.mod_pos_bound (c + 1) n ltac:(lia)) as Hnext.
  pose proof (Z.mod_pos_bound (c - 1) n ltac:(lia)) as Hprev.
  rewrite !(select_down _ _ _ _ Hdown Hroms), !(select_up _ _ _ _ Hnodown Hup).
  cbn [main.currentRomCursorIndex main.currentScreen main.cpu]. fold n.
  assert (Hdown1 : Z.rem (main.i64 (c + 1)) n = (c + 1) mod n).
  { rewrite i64_small by lia. apply Z.rem_mod_nonneg; lia. }
  assert (Hm1 : (0 - 1) mod n = n - 1)
    by (symmetry; apply (Z.mod_unique _ _ (-1)); lia).
  assert (Hup1 : (if 0 <? c then c - 1 else n - 1) = (c - 1) mod n).
  { destruct (Z.ltb_spec 0 c).
    - now rewrite Z.mod_small by lia.
    - replace c with 0 by lia. now rewrite Hm1. }
  assert (Hback : (if 0 <? (c + 1) mod n then (c + 1) mod n - 1 else n - 1) = c).
  { destruct (Z.eq_dec (c + 1) n) as [Hlast|Hin].
    - rewrite Hlast, Z_mod_same_full. cbn. lia.
    - rewrite (Z.mod_small (c + 1)) by lia. destruct (Z.ltb_spec 0 (c + 1)); lia. }
  assert (Hforth : Z.rem (main.i64 ((c - 1) mod n + 1)) n = c).
  { rewrite i64_small by lia. rewrite Z.rem_mod_nonneg by lia.
    destruct (Z.eq_dec c 0) as [->|Hpos].
    - rewrite Hm1. replace (n - 1 + 1) with n by lia. apply Z_mod_same_full.
    - rewrite (Z.mod_small (c - 1)) by lia.
      replace (c - 1 + 1) with c by lia. apply Z.mod_small. lia. }
  rewrite Hdown1, Hup1, Hback, Hforth.
  do 4 eexists. repeat split; reflexivity.
Qed.

Lemma rom_cursor_walks_witness :
  exists calls_down calls_up calls_back calls_forth,
    main.RenderRomSelectScreen (fun _ => None) ["a.ch8"; "b.ch8"; "c.ch8"]
      (main.mkFrame (fun _ => false) (fun _ => true) [])
      (main.mkProgram 2 main.RomSelect zero)
    = main.Returned
        (main.mkProgram ((2 + 1) mod Z.of_nat (length ["a.ch8"; "b.ch8"; "c.ch8"]))
                        main.RomSelect zero) calls_down
    /\ main.RenderRomSelectScreen (fun _ => None) ["a.ch8"; "b.ch8"; "c.ch8"]
         (main.mkFrame (fun _ => false)
                       (fun key => match key with main.KeyUp => true | _ => false end) [])
         (main.mkProgram 2 main.RomSelect zero)
       = main.Returned
           (main.mkProgram ((2 - 1) mod Z.of_nat (length ["a.ch8"; "b.ch8"; "c.ch8"]))
                           main.RomSelect zero) calls_up
    /\ main.RenderRomSelectScreen (fun _ => None) ["a.ch8"; "b.ch8"; "c.ch8"]
         (main.mkFrame (fun _ => false)
                       (fun key => match key with main.KeyUp => true | _ => false end) [])
         (main.mkProgram ((2 + 1) mod Z.of_nat (length ["a.ch8"; "b.ch8"; "c.ch8"]))
                         main.RomSelect zero)
       = main.Returned (main.mkProgram 2 main.RomSelect zero) calls_back
    /\ main.RenderRomSelectScreen (fun _ => None) ["a.ch8"; "b.ch8"; "c.ch8"]
         (main.mkFrame (fun _ => false) (fun _ => true) [])
         (main.mkProgram ((2 - 1) mod Z.of_nat (length ["a.ch8"; "b.ch8"; "c.ch8"]))
                         main.RomSelect zero)
       = main.Returned (main.mkProgram 2 main.RomSelect zero) calls_forth.
Proof.
  apply (rom_cursor_walks (fun _ => None) ["a.ch8"; "b.ch8"; "c.ch8"]
           (main.mkFrame (fun _ => false) (fun _ => true) [])
           (main.mkFrame (fun _ => false)
                         (fun key => match key with main.KeyUp => true | _ => false end) [])
           (main.mkProgram 2 main.RomSelect zero)).
  - reflexivity.
  - cbn. lia.
  - reflexivity.
  - reflexivity.
  - reflexivity.
Defined.

Lemma select_enter ReadFile roms f p :
  main.IsKeyReleased f main.KeyDown = false -> main.IsKeyReleased f main.KeyUp = false ->
  main.IsKeyReleased f main.KeyEnter = true ->
  main.RenderRomSelectScreen ReadFile roms f p
  = if (0 <=? main.currentRomCursorIndex p)
       && (main.currentRomCursorIndex p <? Z.of_nat (length roms))
    then
      match main.InitializeFromFiles ReadFile (at_ roms (main.currentRomCursorIndex p))
              (main.cpu p) with
      | inl (Done _ cpu') =>
          main.Returned
            (main.mkProgram (main.currentRomCursorIndex p) main.EmulatorScreen cpu')
            ([main.ClearBackground main.RayWhite]
             ++ main.draw_roms (main.currentRomCursorIndex p) 0 45 roms)
      | inl (Panic e cpu') =>
          main.Panicked (main.RuntimeError e)
            (main.mkProgram (main.currentRomCursorIndex p) (main.currentScreen p) cpu')
            [main.ClearBackground main.RayWhite]
      | inl (Spin cpu') =>
          main.Hung
            (main.mkProgram (main.currentRomCursorIndex p) (main.currentScreen p) cpu')
            [main.ClearBackground main.RayWhite]
      | inr (v, cpu') =>
          main.Panicked v
            (main.mkProgram (main.currentRomCursorIndex p) (main.currentScreen p) cpu')
            [main.ClearBackground main.RayWhite]
      end
    else main.Panicked (main.RuntimeError IndexOutOfRange) p [main.ClearBackground main.RayWhite].
Proof.
  intros Hdown Hup Henter. unfold main.RenderRomSelectScreen.
  rewrite Hdown, Hup, Henter.
  destruct (_ && _); [|reflexivity].
  destruct (main.InitializeFromFiles _ _ _) as [[[] cpu'|e cpu'|cpu']|[v cpu']]; reflexivity.
Qed.

(** X29. [Enter] on the rom selection screen starts the rom under the
    cursor: with both files readable the machine is initialised with the
    digits and that rom, the screen becomes the emulator screen and the
    cursor stays; with the digits file unreadable the function panics on
    the read and the machine is untouched; with the rom file unreadable it
    panics on the read with the digits already loaded; in both cases the
    screen stays.  With the cursor off the list it panics on the index. *)
Theorem rom_select_enter ReadFile roms f p :
  main.IsKeyReleased f main.KeyDown = false -> main.IsKeyReleased f main.KeyUp = false ->
  main.IsKeyReleased f main.KeyEnter = true ->
  wf (main.cpu p) ->
  let c := main.currentRomCursorIndex p in
  let romFile := "roms/" +:+ at_ roms c in
  let cleared := [main.ClearBackground main.RayWhite] in
  (0 <= c < Z.of_nat (length roms) ->
   (forall digits rom,
      ReadFile "chip8/digits.rom" = Some digits -> ReadFile romFile = Some rom ->
      exists cpu' calls,
        Initialize digits rom (main.cpu p) = Done tt cpu'
        /\ main.RenderRomSelectScreen ReadFile roms f p
           = main.Returned (main.mkProgram c main.EmulatorScreen cpu') calls)
   /\ (ReadFile "chip8/digits.rom" = None ->
       main.RenderRomSelectScreen ReadFile roms f p
       = main.Panicked (main.ReadFileError "chip8/digits.rom") p cleared)
   /\ (forall digits,
         ReadFile "chip8/digits.rom" = Some digits -> ReadFile romFile = None ->
         exists cpu1,
           LoadRom digits 0 (main.cpu p) = Done tt cpu1
           /\ main.RenderRomSelectScreen ReadFile roms f p
              = main.Panicked (main.ReadFileError romFile)
                  (main.mkProgram c (main.currentScreen p) cpu1) cleared))
  /\ (c < 0 \/ Z.of_nat (length roms) <= c ->
      main.RenderRomSelectScreen ReadFile roms f p
      = main.Panicked (main.RuntimeError IndexOutOfRange) p cleared).
Proof.
  intros Hdown Hup Henter Hwf c romFile cleared. subst c romFile cleared.
  rewrite (select_enter _ _ _ _ Hdown Hup Henter).
  destruct p as [c screen cpu].
  cbn [main.currentRomCursorIndex main.currentScreen main.cpu] in *.
  split.
  - intros Hc.
    destruct (Z.leb_spec 0 c); [|lia]. destruct (Z.ltb_spec c (Z.of_nat (length roms))); [|lia].
    cbn [andb]. unfold main.InitializeFromFiles. split; [|split].
    + intros digits rom Hdigits Hrom.
      destruct (Initialize_memory digits rom cpu (wf_RAM_len _ Hwf)) as (ram & Hinit & _).
      destruct (LoadRom_memory digits 0 cpu (wf_RAM_len _ Hwf) ltac:(lia))
        as (ram1 & Hload & _).
      rewrite Hdigits, Hload, Hrom, Hinit. eauto.
    + intros Hdigits. now rewrite Hdigits.
    + intros digits Hdigits Hrom.
      destruct (LoadRom_memory digits 0 cpu (wf_RAM_len _ Hwf) ltac:(lia))
        as (ram1 & Hload & _).
      rewrite Hdigits, Hload, Hrom. eauto.
  - intros Hc.
    destruct (Z.leb_spec 0 c), (Z.ltb_spec c (Z.of_nat (length roms))); try lia; reflexivity.
Qed.

Lemma rom_select_enter_witness :
  (exists cpu' calls,
     Initialize [0xF0; 0x90] [0x12; 0x00] zero = Done tt cpu'
     /\ main.RenderRomSelectScreen
          (fun path => if decide (path = "chip8/digits.rom") then Some [0xF0; 0x90]
                       else if decide (path = "roms/a.ch8") then Some [0x12; 0x00] else None)
          ["a.ch8"; "b.ch8"]
          (main.mkFrame (fun _ => false)
                        (fun key => match key with main.KeyEnter => true | _ => false end) [])
          (main.mkProgram 0 main.RomSelect zero)
        = main.Returned (main.mkProgram 0 main.EmulatorScreen cpu') calls)
  /\ main.RenderRomSelectScreen (fun _ => None) ["a.ch8"; "b.ch8"]
       (main.mkFrame (fun _ => false)
                     (fun key => match key with main.KeyEnter => true | _ => false end) [])
       (main.mkProgram 0 main.RomSelect zero)
     = main.Panicked (main.ReadFileError "chip8/digits.rom")
         (main.mkProgram 0 main.RomSelect zero) [main.ClearBackground main.RayWhite]
  /\ (exists cpu1,
        LoadRom [0xF0; 0x90] 0 zero = Done tt cpu1
        /\ main.RenderRomSelectScreen
             (fun path => if decide (path = "chip8/digits.rom") then Some [0xF0; 0x90]
                          else if decide (path = "roms/a.ch8") then Some [0x12; 0x00] else None)
             ["a.ch8"; "b.ch8"]
             (main.mkFrame (fun _ => false)
                           (fun key => match key with main.KeyEnter => true | _ => false end) [])
             (main.mkProgram 1 main.RomSelect zero)
           = main.Panicked (main.ReadFileError ("roms/" +:+ at_ ["a.ch8"; "b.ch8"] 1))
               (main.mkProgram 1 main.RomSelect cpu1) [main.ClearBackground main.RayWhite])
  /\ main.RenderRomSelectScreen (fun _ => None) ["a.ch8"; "b.ch8"]
       (main.mkFrame (fun _ => false)
                     (fun key => match key with main.KeyEnter => true | _ => false end) [])
       (main.mkProgram 2 main.RomSelect zero)
     = main.Panicked (main.RuntimeError IndexOutOfRange)
         (main.mkProgram 2 main.RomSelect zero) [main.ClearBackground main.RayWhite].
Proof.
  split; [|split; [|split]].
  - destruct (rom_select_enter
                (fun path => if decide (path = "chip8/digits.rom") then Some [0xF0; 0x90]
                             else if decide (path = "roms/a.ch8") then Some [0x12; 0x00] else None)
                ["a.ch8"; "b.ch8"]
                (main.mkFrame (fun _ => false)
                              (fun key => match key with main.KeyEnter => true | _ => false end) [])
                (main.mkProgram 0 main.RomSelect zero) eq_refl eq_refl eq_refl wf_zero)
      as [Hon _].
    destruct Hon as (Hok & _ & _); [cbn; lia|].
    apply (Hok [0xF0; 0x90] [0x12; 0x00]); reflexivity.
  - destruct (rom_select_enter (fun _ => None) ["a.ch8"; "b.ch8"]
                (main.mkFrame (fun _ => false)
                              (fun key => match key with main.KeyEnter => true | _ => false end) [])
                (main.mkProgram 0 main.RomSelect zero) eq_refl eq_refl eq_refl wf_zero)
      as [Hon _].
    destruct Hon as (_ & Hnodigits & _); [cbn; lia|].
    apply Hnodigits. reflexivity.
  - destruct (rom_select_enter
                (fun path => if decide (path = "chip8/digits.rom") then Some [0xF0; 0x90]
                             else if decide (path = "roms/a.ch8") then Some [0x12; 0x00] else None)
                ["a.ch8"; "b.ch8"]
                (main.mkFrame (fun _ => false)
                              (fun key => match key with main.KeyEnter => true | _ => false end) [])
                (main.mkProgram 1 main.RomSelect zero) eq_refl eq_refl eq_refl wf_zero)
      as [Hon _].
    destruct Hon as (_ & _ & Hnorom); [cbn; lia|].
    apply (Hnorom [0xF0; 0x90]); reflexivity.
  - destruct (rom_select_enter (fun _ => None) ["a.ch8"; "b.ch8"]
                (main.mkFrame (fun _ => false)
                              (fun key => match key with main.KeyEnter => true | _ => false end) [])
                (main.mkProgram 2 main.RomSelect zero) eq_refl eq_refl eq_refl wf_zero)
      as [_ Hoff].
    apply Hoff. cbn. lia.
Defined.

(** X30. With no rom to list the rom selection screen has no good key: a
    released [Down] panics on the division by zero, the cursor already
    moved; a released [Up] returns with the cursor at -1; [Enter] panics on
    the index of the empty list, as it does for every cursor. *)
Theorem rom_select_empty_list ReadFile f p :
  (main.IsKeyReleased f main.KeyDown = true ->
   - 2 ^ 63 <= main.currentRomCursorIndex p < 2 ^ 63 - 1 ->
   main.RenderRomSelectScreen ReadFile [] f p
   = main.Panicked main.IntegerDivideByZero
       (main.mkProgram (main.currentRomCursorIndex p + 1) (main.currentScreen p) (main.cpu p))
       [main.ClearBackground main.RayWhite])
  /\ (main.IsKeyReleased f main.KeyDown = false -> main.IsKeyReleased f main.KeyUp = true ->
      main.currentRomCursorIndex p <= 0 ->
      main.RenderRomSelectScreen ReadFile [] f p
      = main.Returned (main.mkProgram (-1) (main.currentScreen p) (main.cpu p))
          [main.ClearBackground main.RayWhite])
  /\ (main.IsKeyReleased f main.KeyDown = false -> main.IsKeyReleased f main.KeyUp = false ->
      main.IsKeyReleased f main.KeyEnter = true ->
      main.RenderRomSelectScreen ReadFile [] f p
      = main.Panicked (main.RuntimeError IndexOutOfRange) p
          [main.ClearBackground main.RayWhite]).
Proof.
  split; [|split].
  - intros Hdown Hc. unfold main.RenderRomSelectScreen. rewrite Hdown. cbn [length Z.of_nat Z.eqb].
    now rewrite i64_small by lia.
  - intros Hdown Hup Hc. rewrite (select_up _ _ _ _ Hdown Hup).
    destruct (Z.ltb_spec 0 (main.currentRomCursorIndex p)); [lia|]. reflexivity.
  - intros Hdown Hup Henter. rewrite (select_enter _ _ _ _ Hdown Hup Henter).
    change (Z.of_nat (length (@nil string))) with 0.
    destruct (Z.leb_spec 0 (main.currentRomCursorIndex p)),
             (Z.ltb_spec (main.currentRomCursorIndex p) 0); try lia; reflexivity.
Qed.

Lemma rom_select_empty_list_witness :
  main.RenderRomSelectScreen (fun _ => None) []
    (main.mkFrame (fun _ => false) (fun _ => true) [])
    (main.mkProgram 0 main.RomSelect zero)
  = main.Panicked main.IntegerDivideByZero
      (main.mkProgram (0 + 1) main.RomSelect zero) [main.ClearBackground main.RayWhite]
  /\ main.RenderRomSelectScreen (fun _ => None) []
       (main.mkFrame (fun _ => false)
                     (fun key => match key with main.KeyUp => true | _ => false end) [])
       (main.mkProgram 0 main.RomSelect zero)
     = main.Returned (main.mkProgram (-1) main.RomSelect zero)
         [main.ClearBackground main.RayWhite]
  /\ main.RenderRomSelectScreen (fun _ => None) []
       (main.mkFrame (fun _ => false)
                     (fun key => match key with main.KeyEnter => true | _ => false end) [])
       (main.mkProgram (-1) main.RomSelect zero)
     = main.Panicked (main.RuntimeError IndexOutOfRange)
         (main.mkProgram (-1) main.RomSelect zero) [main.ClearBackground main.RayWhite].
Proof.
  split; [|split].
  - destruct (rom_select_empty_list (fun _ => None)
                (main.mkFrame (fun _ => false) (fun _ => true) [])
                (main.mkProgram 0 main.RomSelect zero)) as (Hdown & _ & _).
    apply Hdown; [reflexivity | cbn; lia].
  - destruct (rom_select_empty_list (fun _ => None)
                (main.mkFrame (fun _ => false)
                              (fun key => match key with main.KeyUp => true | _ => false end) [])
                (main.mkProgram 0 main.RomSelect zero)) as (_ & Hup & _).
    apply Hup; [reflexivity | reflexivity | cbn; lia].
  - destruct (rom_select_empty_list (fun _ => None)
                (main.mkFrame (fun _ => false)
                              (fun key => match key with main.KeyEnter => true | _ => false end) [])
                (main.mkProgram (-1) main.RomSelect zero)) as (_ & _ & Henter).
    apply Henter; reflexivity.
Defined.

(** ** The rom list as drawn *)

Example rom_list_drawn :
  main.draw_roms 1 0 45 ["a.ch8"; "b.ch8"]
  = [ main.DrawText (main.Sprintf "%d - %s" [main.Int 0; main.Str "a.ch8"]) 45 30 14
        main.DarkGray;
      main.DrawText (main.Sprintf "%d - %s" [main.Int 1; main.Str "b.ch8"]) 45 54 14
        main.DarkGray;
      main.DrawCircle 35 60 5 main.Red ].
Proof. vm_compute. reflexivity. Qed.

(** The eighteenth rom, the first below the window of height 416, is drawn
    120 to the right and still below the window. *)
Example rom_list_below_window :
  main.draw_roms 0 17 45 ["r.ch8"]
  = [ main.DrawText (main.Sprintf "%d - %s" [main.Int 17; main.Str "r.ch8"]) 165 438 14
        main.DarkGray ].
Proof. vm_compute. reflexivity. Qed.

(** A turn on the emulator screen always returns, its drawing between
    [BeginDrawing] and [EndDrawing], and stays on that screen. *)
Lemma turn_on_emulator_screen ReadFile roms showDebug f p :
  main.currentScreen p = main.EmulatorScreen ->
  exists cpu' calls,
    main.turn ReadFile roms showDebug f p
    = main.Returned (main.mkProgram (main.currentRomCursorIndex p) main.EmulatorScreen cpu')
        (main.BeginDrawing :: calls ++ [main.EndDrawing]).
Proof.
  intros Hscreen. unfold main.turn. rewrite Hscreen.
  destruct (main.RenderEmulatorScreen showDebug f (main.cpu p)) as [cpu' calls].
  now exists cpu', calls.
Qed.


End chip8.
